(** * Security incident processor (function_app.py): a shallow embedding

    The Azure Functions application receives Sentinel incidents, asks a
    chat model for an action plan, stores one document per delivery in a
    Cosmos DB container, and answers natural-language questions by letting
    the model write the SQL that is run against the container.

    Python values that travel through the handlers are JSON values; the
    processor object, the container and the clock form one explicit world
    that every coroutine threads; an exception leaves the world as it was
    at the moment it was raised.  The services behind the application (the
    chat model, the Cosmos SQL engine, the json library, the clock, uuid4,
    the environment) are collected in a record of functions. *)

From Stdlib Require Import String Ascii List ZArith QArith Lia Bool Sorted.
From Stdlib Require Import DecimalString DecimalPos DecimalZ.
Import ListNotations.
Set Warnings "-register-all".
Local Open Scope string_scope.
Local Open Scope Z_scope.

(** ** JSON values and the Python operations on them *)

(** A Python value as json.loads produces it.  A dict is kept as the list
    of its items in insertion order; characters are code points below 256. *)
Inductive json : Type :=
| JNull
| JBool (b : bool)
| JInt (n : Z)
| JFloat (x : Q)
| JStr (s : string)
| JArr (items : list json)
| JObj (fields : list (string * json)).

Definition dict := list (string * json).

(** d.get(k) on the item list: None when the key is absent. *)
Fixpoint lookup (k : string) (d : dict) : option json :=
  match d with
  | [] => None
  | (k', v) :: rest => if String.eqb k k' then Some v else lookup k rest
  end.

(** d[k] = v : overwrite in place, or append a new item. *)
Fixpoint assign (k : string) (v : json) (d : dict) : dict :=
  match d with
  | [] => [(k, v)]
  | (k', v') :: rest =>
      if String.eqb k k' then (k', v) :: rest else (k', v') :: assign k v rest
  end.

(** bool(v). *)
Definition truthy (v : json) : bool :=
  match v with
  | JNull => false
  | JBool b => b
  | JInt n => negb (n =? 0)
  | JFloat x => negb (Qeq_bool x 0)
  | JStr s => negb (String.eqb s "")
  | JArr l => match l with [] => false | _ => true end
  | JObj d => match d with [] => false | _ => true end
  end.

(** a or b. *)
Definition py_or (a b : json) : json := if truthy a then a else b.

(** type(v).__name__ *)
Definition type_name (v : json) : string :=
  match v with
  | JNull => "NoneType"
  | JBool _ => "bool"
  | JInt _ => "int"
  | JFloat _ => "float"
  | JStr _ => "str"
  | JArr _ => "list"
  | JObj _ => "dict"
  end.

(** str(n) for an int. *)
Definition str_int (n : Z) : string := NilZero.string_of_int (Z.to_int n).

(** ** Exceptions and outcomes *)

Record exn : Type := Exn { exn_class : string; exn_str : string }.

Inductive outcome (A : Type) : Type :=
| Return (a : A)
| Raise (e : exn).
Arguments Return {A} a.
Arguments Raise {A} e.

Definition attribute_error (v : json) (attr : string) : exn :=
  Exn "AttributeError"
      ("'" ++ type_name v ++ "' object has no attribute '" ++ attr ++ "'").

Definition unhashable (v : json) : exn :=
  Exn "TypeError" ("unhashable type: '" ++ type_name v ++ "'").

(** v.get(k, default): only a dict has the method. *)
Definition py_get (v : json) (k : string) (default : json) : outcome json :=
  match v with
  | JObj d => Return (match lookup k d with Some x => x | None => default end)
  | _ => Raise (attribute_error v "get")
  end.

(** ** Constants *)

Definition COSMOS_ENDPOINT_ENV := "COSMOS_ENDPOINT".
Definition COSMOS_DATABASE_NAME_ENV := "COSMOSDB_DATABASE_NAME".
Definition COSMOS_CONTAINER_NAME_ENV := "COSMOSDB_CONTAINER_NAME".
Definition AZURE_OPENAI_ENDPOINT_ENV := "AZURE_OPENAI_ENDPOINT".
Definition OPENAI_MODEL_NAME_ENV := "OPENAI_MODEL_NAME".
Definition AZURE_OPENAI_API_VERSION_ENV := "AZURE_OPENAI_API_VERSION".

Definition DEFAULT_DATABASE_NAME := "securitydata".
Definition DEFAULT_CONTAINER_NAME := "incidents".
Definition DEFAULT_API_VERSION := "2024-02-15-preview".

Definition SEVERITY_LEVELS : list (string * Z) :=
  [("Informational", 1); ("Low", 2); ("Medium", 3); ("High", 4); ("Critical", 5)].

Fixpoint table_get (k : string) (t : list (string * Z)) : option Z :=
  match t with
  | [] => None
  | (k', v) :: rest => if String.eqb k k' then Some v else table_get k rest
  end.

(** SEVERITY_LEVELS.get(key, 0): the key is hashed first, so a list or a
    dict raises; a key that is not a string equals none of the names. *)
Definition severity_levels_get (key : json) : outcome Z :=
  match key with
  | JStr s => Return (match table_get s SEVERITY_LEVELS with Some n => n | None => 0 end)
  | JArr _ | JObj _ => Raise (unhashable key)
  | _ => Return 0
  end.

(** ** The world and the services around the application *)

Inductive event : Type :=
| ChatCall (messages : list (string * string))
| CreateItem (body : json)
| ReadItem (item : json)
| ReplaceItem (item : json) (body : json)
| QueryItems (sql : string).

Record World : Type := mkWorld {
  items : list json;          (* the documents of the container, oldest first *)
  container : bool;           (* self.container is set *)
  openai_client : bool;       (* self.openai_client is set *)
  initialized : bool;         (* self._initialized *)
  clock : nat;                (* readings of datetime.utcnow() so far *)
  uuids : nat;                (* uuid.uuid4() calls so far *)
  requests : nat;             (* requests sent to Cosmos DB or the model so far *)
  trace : list event          (* the requests, most recent first *)
}.

Record Services : Type := mkServices {
  getenv : string -> option string;
  (* the content of choices[0].message when the n-th request is a chat
     completion for the given model and messages, or the error *)
  chat_completion : nat -> string -> list (string * string) -> outcome (option string);
  json_loads : string -> outcome json;
  json_dumps_indent : json -> string;
  utcnow_isoformat : nat -> string;
  uuid4 : nat -> string;
  (* the Cosmos SQL engine on the documents of the container *)
  cosmos_sql : string -> list json -> outcome (list json);
  (* a failure of the n-th request before it reaches the container *)
  cosmos_fault : nat -> option exn;
  cosmos_not_found : json -> exn;
  cosmos_conflict : string -> exn;
  py_int : string -> outcome Z;
  py_repr : json -> string;
  (* the exception, if any, of DefaultAzureCredential(), CosmosClient(...),
     get_database_client and get_container_client for the endpoint, the
     database name and the container name *)
  cosmos_connect : string -> string -> string -> option exn;
  (* the exception, if any, of DefaultAzureCredential() and
     AsyncAzureOpenAI(...) for the endpoint and the API version *)
  openai_connect : string -> string -> option exn
}.

(** ** Coroutines: state and exceptions *)

Definition M (A : Type) : Type := World -> outcome A * World.

Definition ret {A} (a : A) : M A := fun w => (Return a, w).
Definition raise {A} (e : exn) : M A := fun w => (Raise e, w).
Definition bind {A B} (m : M A) (k : A -> M B) : M B :=
  fun w => match m w with
           | (Return a, w') => k a w'
           | (Raise e, w') => (Raise e, w')
           end.
(** try: m  except Exception as e: h e *)
Definition try_except {A} (m : M A) (h : exn -> M A) : M A :=
  fun w => match m w with
           | (Return a, w') => (Return a, w')
           | (Raise e, w') => h e w'
           end.
Definition lift {A} (o : outcome A) : M A := fun w => (o, w).

Declare Scope py_scope.
Delimit Scope py_scope with py.
Notation "x <- m ;; k" := (bind m (fun x => k))
  (at level 61, m at next level, right associativity) : py_scope.
Notation "m ;;; k" := (bind m (fun _ => k))
  (at level 61, right associativity) : py_scope.
Local Open Scope py_scope.

(** ** Strings *)

(** The double quote character. *)
Definition dq : string := String (ascii_of_nat 34) EmptyString.

(** The line feed character. *)
Definition LF : ascii := ascii_of_nat 10.

(** c.isspace() for a code point below 256. *)
Definition isspace (c : ascii) : bool :=
  let n := nat_of_ascii c in
  ((9 <=? n) && (n <=? 13) || (28 <=? n) && (n <=? 32)
   || (n =? 133) || (n =? 160))%nat.

Fixpoint lstrip (s : string) : string :=
  match s with
  | EmptyString => EmptyString
  | String c rest => if isspace c then lstrip rest else s
  end.

Fixpoint rstrip (s : string) : string :=
  match s with
  | EmptyString => EmptyString
  | String c rest =>
      match rstrip rest with
      | EmptyString => if isspace c then EmptyString else String c EmptyString
      | r => String c r
      end
  end.

(** s.strip() *)
Definition strip (s : string) : string := rstrip (lstrip s).

(** re.sub(pat followed by an optional line feed, '', s) for a literal,
    non-empty pat: the matches are found from left to right and do not
    overlap.  skip counts the characters of the current match still to
    delete; after tells that a match has just ended. *)
Fixpoint re_sub_fence (pat : string) (skip : nat) (after : bool) (s : string) : string :=
  match s with
  | EmptyString => EmptyString
  | String c rest =>
      match skip with
      | S k => re_sub_fence pat k (Nat.eqb k 0) rest
      | O =>
          if after && Ascii.eqb c LF then re_sub_fence pat 0 false rest
          else if String.prefix pat s
               then re_sub_fence pat (Nat.pred (String.length pat))
                                 (Nat.eqb (Nat.pred (String.length pat)) 0) rest
               else String c (re_sub_fence pat 0 false rest)
      end
  end.

Definition strip_code_fences (s : string) : string :=
  re_sub_fence "```" 0 false (re_sub_fence "```sql" 0 false s).

(** needle in hay *)
Fixpoint contains (needle hay : string) : bool :=
  String.prefix needle hay
  || match hay with
     | EmptyString => false
     | String _ rest => contains needle rest
     end.

(** sep.join(parts) for parts that are strings. *)
Fixpoint join (sep : string) (parts : list string) : string :=
  match parts with
  | [] => EmptyString
  | [p] => p
  | p :: rest => p ++ sep ++ join sep rest
  end.

(** The characters of a string, each as a string. *)
Fixpoint chars (s : string) : list string :=
  match s with
  | EmptyString => []
  | String c rest => String c EmptyString :: chars rest
  end.

(** s[:n] *)
Fixpoint str_take (n : nat) (s : string) : string :=
  match n, s with
  | S k, String c rest => String c (str_take k rest)
  | _, _ => EmptyString
  end.

(** ** The fixed texts of the prompts *)

Definition analysis_system_message : string :=
  "You are a security incident response expert. Analyze the provided security incident and create a detailed action plan.

        For each incident, provide:
        1. Risk Assessment (Critical/High/Medium/Low)
        2. Immediate Actions (steps to take within 1 hour)
        3. Short-term Actions (steps to take within 24 hours)
        4. Long-term Actions (preventive measures)
        5. Required Teams (which teams need to be involved)
        6. Estimated Resolution Time
        7. Business Impact Assessment
        
        Format your response as JSON with these exact fields:
        {
            " ++ dq ++ "risk_level" ++ dq ++ ": " ++ dq ++ "Critical|High|Medium|Low" ++ dq ++ ",
            " ++ dq ++ "immediate_actions" ++ dq ++ ": [" ++ dq ++ "action1" ++ dq ++ ", " ++ dq ++ "action2" ++ dq ++ "],
            " ++ dq ++ "short_term_actions" ++ dq ++ ": [" ++ dq ++ "action1" ++ dq ++ ", " ++ dq ++ "action2" ++ dq ++ "],
            " ++ dq ++ "long_term_actions" ++ dq ++ ": [" ++ dq ++ "action1" ++ dq ++ ", " ++ dq ++ "action2" ++ dq ++ "],
            " ++ dq ++ "required_teams" ++ dq ++ ": [" ++ dq ++ "team1" ++ dq ++ ", " ++ dq ++ "team2" ++ dq ++ "],
            " ++ dq ++ "estimated_resolution_hours" ++ dq ++ ": number,
            " ++ dq ++ "business_impact" ++ dq ++ ": " ++ dq ++ "description" ++ dq ++ ",
            " ++ dq ++ "analysis_summary" ++ dq ++ ": " ++ dq ++ "brief summary" ++ dq ++ "
        }".

Definition user_message_text (title severity description tactics entity_count entity_details : string) : string :=
  "Analyze this security incident:
        
        Title: " ++ title ++ "
        Severity: " ++ severity ++ "
        Description: " ++ description ++ "
        Tactics: " ++ tactics ++ "
        Entities Involved: " ++ entity_count ++ " entities
        
        Entity Details:
        " ++ entity_details.

Definition schema : string :=
  "
        Container: incidents
        Document Structure:
        - id: Unique document ID
        - document_type: Always " ++ dq ++ "security_incident" ++ dq ++ "
        - incident_id: Sentinel incident ID
        - title: Incident title
        - severity: Severity level (Critical/High/Medium/Low/Informational)
        - severity_level: Numeric severity (1-5)
        - status: Incident status
        - created_time: When incident was created
        - analysis.risk_level: AI-assessed risk level
        - analysis.immediate_actions: List of immediate actions
        - action_plan_status: Status of action plan execution
        ".

Definition sql_system_message (natural_language_query : string) : string :=
  "You are an expert SQL query generator for security incident data.
        
        " ++ schema ++ "
        
        Rules:
        1. Always include WHERE c.document_type = 'security_incident' in your queries
        2. Use proper CosmosDB SQL syntax
        
        Common query patterns:
        - " ++ dq ++ "Show critical incidents" ++ dq ++ " -> SELECT * FROM c WHERE c.document_type = 'security_incident' AND c.severity = 'Critical'
        - " ++ dq ++ "Find incidents from today" ++ dq ++ " -> SELECT * FROM c WHERE c.document_type = 'security_incident' AND c.created_time >= '{today}'
        - " ++ dq ++ "Get high risk incidents" ++ dq ++ " -> SELECT * FROM c WHERE c.document_type = 'security_incident' AND c.analysis.risk_level = 'High'
        - " ++ dq ++ "Show pending action plans" ++ dq ++ " -> SELECT * FROM c WHERE c.document_type = 'security_incident' AND c.action_plan_status = 'Pending'
        
        Convert this query to CosmosDB SQL: " ++ natural_language_query.

(** The rule of the prompt that asks for the record-type filter. *)
Definition filter_rule : string :=
  "Always include WHERE c.document_type = 'security_incident' in your queries".

(** The filter itself, as the prompt writes it. *)
Definition type_filter : string := "c.document_type = 'security_incident'".

Definition sample_query (limit : Z) : string :=
  "SELECT TOP " ++ str_int limit
  ++ " * FROM c WHERE c.document_type = 'security_incident' ORDER BY c.severity_level DESC".

Definition default_http_query : string :=
  "SELECT * FROM c WHERE c.document_type = " ++ dq ++ "security_incident" ++ dq
  ++ " ORDER BY c.severity_level DESC".

(** ** The processor *)

Definition tick (w : World) : World :=
  mkWorld (items w) (container w) (openai_client w) (initialized w)
          (S (clock w)) (uuids w) (requests w) (trace w).
Definition next_uuid (w : World) : World :=
  mkWorld (items w) (container w) (openai_client w) (initialized w)
          (clock w) (S (uuids w)) (requests w) (trace w).
Definition sent (ev : event) (w : World) : World :=
  mkWorld (items w) (container w) (openai_client w) (initialized w)
          (clock w) (uuids w) (S (requests w)) (ev :: trace w).
Definition set_items (l : list json) (w : World) : World :=
  mkWorld l (container w) (openai_client w) (initialized w)
          (clock w) (uuids w) (requests w) (trace w).
Definition set_container (w : World) : World :=
  mkWorld (items w) true (openai_client w) (initialized w)
          (clock w) (uuids w) (requests w) (trace w).
Definition set_openai_client (w : World) : World :=
  mkWorld (items w) (container w) true (initialized w)
          (clock w) (uuids w) (requests w) (trace w).
Definition set_initialized (w : World) : World :=
  mkWorld (items w) (container w) (openai_client w) true
          (clock w) (uuids w) (requests w) (trace w).

(** The "id" of a stored document. *)
Definition doc_id (d : json) : option string :=
  match d with
  | JObj f => match lookup "id" f with Some (JStr s) => Some s | _ => None end
  | _ => None
  end.

Definition has_id (s : string) (d : json) : bool :=
  match doc_id d with Some s' => String.eqb s s' | None => false end.

Fixpoint replace_doc (s : string) (body : json) (l : list json) : list json :=
  match l with
  | [] => []
  | d :: rest => if has_id s d then body :: rest else d :: replace_doc s body rest
  end.

Section Processor.

Context (Sv : Services).

(** datetime.utcnow().isoformat() *)
Definition utcnow : M string :=
  fun w => (Return (utcnow_isoformat Sv (clock w)), tick w).

(** str(uuid.uuid4()) *)
Definition new_uuid : M string :=
  fun w => (Return (uuid4 Sv (uuids w)), next_uuid w).

Definition missing_variable (name : string) : exn :=
  Exn "ValueError" ("Missing required environment variable: " ++ name).

(** os.getenv(name) followed by the test  if not value. *)
Definition require_env (name : string) : M string :=
  match getenv Sv name with
  | None => raise (missing_variable name)
  | Some v => if String.eqb v "" then raise (missing_variable name) else ret v
  end.

(** os.getenv(name, default) *)
Definition getenv_or (name default : string) : string :=
  match getenv Sv name with Some v => v | None => default end.

(** The exception, if any, of the statements of _setup_cosmos_client that
    follow the test of the endpoint: the credential, the client, the
    database client and the container client. *)
Definition cosmos_connection (cosmos_endpoint : string) : option exn :=
  cosmos_connect Sv cosmos_endpoint
                 (getenv_or COSMOS_DATABASE_NAME_ENV DEFAULT_DATABASE_NAME)
                 (getenv_or COSMOS_CONTAINER_NAME_ENV DEFAULT_CONTAINER_NAME).

(** The same for _setup_openai_client: the credential and the client. *)
Definition openai_connection (endpoint : string) : option exn :=
  openai_connect Sv endpoint (getenv_or AZURE_OPENAI_API_VERSION_ENV DEFAULT_API_VERSION).

(** The container is assigned last: a failure on the way leaves
    self.container as it was. *)
Definition _setup_cosmos_client : M unit :=
  try_except
    (cosmos_endpoint <- require_env COSMOS_ENDPOINT_ENV ;;
     fun w => match cosmos_connection cosmos_endpoint with
              | Some e => (Raise e, w)
              | None => (Return tt, set_container w)
              end)
    (fun e => raise e).

Definition _setup_openai_client : M unit :=
  try_except
    (endpoint <- require_env AZURE_OPENAI_ENDPOINT_ENV ;;
     fun w => match openai_connection endpoint with
              | Some e => (Raise e, w)
              | None => (Return tt, set_openai_client w)
              end)
    (fun e => raise e).

Definition _ensure_initialized : M unit :=
  fun w =>
    if initialized w then (Return tt, w)
    else (_setup_cosmos_client ;;; _setup_openai_client ;;;
          fun w' => (Return tt, set_initialized w')) w.

(** *** The container client *)

(** Every call is one request: it is recorded, and it may fail on the way. *)
Definition request {A} (method : string) (ev : event)
                   (run : World -> outcome A * World) : M A :=
  fun w =>
    if container w then
      match cosmos_fault Sv (requests w) with
      | Some e => (Raise e, sent ev w)
      | None => run (sent ev w)
      end
    else (Raise (attribute_error JNull method), w).

(** container.create_item(body): a new document; an id already in use is a
    conflict. *)
Definition create_item (body : json) : M json :=
  request "create_item" (CreateItem body) (fun w =>
    match doc_id body with
    | Some s =>
        if existsb (has_id s) (items w) then (Raise (cosmos_conflict Sv s), w)
        else (Return body, set_items (items w ++ [body]) w)
    | None => (Raise (Exn "CosmosHttpResponseError" "(BadRequest) id"), w)
    end).

(** container.read_item(item, partition_key=item) *)
Definition read_item (item : json) : M json :=
  request "read_item" (ReadItem item) (fun w =>
    match item with
    | JStr s =>
        match find (has_id s) (items w) with
        | Some d => (Return d, w)
        | None => (Raise (cosmos_not_found Sv item), w)
        end
    | _ => (Raise (cosmos_not_found Sv item), w)
    end).

(** container.replace_item(item, body) *)
Definition replace_item (item : json) (body : json) : M json :=
  request "replace_item" (ReplaceItem item body) (fun w =>
    match item with
    | JStr s =>
        if existsb (has_id s) (items w)
        then (Return body, set_items (replace_doc s body (items w)) w)
        else (Raise (cosmos_not_found Sv item), w)
    | _ => (Raise (cosmos_not_found Sv item), w)
    end).

(** container.query_items(query=sql), read to the end. *)
Definition query_items (sql : string) : M (list json) :=
  request "query_items" (QueryItems sql) (fun w => (cosmos_sql Sv sql (items w), w)).

(** *** store_incident *)

(** The dict literal of store_incident, evaluated item by item. *)
Definition build_document (incident_data analysis : json) : M json :=
  id <- new_uuid ;;
  incident_id1 <- lift (py_get incident_data "incidentId" JNull) ;;
  incident_id2 <- lift (py_get incident_data "id" JNull) ;;
  title1 <- lift (py_get incident_data "title" JNull) ;;
  title2 <- lift (py_get incident_data "incidentName" JNull) ;;
  severity <- lift (py_get incident_data "severity" JNull) ;;
  severity_key <- lift (py_get incident_data "severity" (JStr "Unknown")) ;;
  severity_level <- lift (severity_levels_get severity_key) ;;
  status <- lift (py_get incident_data "status" (JStr "New")) ;;
  now1 <- utcnow ;;
  created_time <- lift (py_get incident_data "createdTimeUtc" (JStr now1)) ;;
  now2 <- utcnow ;;
  last_modified_time <- lift (py_get incident_data "lastModifiedTimeUtc" (JStr now2)) ;;
  description <- lift (py_get incident_data "description" JNull) ;;
  tactics <- lift (py_get incident_data "tactics" (JArr [])) ;;
  techniques <- lift (py_get incident_data "techniques" (JArr [])) ;;
  entities <- lift (py_get incident_data "relatedEntities" (JArr [])) ;;
  alerts <- lift (py_get incident_data "relatedAlerts" (JArr [])) ;;
  now3 <- utcnow ;;
  ret (JObj [
    ("id", JStr id);
    ("document_type", JStr "security_incident");
    ("incident_id", py_or incident_id1 incident_id2);
    ("title", py_or title1 title2);
    ("severity", severity);
    ("severity_level", JInt severity_level);
    ("status", status);
    ("created_time", created_time);
    ("last_modified_time", last_modified_time);
    ("description", description);
    ("tactics", tactics);
    ("techniques", techniques);
    ("entities", entities);
    ("alerts", alerts);
    ("analysis", analysis);
    ("action_plan_status", JStr "Pending");
    ("processed_time", JStr now3);
    ("raw_data", incident_data)
  ]).

(** document[k] *)
Definition field (k : string) (document : json) : json :=
  match document with
  | JObj f => match lookup k f with Some v => v | None => JNull end
  | _ => JNull
  end.

Definition store_incident (incident_data analysis : json) : M json :=
  _ensure_initialized ;;;
  fun w =>
    if negb (container w)
    then (Raise (Exn "RuntimeError" "Cosmos DB container not properly initialized"), w)
    else
      try_except
        (document <- build_document incident_data analysis ;;
         result <- create_item document ;;
         ret (JObj [("success", JBool true);
                    ("document_id", field "id" document);
                    ("incident_id", field "incident_id" document)]))
        (fun e => raise e) w.

(** *** analyze_incident *)

(** str(v), as an f-string renders a value. *)
Definition py_str (v : json) : string :=
  match v with
  | JStr s => s
  | JInt n => str_int n
  | JNull => "None"
  | JBool true => "True"
  | JBool false => "False"
  | _ => py_repr Sv v
  end.

Definition as_str (v : json) : option string :=
  match v with JStr s => Some s | _ => None end.

(** The items of ', '.join(parts): each must be a str. *)
Fixpoint str_items (i : Z) (parts : list json) : outcome (list string) :=
  match parts with
  | [] => Return []
  | JStr s :: rest =>
      match str_items (i + 1) rest with
      | Return l => Return (s :: l)
      | Raise e => Raise e
      end
  | v :: _ =>
      Raise (Exn "TypeError"
                 ("sequence item " ++ str_int i ++ ": expected str instance, "
                  ++ type_name v ++ " found"))
  end.

(** sep.join(v): a list is joined item by item, a str character by
    character, a dict key by key; anything else cannot be iterated. *)
Definition py_join (sep : string) (v : json) : outcome string :=
  match v with
  | JArr l =>
      match str_items 0 l with
      | Return parts => Return (join sep parts)
      | Raise e => Raise e
      end
  | JStr s => Return (join sep (chars s))
  | JObj d => Return (join sep (map fst d))
  | _ => Raise (Exn "TypeError" "can only join an iterable")
  end.

(** len(v) *)
Definition py_len (v : json) : outcome Z :=
  match v with
  | JArr l => Return (Z.of_nat (List.length l))
  | JStr s => Return (Z.of_nat (String.length s))
  | JObj d => Return (Z.of_nat (List.length d))
  | _ => Raise (Exn "TypeError"
                    ("object of type '" ++ type_name v ++ "' has no len()"))
  end.

(** v[:n]: a dict cannot be sliced (KeyError from Python 3.12 on). *)
Definition py_slice (n : nat) (v : json) : outcome json :=
  match v with
  | JArr l => Return (JArr (firstn n l))
  | JStr s => Return (JStr (str_take n s))
  | JObj _ => Raise (Exn "TypeError" "unhashable type: 'slice'")
  | _ => Raise (Exn "TypeError"
                    ("'" ++ type_name v ++ "' object is not subscriptable"))
  end.

(** The f-string user_message. *)
Definition build_user_message (title severity description entities tactics : json)
  : outcome string :=
  match (if truthy tactics then py_join ", " tactics else Return "None identified") with
  | Raise e => Raise e
  | Return tactics_text =>
      match py_len entities with
      | Raise e => Raise e
      | Return count =>
          match (if truthy entities
                 then match py_slice 5 entities with
                      | Return first => Return (json_dumps_indent Sv first)
                      | Raise e => Raise e
                      end
                 else Return "No entities") with
          | Raise e => Raise e
          | Return details =>
              Return (user_message_text (py_str title) (py_str severity)
                        (py_str description) tactics_text (str_int count) details)
          end
      end
  end.

(** os.getenv(OPENAI_MODEL_NAME_ENV, "gpt-5") *)
Definition model_name : string :=
  match getenv Sv OPENAI_MODEL_NAME_ENV with Some m => m | None => "gpt-5" end.

(** await self.openai_client.chat.completions.create(...), then
    response.choices[0].message.content *)
Definition chat_create (messages : list (string * string)) : M (option string) :=
  fun w =>
    if openai_client w
    then (chat_completion Sv (requests w) model_name messages, sent (ChatCall messages) w)
    else (Raise (Exn "AttributeError" "'NoneType' object has no attribute 'chat'"), w).

(** json.loads(content) *)
Definition loads (content : option string) : outcome json :=
  match content with
  | Some s => json_loads Sv s
  | None => Raise (Exn "TypeError"
                       "the JSON object must be str, bytes or bytearray, not NoneType")
  end.

(** The default analysis returned on error. *)
Definition default_analysis (severity : json) (e : exn) : json :=
  JObj [
    ("risk_level", severity);
    ("immediate_actions", JArr [JStr "Investigate incident"; JStr "Assess impact"]);
    ("short_term_actions", JArr [JStr "Review logs"; JStr "Document findings"]);
    ("long_term_actions", JArr [JStr "Update security policies"]);
    ("required_teams", JArr [JStr "Security Operations"]);
    ("estimated_resolution_hours", JInt 24);
    ("business_impact", JStr "Unable to determine");
    ("analysis_summary", JStr ("Error during analysis: " ++ exn_str e))
  ].

Definition analyze_incident (incident_data : json) : M json :=
  _ensure_initialized ;;;
  fun w =>
    if negb (openai_client w)
    then (Raise (Exn "RuntimeError" "OpenAI client not properly initialized"), w)
    else
      (title <- lift (py_get incident_data "title" (JStr "Unknown incident")) ;;
       description <- lift (py_get incident_data "description" (JStr "")) ;;
       severity <- lift (py_get incident_data "severity" (JStr "Unknown")) ;;
       entities <- lift (py_get incident_data "relatedEntities" (JArr [])) ;;
       tactics <- lift (py_get incident_data "tactics" (JArr [])) ;;
       user_message <- lift (build_user_message title severity description entities tactics) ;;
       try_except
         (content <- chat_create [("system", analysis_system_message);
                                  ("user", user_message)] ;;
          analysis <- lift (loads content) ;;
          ret analysis)
         (fun e => ret (default_analysis severity e))) w.

(** *** generate_incident_sql and query_incidents *)

Definition generate_incident_sql (natural_language_query : string) : M string :=
  _ensure_initialized ;;;
  try_except
    (content <- chat_create [("system", sql_system_message natural_language_query)] ;;
     match content with
     | Some text => ret (strip_code_fences (strip text))
     | None => raise (attribute_error JNull "strip")
     end)
    (fun e => raise e).

Definition query_incidents (query : string) : M (list json) :=
  _ensure_initialized ;;;
  sql_query <- generate_incident_sql query ;;
  try_except (query_items sql_query) (fun e => raise e).

(** *** get_sample_incidents *)

Definition get_sample_incidents (limit : Z) : M (list json) :=
  _ensure_initialized ;;;
  fun w =>
    if negb (container w)
    then (Raise (Exn "RuntimeError" "Cosmos DB container not properly initialized"), w)
    else try_except (query_items (sample_query limit)) (fun e => raise e) w.

End Processor.

(** ** The HTTP endpoints and the MCP tool *)

Record HttpRequest : Type := mkRequest {
  params : list (string * string);   (* req.params *)
  get_json : outcome json            (* req.get_json() *)
}.

(** func.HttpResponse(json.dumps(body), status_code=..., headers=...);
    body is the value that is serialized. *)
Record HttpResponse : Type := mkResponse {
  body : json;
  status_code : Z;
  headers : list (string * string)
}.

Definition json_headers : list (string * string) :=
  [("Content-Type", "application/json")].

Fixpoint param (k : string) (ps : list (string * string)) : option string :=
  match ps with
  | [] => None
  | (k', v) :: rest => if String.eqb k k' then Some v else param k rest
  end.

(** The fields sentinel_receiver takes from the request body:
    the incident, its title, its severity and its id. *)
Definition incident_fields (payload : json) : outcome (json * json * json * json) :=
  match py_get payload "properties" JNull with
  | Raise e => Raise e
  | Return properties =>
      let incident := py_or properties payload in
      match py_get incident "title" JNull, py_get incident "incidentName" JNull,
            py_get incident "severity" (JStr "Unknown"),
            py_get incident "incidentId" JNull, py_get incident "id" JNull with
      | Return title1, Return title2, Return severity, Return id1, Return id2 =>
          Return (incident, py_or title1 title2, severity, py_or id1 id2)
      | Raise e, _, _, _, _ => Raise e
      | _, Raise e, _, _, _ => Raise e
      | _, _, Raise e, _, _ => Raise e
      | _, _, _, Raise e, _ => Raise e
      | _, _, _, _, Raise e => Raise e
      end
  end.

Section Endpoints.

Context (Sv : Services).

(** The body of every except branch that answers with success: False. *)
Definition failure (message : string) (status : Z) : M HttpResponse :=
  now <- utcnow Sv ;;
  ret (mkResponse (JObj [("success", JBool false);
                         ("error", JStr message);
                         ("timestamp", JStr now)])
                  status json_headers).

Definition sentinel_receiver (req : HttpRequest) : M HttpResponse :=
  try_except
    (payload <- lift (get_json req) ;;
     fields <- lift (incident_fields payload) ;;
     let '(incident, title, severity, incident_id) := fields in
     analysis <- analyze_incident Sv incident ;;
     storage_result <- store_incident Sv incident analysis ;;
     risk_level <- lift (py_get analysis "risk_level" JNull) ;;
     immediate_actions <- lift (py_get analysis "immediate_actions" (JArr [])) ;;
     hours <- lift (py_get analysis "estimated_resolution_hours" JNull) ;;
     now <- utcnow Sv ;;
     ret (mkResponse
            (JObj [("success", JBool true);
                   ("incident_id", incident_id);
                   ("document_id", field "document_id" storage_result);
                   ("title", title);
                   ("severity", severity);
                   ("risk_level", risk_level);
                   ("immediate_actions", immediate_actions);
                   ("estimated_resolution_hours", hours);
                   ("message", JStr "Incident processed and action plan generated");
                   ("timestamp", JStr now)])
            200 json_headers))
    (fun ex => failure (exn_str ex) 400).

Definition http_query_incidents (req : HttpRequest) : M HttpResponse :=
  try_except
    (let query := match param "query" (params req) with
                  | Some q => q
                  | None => default_http_query
                  end in
     incidents <- query_incidents Sv query ;;
     now <- utcnow Sv ;;
     ret (mkResponse
            (JObj [("success", JBool true);
                   ("query", JStr query);
                   ("incidents", JArr incidents);
                   ("count", JInt (Z.of_nat (List.length incidents)));
                   ("timestamp", JStr now)])
            200 json_headers))
    (fun e => failure (exn_str e) 500).

(** document[k] = v *)
Definition setitem (document : json) (k : string) (v : json) : outcome json :=
  match document with
  | JObj f => Return (JObj (assign k v f))
  | _ => Raise (Exn "TypeError"
                    ("'" ++ type_name document
                     ++ "' object does not support item assignment"))
  end.

(** The try block of the update endpoint. *)
Definition http_update_incident_actions_try (req : HttpRequest) : M HttpResponse :=
  req_body <- lift (get_json req) ;;
  document_id <- lift (py_get req_body "document_id" JNull) ;;
  action_status <- lift (py_get req_body "action_status" JNull) ;;
  notes <- lift (py_get req_body "notes" (JStr "")) ;;
  if negb (truthy document_id) || negb (truthy action_status)
  then ret (mkResponse
              (JObj [("error", JStr "Missing required fields: document_id, action_status")])
              400 json_headers)
  else
    _ensure_initialized Sv ;;;
    document <- read_item Sv document_id ;;
    document <- lift (setitem document "action_plan_status" action_status) ;;
    document <- lift (setitem document "action_plan_notes" notes) ;;
    updated <- utcnow Sv ;;
    document <- lift (setitem document "action_plan_updated" (JStr updated)) ;;
    _ <- replace_item Sv document_id document ;;
    now <- utcnow Sv ;;
    ret (mkResponse
           (JObj [("success", JBool true);
                  ("document_id", document_id);
                  ("action_status", action_status);
                  ("timestamp", JStr now)])
           200 json_headers).

Definition http_update_incident_actions (req : HttpRequest) : M HttpResponse :=
  try_except
    (http_update_incident_actions_try req)
    (fun e => failure (exn_str e) 500).

(** One entry of the summary of the MCP tool. *)
Definition incident_summary (i : Z) (incident : json) : outcome string :=
  match py_get incident "title" (JStr "Unknown"),
        py_get incident "severity" (JStr "Unknown"),
        py_get incident "analysis" (JObj []),
        py_get incident "action_plan_status" (JStr "Unknown"),
        py_get incident "created_time" (JStr "Unknown") with
  | Return title, Return severity, Return analysis, Return status, Return created =>
      match py_get analysis "risk_level" (JStr "Not assessed"),
            py_get analysis "immediate_actions" (JArr []) with
      | Return risk_level, Return actions =>
          let head :=
            String LF (str_int (i + 1)) ++ ". " ++ py_str Sv title ++ String LF ""
            ++ "   - Severity: " ++ py_str Sv severity ++ String LF ""
            ++ "   - Risk Level: " ++ py_str Sv risk_level ++ String LF ""
            ++ "   - Status: " ++ py_str Sv status ++ String LF ""
            ++ "   - Created: " ++ py_str Sv created ++ String LF "" in
          if truthy actions
          then match py_slice 2 actions with
               | Return first =>
                   match py_join ", " first with
                   | Return joined =>
                       Return (head ++ "   - Immediate Actions: " ++ joined ++ String LF "")
                   | Raise e => Raise e
                   end
               | Raise e => Raise e
               end
          else Return head
      | Raise e, _ => Raise e
      | _, Raise e => Raise e
      end
  | Raise e, _, _, _, _ => Raise e
  | _, Raise e, _, _, _ => Raise e
  | _, _, Raise e, _, _ => Raise e
  | _, _, _, Raise e, _ => Raise e
  | _, _, _, _, Raise e => Raise e
  end.

(** The loop over enumerate(incidents[:5]), adding to the summary. *)
Fixpoint summary_entries (i : Z) (incidents : list json) (summary : string)
  : outcome string :=
  match incidents with
  | [] => Return summary
  | incident :: rest =>
      match incident_summary i incident with
      | Return entry => summary_entries (i + 1) rest (summary ++ entry)
      | Raise e => Raise e
      end
  end.

Definition mcp_summary (query : string) (incidents : list json) : outcome string :=
  let count := Z.of_nat (List.length incidents) in
  let summary :=
    "Query: " ++ query ++ String LF ""
    ++ "Results: " ++ str_int count ++ " incidents found" ++ String LF (String LF "") in
  match incidents with
  | [] => Return (summary ++ "No incidents matching your query." ++ String LF "")
  | _ =>
      match summary_entries 0 (firstn 5 incidents)
                            (summary ++ "Incident Summary:" ++ String LF "") with
      | Return s =>
          if 5 <? count
          then Return (s ++ String LF "... and " ++ str_int (count - 5)
                         ++ " more incidents" ++ String LF "")
          else Return s
      | Raise e => Raise e
      end
  end.

(** value.strip(): only a str has the method. *)
Definition py_strip (v : json) : outcome string :=
  match v with
  | JStr s => Return (strip s)
  | _ => Raise (attribute_error v "strip")
  end.

(** The try block of the MCP tool. *)
Definition mcp_query_incidents_try (req : string) : M json :=
  req_data <- lift (json_loads Sv req) ;;
  args <- lift (py_get req_data "arguments" (JObj [])) ;;
  raw <- lift (py_get args "query" (JStr "")) ;;
  query <- lift (py_strip raw) ;;
  if String.eqb query ""
  then ret (JObj [("error", JStr "Query parameter is required");
                  ("success", JBool false)])
  else
    incidents <- query_incidents Sv query ;;
    summary <- lift (mcp_summary query incidents) ;;
    now <- utcnow Sv ;;
    ret (JObj [("success", JBool true);
               ("query", JStr query);
               ("summary", JStr summary);
               ("incidents", JArr incidents);
               ("count", JInt (Z.of_nat (List.length incidents)));
               ("timestamp", JStr now)]).

(** The MCP tool; the result is the value given to json.dumps. *)
Definition mcp_query_incidents (req : string) : M json :=
  try_except
    (mcp_query_incidents_try req)
    (fun e =>
       now <- utcnow Sv ;;
       ret (JObj [("error", JStr ("Error querying incidents: " ++ exn_str e));
                  ("success", JBool false);
                  ("timestamp", JStr now)])).

(** min(max(limit, 1), 100) *)
Definition clamp_limit (limit : Z) : Z := Z.min (Z.max limit 1) 100.

Definition http_get_sample_incidents (req : HttpRequest) : M HttpResponse :=
  try_except
    (limit <- lift (py_int Sv (match param "limit" (params req) with
                               | Some l => l
                               | None => "10"
                               end)) ;;
     let limit := clamp_limit limit in
     sample_incidents <- get_sample_incidents Sv limit ;;
     now <- utcnow Sv ;;
     ret (mkResponse
            (JObj [("sample_incidents", JArr sample_incidents);
                   ("count", JInt (Z.of_nat (List.length sample_incidents)));
                   ("success", JBool true);
                   ("timestamp", JStr now)])
            200 json_headers))
    (fun e =>
       now <- utcnow Sv ;;
       ret (mkResponse
              (JObj [("error", JStr ("Internal server error: " ++ exn_str e));
                     ("success", JBool false);
                     ("timestamp", JStr now)])
              500 json_headers)).

(** *** The health check *)

(** The first inner try of http_health_check. *)
Definition cosmos_status : M string :=
  try_except
    (_ensure_initialized Sv ;;;
     fun w => (Return (if container w then "healthy" else "not initialized"), w))
    (fun e => ret ("unhealthy: " ++ exn_str e)).

(** The second inner try of http_health_check. *)
Definition openai_status : M string :=
  try_except
    (fun w => (Return (if openai_client w then "healthy" else "not initialized"), w))
    (fun e => ret ("unhealthy: " ++ exn_str e)).

Definition http_health_check (req : HttpRequest) : M HttpResponse :=
  try_except
    (cosmos <- cosmos_status ;;
     openai <- openai_status ;;
     let all_healthy := String.eqb cosmos "healthy" && String.eqb openai "healthy" in
     now <- utcnow Sv ;;
     ret (mkResponse
            (JObj [("status", JStr (if all_healthy then "healthy" else "degraded"));
                   ("cosmos_db", JStr cosmos);
                   ("azure_openai", JStr openai);
                   ("timestamp", JStr now);
                   ("service", JStr "security-incident-processor")])
            200 json_headers))
    (fun e =>
       now <- utcnow Sv ;;
       ret (mkResponse
              (JObj [("status", JStr "unhealthy");
                     ("error", JStr (exn_str e));
                     ("timestamp", JStr now)])
              500 json_headers)).

(** *** The sample incident written at startup *)

(** The dict literal sample_incident, with the clock reading it takes. *)
Definition sample_incident (now : string) : json :=
  JObj [("incidentId", JStr "INC-001");
        ("title", JStr "Suspicious PowerShell Activity Detected");
        ("severity", JStr "High");
        ("status", JStr "New");
        ("description",
         JStr "Multiple PowerShell commands with obfuscation detected on production server");
        ("createdTimeUtc", JStr now);
        ("tactics", JArr [JStr "Execution"; JStr "Defense Evasion"]);
        ("techniques", JArr [JStr "T1059.001"; JStr "T1027"]);
        ("relatedEntities",
         JArr [JObj [("type", JStr "Host"); ("name", JStr "PROD-WEB-01")];
               JObj [("type", JStr "Account"); ("name", JStr "svc_web")]])].

(** The try block of initialize_sample_incidents. *)
Definition initialize_sample_incidents_try : M unit :=
  existing_incidents <- get_sample_incidents Sv 1 ;;
  match existing_incidents with
  | _ :: _ => ret tt
  | [] =>
      now <- utcnow Sv ;;
      analysis <- analyze_incident Sv (sample_incident now) ;;
      _ <- store_incident Sv (sample_incident now) analysis ;;
      ret tt
  end.

(** The timer function run on startup; the exception is only logged. *)
Definition initialize_sample_incidents : M unit :=
  try_except initialize_sample_incidents_try (fun e => ret tt).

End Endpoints.

(** ** Reference semantics of the sample query *)

(** c.document_type = 'security_incident' *)
Definition is_incident (d : json) : bool :=
  match d with
  | JObj f =>
      match lookup "document_type" f with
      | Some (JStr t) => String.eqb t "security_incident"
      | _ => false
      end
  | _ => false
  end.

(** c.severity_level of a document that carries an integer there. *)
Definition level (d : json) : Z :=
  match d with
  | JObj f => match lookup "severity_level" f with Some (JInt n) => n | _ => 0 end
  | _ => 0
  end.

Definition has_int_level (d : json) : bool :=
  match d with
  | JObj f => match lookup "severity_level" f with Some (JInt _) => true | _ => false end
  | _ => false
  end.

(** ORDER BY c.severity_level DESC, by insertion; documents of equal level
    keep their order. *)
Fixpoint insert_desc (x : json) (l : list json) : list json :=
  match l with
  | [] => [x]
  | y :: rest => if level y <=? level x then x :: l else y :: insert_desc x rest
  end.

Definition order_by_level_desc (l : list json) : list json :=
  fold_right insert_desc [] l.

(** SELECT TOP n * FROM c WHERE c.document_type = 'security_incident'
    ORDER BY c.severity_level DESC *)
Definition select_top (n : Z) (docs : list json) : list json :=
  firstn (Z.to_nat n) (order_by_level_desc (filter is_incident docs)).

(** Every incident document of the container carries an integer level. *)
Definition int_levels (docs : list json) : Prop :=
  forall d, In d docs -> is_incident d = true -> has_int_level d = true.

(** The Cosmos SQL engine answers the sample query as its text reads. *)
Definition answers_sample_query (Sv : Services) : Prop :=
  forall n docs, 0 <= n -> int_levels docs ->
    cosmos_sql Sv (sample_query n) docs = Return (select_top n docs).


(** ** Predicates on action plans and worlds *)

Definition is_str (v : json) : bool :=
  match v with JStr _ => true | _ => false end.

Definition is_str_list (v : json) : bool :=
  match v with JArr l => forallb is_str l | _ => false end.

Definition is_number (v : json) : bool :=
  match v with JInt _ | JFloat _ => true | _ => false end.

Definition RISK_LEVELS : list string := ["Critical"; "High"; "Medium"; "Low"].

Definition is_risk_level (v : json) : bool :=
  match v with
  | JStr s => existsb (String.eqb s) RISK_LEVELS
  | _ => false
  end.

Definition has_type (k : string) (test : json -> bool) (plan : json) : bool :=
  match plan with
  | JObj f => match lookup k f with Some v => test v | None => false end
  | _ => false
  end.

(** The seven fields of an action plan other than risk_level, with their types. *)
Definition seven_fields (plan : json) : bool :=
  has_type "immediate_actions" is_str_list plan
  && has_type "short_term_actions" is_str_list plan
  && has_type "long_term_actions" is_str_list plan
  && has_type "required_teams" is_str_list plan
  && has_type "estimated_resolution_hours" is_number plan
  && has_type "business_impact" is_str plan
  && has_type "analysis_summary" is_str plan.

(** An action plan with the eight fields, well typed. *)
Definition well_formed_plan (plan : json) : bool :=
  has_type "risk_level" is_risk_level plan && seven_fields plan.

Definition ready (w : World) : Prop :=
  initialized w = true /\ container w = true /\ openai_client w = true.

(** The environment variable is set to v, which is not empty. *)
Definition env_value (Sv : Services) (name v : string) : Prop :=
  getenv Sv name = Some v /\ v <> "".

(** Both endpoints are set, to c and to o, and both clients can be
    constructed for them. *)
Definition configured_with (Sv : Services) (c o : string) : Prop :=
  env_value Sv COSMOS_ENDPOINT_ENV c /\ cosmos_connection Sv c = None
  /\ env_value Sv AZURE_OPENAI_ENDPOINT_ENV o /\ openai_connection Sv o = None.

Definition configured (Sv : Services) : Prop := exists c o, configured_with Sv c o.

(** The incident id a stored document carries. *)
Definition has_incident_id (k : string) (d : json) : bool :=
  match field "incident_id" d with
  | JStr s => String.eqb s k
  | _ => false
  end.

Definition is_chat_call (ev : event) : bool :=
  match ev with ChatCall _ => true | _ => false end.

Definition is_store_access (ev : event) : bool :=
  match ev with ChatCall _ => false | _ => true end.

(** ** Requests *)

(** A GET request with the given query parameters. *)
Definition get_request (ps : list (string * string)) : HttpRequest :=
  mkRequest ps (Raise (Exn "ValueError" "HTTP request does not contain valid JSON data")).

(** A POST request with the given JSON body. *)
Definition post_request (payload : json) : HttpRequest := mkRequest [] (Return payload).

(** ** A deployment with scripted services, to run the handlers *)

Module Scripted.

Definition env (name : string) : option string :=
  if String.eqb name COSMOS_ENDPOINT_ENV then Some "https://incidents.documents.azure.com"
  else if String.eqb name AZURE_OPENAI_ENDPOINT_ENV then Some "https://incidents.openai.azure.com"
  else None.

(** An environment without the Cosmos DB endpoint. *)
Definition env_without_cosmos (name : string) : option string :=
  if String.eqb name AZURE_OPENAI_ENDPOINT_ENV then Some "https://incidents.openai.azure.com"
  else None.

Fixpoint until_space (s : string) : string :=
  match s with
  | EmptyString => EmptyString
  | String c rest => if Ascii.eqb c " " then EmptyString else String c (until_space rest)
  end.

Fixpoint str_drop (n : nat) (s : string) : string :=
  match n, s with
  | S k, String _ rest => str_drop k rest
  | _, _ => s
  end.

(** The number after SELECT TOP. *)
Definition top_of (sql : string) : option Z :=
  option_map Z.of_int (NilZero.int_of_string (until_space (str_drop 11 sql))).

(** An engine that knows the sample query and answers any other query
    with every document. *)
Definition engine (sql : string) (docs : list json) : outcome (list json) :=
  match top_of sql with
  | Some n => if String.eqb sql (sample_query n) then Return (select_top n docs)
              else Return docs
  | None => Return docs
  end.

(** int(text) on decimal digits with an optional sign. *)
Definition int (text : string) : outcome Z :=
  match NilZero.int_of_string text with
  | Some i => Return (Z.of_int i)
  | None => Raise (Exn "ValueError"
                       ("invalid literal for int() with base 10: '" ++ text ++ "'"))
  end.

Definition empty_object : string := "{}".

(** The MCP request without a query argument. *)
Definition request_without_query : string :=
  "{" ++ dq ++ "arguments" ++ dq ++ ": {}}".

(** A json.loads that knows two texts. *)
Definition parse (text : string) : outcome json :=
  if String.eqb text empty_object then Return (JObj [])
  else if String.eqb text request_without_query then Return (JObj [("arguments", JObj [])])
  else Raise (Exn "JSONDecodeError" "Expecting value: line 1 column 1 (char 0)").

Definition not_found (item : json) : exn :=
  Exn "CosmosResourceNotFoundError" "(NotFound) Entity with the specified id does not exist in the system.".

Definition conflict (id : string) : exn :=
  Exn "CosmosResourceExistsError" "(Conflict) Entity with the specified id already exists in the system.".

(** The services of a deployment whose model always answers reply. *)
Definition services (getenv : string -> option string)
                    (reply : outcome (option string)) : Services :=
  mkServices getenv
             (fun _ _ _ => reply)
             parse
             (fun _ => "[]")
             (fun n => "2025-01-01T00:00:" ++ str_int (Z.of_nat n))
             (fun n => "00000000-0000-4000-8000-" ++ str_int (Z.of_nat n))
             engine
             (fun _ => None)
             not_found
             conflict
             int
             (fun _ => "")
             (fun _ _ _ => None)
             (fun _ _ => None).

(** The processor after its first request, with an empty container. *)
Definition started : World := mkWorld [] true true true 0 0 0 [].

(** The processor before its first request. *)
Definition fresh : World := mkWorld [] false false false 0 0 0 [].

(** Two deliveries of the incident INC-1. *)
Definition first_delivery : json :=
  JObj [("incidentId", JStr "INC-1"); ("title", JStr "First"); ("severity", JStr "High")].

Definition second_delivery : json :=
  JObj [("incidentId", JStr "INC-1"); ("title", JStr "Second"); ("severity", JStr "Critical")].

(** Services whose model fails. *)
Definition offline : Services :=
  services env (Raise (Exn "APIConnectionError" "Connection error.")).

(** The world after running a coroutine, and its result. *)
Definition world_after {A} (m : M A) (w : World) : World := snd (m w).

Definition result_of (m : M json) (w : World) : json :=
  match fst (m w) with Return r => r | Raise _ => JNull end.

Definition result_text (o : outcome string) : string :=
  match o with Return s => s | Raise _ => EmptyString end.

(** Services whose model answers with an empty JSON object. *)
Definition terse : Services := services env (Return (Some empty_object)).

(** Services whose model writes a query without the record-type filter. *)
Definition unfiltered : Services := services env (Return (Some "SELECT * FROM c")).

(** An incident without a severity. *)
Definition bare_incident : json := JObj [("incidentId", JStr "INC-2")].

(** Services in an environment without the Cosmos DB endpoint. *)
Definition misconfigured : Services :=
  services env_without_cosmos (Return None).

(** An update request for a document that does not exist. *)
Definition update_unknown : HttpRequest :=
  post_request (JObj [("document_id", JStr "no-such-document");
                      ("action_status", JStr "Completed")]).

Definition response_of (m : M HttpResponse) (w : World) : HttpResponse :=
  match fst (m w) with
  | Return r => r
  | Raise _ => mkResponse JNull 0 []
  end.

(** A request body whose properties member is a number. *)
Definition odd_envelope : json := JObj [("properties", JInt 1)].

(** A request body with an envelope around an incident without fields. *)
Definition enveloped : json :=
  JObj [("id", JStr "outer"); ("properties", JObj [("incidentName", JStr "Named")])].

(** The id the scripted uuid4 gives to the first document. *)
Definition first_id : string := "00000000-0000-4000-8000-0".

(** The fields of an update request for the first stored document. *)
Definition update_first_fields : dict :=
  [("document_id", JStr first_id); ("action_status", JStr "In Progress")].

Definition update_first : HttpRequest := post_request (JObj update_first_fields).

(** The container after the first and after the second delivery. *)
Definition after_first : World :=
  world_after (store_incident offline first_delivery JNull) started.

Definition after_second : World :=
  world_after (store_incident offline second_delivery JNull) after_first.

(** The first stored document. *)
Definition first_document : json := hd JNull (items after_first).

(** Services whose model wraps its query in a code fence. *)
Definition fenced_reply : string :=
  "```sql" ++ String LF "SELECT * FROM c WHERE c.type = 'security_incident'"
  ++ String LF "```".

Definition fenced : Services := services env (Return (Some fenced_reply)).

(** Services whose model answers with a JSON list, which json.loads
    reads. *)
Definition listing : Services :=
  mkServices env
             (fun _ _ _ => Return (Some "[]"))
             (fun text => if String.eqb text "[]" then Return (JArr []) else parse text)
             (fun _ => "[]")
             (fun n => "2025-01-01T00:00:" ++ str_int (Z.of_nat n))
             (fun n => "00000000-0000-4000-8000-" ++ str_int (Z.of_nat n))
             engine
             (fun _ => None)
             not_found
             conflict
             int
             (fun _ => "")
             (fun _ _ _ => None)
             (fun _ _ => None).

(** An MCP request for the number of incidents. *)
Definition count_request : string :=
  "{" ++ dq ++ "arguments" ++ dq ++ ": {" ++ dq ++ "query" ++ dq ++ ": "
  ++ dq ++ "how many incidents" ++ dq ++ "}}".

(** Services whose model writes an aggregate query, which the engine
    answers with one number. *)
Definition counting : Services :=
  mkServices env
             (fun _ _ _ => Return (Some "SELECT VALUE COUNT(1) FROM c"))
             (fun text =>
                if String.eqb text count_request
                then Return (JObj [("arguments",
                                    JObj [("query", JStr "how many incidents")])])
                else parse text)
             (fun _ => "[]")
             (fun n => "2025-01-01T00:00:" ++ str_int (Z.of_nat n))
             (fun n => "00000000-0000-4000-8000-" ++ str_int (Z.of_nat n))
             (fun _ docs => Return [JInt (Z.of_nat (List.length docs))])
             (fun _ => None)
             not_found
             conflict
             int
             (fun _ => "")
             (fun _ _ _ => None)
             (fun _ _ => None).

(** An environment whose Cosmos DB endpoint is not a URL, and the
    services of a deployment in it: the Cosmos DB client refuses the
    endpoint. *)
Definition env_localhost (name : string) : option string :=
  if String.eqb name COSMOS_ENDPOINT_ENV then Some "localhost" else env name.

Definition invalid_url : exn := Exn "ValueError" "Invalid URL scheme or hostname".

Definition unreachable : Services :=
  mkServices env_localhost
             (fun _ _ _ => Return None)
             parse
             (fun _ => "[]")
             (fun n => "2025-01-01T00:00:" ++ str_int (Z.of_nat n))
             (fun n => "00000000-0000-4000-8000-" ++ str_int (Z.of_nat n))
             engine
             (fun _ => None)
             not_found
             conflict
             int
             (fun _ => "")
             (fun endpoint _ _ =>
                if String.eqb endpoint "localhost" then Some invalid_url else None)
             (fun _ _ => None).

End Scripted.

(** ** The values the properties speak about *)

(** d.get(k, default) on the items of a dict. *)
Definition get_or (k : string) (default : json) (d : dict) : json :=
  match lookup k d with Some x => x | None => default end.

(** The document store_incident builds from the dict d when uuid4 and the
    clock stand as in w and the severity has the level n. *)
Definition stored_document (Sv : Services) (d : dict) (analysis : json)
                           (n : Z) (w : World) : json :=
  JObj [
    ("id", JStr (uuid4 Sv (uuids w)));
    ("document_type", JStr "security_incident");
    ("incident_id", py_or (get_or "incidentId" JNull d) (get_or "id" JNull d));
    ("title", py_or (get_or "title" JNull d) (get_or "incidentName" JNull d));
    ("severity", get_or "severity" JNull d);
    ("severity_level", JInt n);
    ("status", get_or "status" (JStr "New") d);
    ("created_time",
     get_or "createdTimeUtc" (JStr (utcnow_isoformat Sv (clock w))) d);
    ("last_modified_time",
     get_or "lastModifiedTimeUtc" (JStr (utcnow_isoformat Sv (S (clock w)))) d);
    ("description", get_or "description" JNull d);
    ("tactics", get_or "tactics" (JArr []) d);
    ("techniques", get_or "techniques" (JArr []) d);
    ("entities", get_or "relatedEntities" (JArr []) d);
    ("alerts", get_or "relatedAlerts" (JArr []) d);
    ("analysis", analysis);
    ("action_plan_status", JStr "Pending");
    ("processed_time", JStr (utcnow_isoformat Sv (S (S (clock w)))));
    ("raw_data", JObj d)
  ].

(** The world after store_incident has written doc. *)
Definition after_store (doc : json) (w : World) : World :=
  mkWorld (items w ++ [doc]) (container w) (openai_client w) (initialized w)
          (S (S (S (clock w)))) (S (uuids w)) (S (requests w))
          (CreateItem doc :: trace w).

(** The number of stored documents that carry the incident id k. *)
Definition count_incident (k : string) (docs : list json) : nat :=
  List.length (filter (has_incident_id k) docs).

(** The messages analyze_incident sends for the dict d, given the user
    message. *)
Definition analysis_messages (user_message : string) : list (string * string) :=
  [("system", analysis_system_message); ("user", user_message)].

(** The user message analyze_incident builds for the dict d. *)
Definition user_message_of (Sv : Services) (d : dict) : outcome string :=
  build_user_message Sv (get_or "title" (JStr "Unknown incident") d)
                     (get_or "severity" (JStr "Unknown") d)
                     (get_or "description" (JStr "") d)
                     (get_or "relatedEntities" (JArr []) d)
                     (get_or "tactics" (JArr []) d).

(** The query the translator returns for the reply text of the model. *)
Definition cleaned (text : string) : string := strip_code_fences (strip text).

(** The messages generate_incident_sql sends. *)
Definition sql_messages (natural_language_query : string) : list (string * string) :=
  [("system", sql_system_message natural_language_query)].

(** The query the MCP tool reads from the parsed request:
    req_data.get("arguments", {}).get("query", "").strip() *)
Definition mcp_query_argument (req_data : json) : outcome string :=
  match py_get req_data "arguments" (JObj []) with
  | Return args =>
      match py_get args "query" (JStr "") with
      | Return raw => py_strip raw
      | Raise e => Raise e
      end
  | Raise e => Raise e
  end.

(** The answer of the MCP tool to a request without a query. *)
Definition query_required : json :=
  JObj [("error", JStr "Query parameter is required"); ("success", JBool false)].

(** The answer of the MCP tool when its try block raises e at the clock
    reading t. *)
Definition mcp_failure (Sv : Services) (e : exn) (t : nat) : json :=
  JObj [("error", JStr ("Error querying incidents: " ++ exn_str e));
        ("success", JBool false);
        ("timestamp", JStr (utcnow_isoformat Sv t))].

(** No stored document has the id item. *)
Definition absent (item : json) (docs : list json) : Prop :=
  match item with
  | JStr id => find (has_id id) docs = None
  | _ => True
  end.

(** The answer of an HTTP endpoint whose try block raises e at the clock
    reading t. *)
Definition failure_response (Sv : Services) (e : exn) (t : nat) (status : Z)
  : HttpResponse :=
  mkResponse (JObj [("success", JBool false);
                    ("error", JStr (exn_str e));
                    ("timestamp", JStr (utcnow_isoformat Sv t))])
             status json_headers.

(** The answer of the update endpoint to a request without its fields. *)
Definition missing_fields_response : HttpResponse :=
  mkResponse (JObj [("error", JStr "Missing required fields: document_id, action_status")])
             400 json_headers.

(** The names of the fields of a response body. *)
Definition body_keys (r : HttpResponse) : list string :=
  match body r with JObj f => map fst f | _ => [] end.

(** The incident inside a request body: the properties member when it is
    truthy, the body itself otherwise. *)
Definition unwrapped (d : dict) : json :=
  py_or (get_or "properties" JNull d) (JObj d).

(** The limit parameter of a sample request, as text. *)
Definition limit_text (req : HttpRequest) : string :=
  match param "limit" (params req) with Some l => l | None => "10" end.


(** The environment variable is unset or empty. *)
Definition env_missing (Sv : Services) (name : string) : Prop :=
  match getenv Sv name with
  | None => True
  | Some v => v = ""
  end.

(** No two stored documents share an id. *)
Definition unique_ids (docs : list json) : Prop :=
  forall id, (List.length (filter (has_id id) docs) <= 1)%nat.

(** The document the update endpoint writes back: the three assignments
    on the document it has read. *)
Definition updated_document (document action_status notes : json) (updated : string)
  : outcome json :=
  match setitem document "action_plan_status" action_status with
  | Return d1 =>
      match setitem d1 "action_plan_notes" notes with
      | Return d2 => setitem d2 "action_plan_updated" (JStr updated)
      | Raise e => Raise e
      end
  | Raise e => Raise e
  end.

(** The answer of the health check that reports status, with the two
    component states, at the clock reading t. *)
Definition health_response (Sv : Services) (status cosmos openai : string) (t : nat)
  : HttpResponse :=
  mkResponse (JObj [("status", JStr status);
                    ("cosmos_db", JStr cosmos);
                    ("azure_openai", JStr openai);
                    ("timestamp", JStr (utcnow_isoformat Sv t));
                    ("service", JStr "security-incident-processor")])
             200 json_headers.

(** The processor as the module creates it: no client, not initialised. *)
Definition uninitialised (w : World) : Prop :=
  initialized w = false /\ container w = false /\ openai_client w = false.

(** The exception that ends generate_incident_sql for a reply of the
    model, if any: the one the request raises, or the AttributeError of
    content.strip() when the content is None. *)
Definition translation_error (reply : outcome (option string)) : option exn :=
  match reply with
  | Raise e => Some e
  | Return None => Some (attribute_error JNull "strip")
  | Return (Some _) => None
  end.

(** The answer of the receiver for an incident stored as document_id with
    the analysis a, at the clock reading t. *)
Definition receiver_response (Sv : Services) (title severity incident_id : json)
                             (document_id : string) (a : dict) (t : nat)
  : HttpResponse :=
  mkResponse
    (JObj [("success", JBool true);
           ("incident_id", incident_id);
           ("document_id", JStr document_id);
           ("title", title);
           ("severity", severity);
           ("risk_level", get_or "risk_level" JNull a);
           ("immediate_actions", get_or "immediate_actions" (JArr []) a);
           ("estimated_resolution_hours", get_or "estimated_resolution_hours" JNull a);
           ("message", JStr "Incident processed and action plan generated");
           ("timestamp", JStr (utcnow_isoformat Sv t))])
    200 json_headers.

(** The fields of the sample incident written at startup. *)
Definition sample_fields (now : string) : dict :=
  match sample_incident now with JObj d => d | _ => [] end.

(** The answer of the sample endpoint whose try block raises e at the
    clock reading t. *)
Definition sample_failure (Sv : Services) (e : exn) (t : nat) : HttpResponse :=
  mkResponse (JObj [("error", JStr ("Internal server error: " ++ exn_str e));
                    ("success", JBool false);
                    ("timestamp", JStr (utcnow_isoformat Sv t))])
             500 json_headers.

(** The answer of the HTTP query endpoint with the results incidents at
    the clock reading t. *)
Definition query_response (Sv : Services) (query : string) (incidents : list json)
                          (t : nat) : HttpResponse :=
  mkResponse (JObj [("success", JBool true);
                    ("query", JStr query);
                    ("incidents", JArr incidents);
                    ("count", JInt (Z.of_nat (List.length incidents)));
                    ("timestamp", JStr (utcnow_isoformat Sv t))])
             200 json_headers.

(** Whether a value can be a dict key: a list and a dict are not
    hashable. *)
Definition hashable (v : json) : bool :=
  match v with
  | JArr _ | JObj _ => false
  | _ => true
  end.

(** * Properties *)

(** ** Running coroutines *)

Ltac run :=
  unfold bind, try_except, lift, ret, raise in *; simpl in *.

Section Initialisation.

Context (Sv : Services).

Lemma require_env_frame name w o w' :
  require_env Sv name w = (o, w') -> w' = w.
Proof.
  unfold require_env. destruct (getenv Sv name) as [v|].
  - destruct (String.eqb v ""); unfold raise, ret; congruence.
  - unfold raise; congruence.
Qed.

Lemma require_env_present name v w :
  env_value Sv name v -> require_env Sv name w = (Return v, w).
Proof.
  intros [Hv Hne]. unfold require_env. rewrite Hv.
  destruct (String.eqb_spec v ""); [contradiction | reflexivity].
Qed.

Lemma require_env_missing name w :
  env_missing Sv name -> require_env Sv name w = (Raise (missing_variable name), w).
Proof.
  unfold env_missing, require_env. destruct (getenv Sv name) as [v|]; [|reflexivity].
  now intros ->.
Qed.

Lemma require_env_returns name v w w' :
  require_env Sv name w = (Return v, w') -> env_value Sv name v.
Proof.
  unfold require_env, env_value. destruct (getenv Sv name) as [v0|]; [|discriminate].
  destruct (String.eqb_spec v0 ""); [discriminate|].
  unfold ret. now intros [= <- _].
Qed.

(** The two set-up functions, case by case. *)
Lemma setup_cosmos_ok c w :
  env_value Sv COSMOS_ENDPOINT_ENV c -> cosmos_connection Sv c = None ->
  _setup_cosmos_client Sv w = (Return tt, set_container w).
Proof.
  intros Hc Hn. unfold _setup_cosmos_client, try_except, bind.
  now rewrite (require_env_present _ _ w Hc), Hn.
Qed.

Lemma setup_cosmos_missing w :
  env_missing Sv COSMOS_ENDPOINT_ENV ->
  _setup_cosmos_client Sv w = (Raise (missing_variable COSMOS_ENDPOINT_ENV), w).
Proof.
  intros Hm. unfold _setup_cosmos_client, try_except, bind.
  now rewrite (require_env_missing _ w Hm).
Qed.

Lemma setup_cosmos_fails c e w :
  env_value Sv COSMOS_ENDPOINT_ENV c -> cosmos_connection Sv c = Some e ->
  _setup_cosmos_client Sv w = (Raise e, w).
Proof.
  intros Hc Hn. unfold _setup_cosmos_client, try_except, bind.
  now rewrite (require_env_present _ _ w Hc), Hn.
Qed.

Lemma setup_openai_ok o w :
  env_value Sv AZURE_OPENAI_ENDPOINT_ENV o -> openai_connection Sv o = None ->
  _setup_openai_client Sv w = (Return tt, set_openai_client w).
Proof.
  intros Ho Hn. unfold _setup_openai_client, try_except, bind.
  now rewrite (require_env_present _ _ w Ho), Hn.
Qed.

Lemma setup_openai_missing w :
  env_missing Sv AZURE_OPENAI_ENDPOINT_ENV ->
  _setup_openai_client Sv w = (Raise (missing_variable AZURE_OPENAI_ENDPOINT_ENV), w).
Proof.
  intros Hm. unfold _setup_openai_client, try_except, bind.
  now rewrite (require_env_missing _ w Hm).
Qed.

Lemma setup_openai_fails o e w :
  env_value Sv AZURE_OPENAI_ENDPOINT_ENV o -> openai_connection Sv o = Some e ->
  _setup_openai_client Sv w = (Raise e, w).
Proof.
  intros Ho Hn. unfold _setup_openai_client, try_except, bind.
  now rewrite (require_env_present _ _ w Ho), Hn.
Qed.

(** What either of them has done when it is over. *)
Lemma setup_cosmos_outcomes w o w' :
  _setup_cosmos_client Sv w = (o, w') ->
  (o = Return tt /\ w' = set_container w
   /\ exists c, env_value Sv COSMOS_ENDPOINT_ENV c /\ cosmos_connection Sv c = None)
  \/ (exists e, o = Raise e /\ w' = w).
Proof.
  unfold _setup_cosmos_client, try_except, bind.
  destruct (require_env Sv COSMOS_ENDPOINT_ENV w) as [[c|e] w1] eqn:E;
    pose proof (require_env_frame _ _ _ _ E) as ->.
  - apply require_env_returns in E.
    destruct (cosmos_connection Sv c) as [e|] eqn:Hn; intros [= <- <-]; eauto 7.
  - unfold raise. intros [= <- <-]. eauto.
Qed.

Lemma setup_openai_outcomes w o w' :
  _setup_openai_client Sv w = (o, w') ->
  (o = Return tt /\ w' = set_openai_client w
   /\ exists v, env_value Sv AZURE_OPENAI_ENDPOINT_ENV v /\ openai_connection Sv v = None)
  \/ (exists e, o = Raise e /\ w' = w).
Proof.
  unfold _setup_openai_client, try_except, bind.
  destruct (require_env Sv AZURE_OPENAI_ENDPOINT_ENV w) as [[v|e] w1] eqn:E;
    pose proof (require_env_frame _ _ _ _ E) as ->.
  - apply require_env_returns in E.
    destruct (openai_connection Sv v) as [e|] eqn:Hn; intros [= <- <-]; eauto 7.
  - unfold raise. intros [= <- <-]. eauto.
Qed.

Lemma ensure_initialized_ready w :
  initialized w = true -> _ensure_initialized Sv w = (Return tt, w).
Proof. intros H. unfold _ensure_initialized. now rewrite H. Qed.

(** The first call, by the outcome of the two set-up functions. *)
Lemma ensure_initialized_outcomes w o w' :
  initialized w = false ->
  _ensure_initialized Sv w = (o, w') ->
  (o = Return tt /\ w' = set_initialized (set_openai_client (set_container w))
   /\ configured Sv)
  \/ (exists e, o = Raise e /\ (w' = w \/ w' = set_container w)).
Proof.
  intros Hi. unfold _ensure_initialized. rewrite Hi. unfold bind at 1.
  destruct (_setup_cosmos_client Sv w) as [o1 w1] eqn:E1.
  destruct (setup_cosmos_outcomes _ _ _ E1) as [(-> & -> & c & Hc & Hcn) | (e & -> & ->)];
    [|intros [= <- <-]; eauto].
  unfold bind at 1.
  destruct (_setup_openai_client Sv (set_container w)) as [o2 w2] eqn:E2.
  destruct (setup_openai_outcomes _ _ _ E2) as [(-> & -> & v & Hv & Hvn) | (e & -> & ->)];
    intros [= <- <-]; [left | eauto].
  repeat split. now exists c, v.
Qed.

(** Initialisation touches neither the container contents nor the counters. *)
Lemma ensure_initialized_frame w o w' :
  _ensure_initialized Sv w = (o, w') ->
  items w' = items w /\ clock w' = clock w /\ uuids w' = uuids w
  /\ requests w' = requests w /\ trace w' = trace w.
Proof.
  destruct (initialized w) eqn:Hi.
  - rewrite (ensure_initialized_ready w Hi). intros [= <- <-]. auto.
  - intros H.
    destruct (ensure_initialized_outcomes _ _ _ Hi H)
      as [(_ & -> & _) | (e & _ & [-> | ->])]; simpl; auto.
Qed.

(** In a configured environment the first request makes the processor ready. *)
Lemma ensure_initialized_configured w :
  configured Sv -> initialized w = false ->
  exists w', _ensure_initialized Sv w = (Return tt, w') /\ ready w'.
Proof.
  intros (c & o & Hc & Hcn & Ho & Hon) Hi.
  unfold _ensure_initialized. rewrite Hi. unfold bind at 1.
  rewrite (setup_cosmos_ok c w Hc Hcn). unfold bind at 1.
  rewrite (setup_openai_ok o _ Ho Hon).
  eexists. split; [reflexivity | repeat split].
Qed.

(** After a successful initialisation the flag is set. *)
Lemma ensure_initialized_sets w w' :
  _ensure_initialized Sv w = (Return tt, w') -> initialized w' = true.
Proof.
  destruct (initialized w) eqn:Hi.
  - rewrite (ensure_initialized_ready w Hi). now intros [= <-].
  - intros H.
    destruct (ensure_initialized_outcomes _ _ _ Hi H)
      as [(_ & -> & _) | (e & [=] & _)]. reflexivity.
Qed.

End Initialisation.

(** ** store_incident *)

Section Store.

Context (Sv : Services).

Lemma build_document_dict d analysis w :
  build_document Sv (JObj d) analysis w =
  match severity_levels_get (get_or "severity" (JStr "Unknown") d) with
  | Return n => (Return (stored_document Sv d analysis n w),
                 tick (tick (tick (next_uuid w))))
  | Raise e => (Raise e, next_uuid w)
  end.
Proof.
  unfold build_document, stored_document, get_or. run.
  destruct (severity_levels_get _); reflexivity.
Qed.

Lemma build_document_not_dict incident analysis w :
  (forall d, incident <> JObj d) ->
  build_document Sv incident analysis w
  = (Raise (attribute_error incident "get"), next_uuid w).
Proof.
  intros H. unfold build_document. run.
  destruct incident; try reflexivity. now destruct (H fields).
Qed.

(** What a returning store_incident has done. *)
Lemma store_incident_returns incident analysis w r w' :
  store_incident Sv incident analysis w = (Return r, w') ->
  exists d n w0,
    incident = JObj d
    /\ _ensure_initialized Sv w = (Return tt, w0)
    /\ container w0 = true
    /\ severity_levels_get (get_or "severity" (JStr "Unknown") d) = Return n
    /\ cosmos_fault Sv (requests w) = None
    /\ existsb (has_id (uuid4 Sv (uuids w))) (items w) = false
    /\ w' = after_store (stored_document Sv d analysis n w0) w0
    /\ r = JObj [("success", JBool true);
                 ("document_id", JStr (uuid4 Sv (uuids w)));
                 ("incident_id",
                  py_or (get_or "incidentId" JNull d) (get_or "id" JNull d))].
Proof.
  unfold store_incident. unfold bind at 1.
  destruct (_ensure_initialized Sv w) as [[[]|e] w0] eqn:Hinit; [| discriminate].
  destruct (ensure_initialized_frame Sv _ _ _ Hinit) as (Hi & Hc & Hu & Hr & Ht).
  destruct (container w0) eqn:Hcont; simpl; [| discriminate].
  unfold try_except, bind at 1.
  destruct incident as [| | | | | |d];
    try (rewrite build_document_not_dict by (intros ? [=]); discriminate).
  rewrite build_document_dict.
  destruct (severity_levels_get _) as [n|e] eqn:Hlevel; [| discriminate].
  unfold bind, create_item, request. simpl. rewrite Hcont.
  rewrite Hr. destruct (cosmos_fault Sv (requests w)) eqn:Hfault; [discriminate|].
  simpl. rewrite Hu, Hi.
  destruct (existsb _ (items w)) eqn:Hfresh; [discriminate|].
  unfold ret. intros [= <- <-].
  exists d, n, w0. repeat split; try reflexivity; try assumption.
  unfold after_store, set_items, sent, tick, next_uuid; simpl.
  now rewrite Hi, Hu.
Qed.

(** store_incident returns whenever the processor is ready, the severity
    can be looked up, the request gets through and the new id is unused. *)
Lemma store_incident_succeeds d analysis n w :
  ready w ->
  severity_levels_get (get_or "severity" (JStr "Unknown") d) = Return n ->
  cosmos_fault Sv (requests w) = None ->
  existsb (has_id (uuid4 Sv (uuids w))) (items w) = false ->
  store_incident Sv (JObj d) analysis w
  = (Return (JObj [("success", JBool true);
                   ("document_id", JStr (uuid4 Sv (uuids w)));
                   ("incident_id",
                    py_or (get_or "incidentId" JNull d) (get_or "id" JNull d))]),
     after_store (stored_document Sv d analysis n w) w).
Proof.
  intros (Hi & Hc & Ho) Hlevel Hfault Hfresh.
  unfold store_incident. unfold bind at 1.
  rewrite (ensure_initialized_ready Sv w Hi). rewrite Hc. simpl.
  unfold try_except, bind at 1. rewrite build_document_dict, Hlevel.
  unfold bind, create_item, request. simpl. rewrite Hc, Hfault. simpl.
  rewrite Hfresh. reflexivity.
Qed.

End Store.

(** ** What is written to the container *)

Lemma count_incident_app k l1 l2 :
  count_incident k (l1 ++ l2) = (count_incident k l1 + count_incident k l2)%nat.
Proof. unfold count_incident. now rewrite filter_app, length_app. Qed.

Lemma table_get_other s :
  s <> "Informational" -> s <> "Low" -> s <> "Medium" -> s <> "High" ->
  s <> "Critical" -> table_get s SEVERITY_LEVELS = None.
Proof.
  intros H1 H2 H3 H4 H5. simpl.
  repeat match goal with
         | |- context [String.eqb s ?t] =>
             destruct (String.eqb_spec s t); [contradiction|]
         end.
  reflexivity.
Qed.

(** Whenever store_incident stores a document, its severity_level is the
    fixed rank of the raw severity: Informational 1, Low 2, Medium 3,
    High 4, Critical 5, and 0 for an absent severity and for every other
    value. *)
Theorem stored_severity_level Sv incident analysis w r w' :
  store_incident Sv incident analysis w = (Return r, w') ->
  exists d doc n,
    incident = JObj d
    /\ items w' = (items w ++ [doc])%list
    /\ field "severity_level" doc = JInt n
    /\ (lookup "severity" d = None -> n = 0)
    /\ (lookup "severity" d = Some (JStr "Informational") -> n = 1)
    /\ (lookup "severity" d = Some (JStr "Low") -> n = 2)
    /\ (lookup "severity" d = Some (JStr "Medium") -> n = 3)
    /\ (lookup "severity" d = Some (JStr "High") -> n = 4)
    /\ (lookup "severity" d = Some (JStr "Critical") -> n = 5)
    /\ (forall v, lookup "severity" d = Some v ->
          v <> JStr "Informational" -> v <> JStr "Low" -> v <> JStr "Medium" ->
          v <> JStr "High" -> v <> JStr "Critical" -> n = 0).
Proof.
  intros H.
  destruct (store_incident_returns Sv _ _ _ _ _ H)
    as (d & n & w0 & -> & Hinit & _ & Hlevel & _ & _ & -> & _).
  destruct (ensure_initialized_frame Sv _ _ _ Hinit) as (Hi & _).
  exists d, (stored_document Sv d analysis n w0), n.
  split; [reflexivity|]. split; [simpl; now rewrite Hi|].
  split; [reflexivity|].
  unfold get_or in Hlevel.
  repeat split; try (intros Hs; rewrite Hs in Hlevel; simpl in Hlevel; congruence).
  intros v Hs N1 N2 N3 N4 N5. rewrite Hs in Hlevel.
  destruct v; simpl in Hlevel; try congruence.
  assert (Hnone : table_get s SEVERITY_LEVELS = None)
    by (apply table_get_other; congruence).
  simpl in Hnone. rewrite Hnone in Hlevel. congruence.
Qed.

(** C9: every document store_incident writes has document_type
    security_incident, action_plan_status Pending, the third clock reading
    of the call as processed_time, and the incident it was given, as it
    is, as raw_data. *)
Theorem stored_document_fields Sv incident analysis w r w' :
  store_incident Sv incident analysis w = (Return r, w') ->
  exists doc,
    items w' = (items w ++ [doc])%list
    /\ trace w' = CreateItem doc :: trace w
    /\ field "document_type" doc = JStr "security_incident"
    /\ field "action_plan_status" doc = JStr "Pending"
    /\ field "processed_time" doc = JStr (utcnow_isoformat Sv (S (S (clock w))))
    /\ field "raw_data" doc = incident.
Proof.
  intros H.
  destruct (store_incident_returns Sv _ _ _ _ _ H)
    as (d & n & w0 & -> & Hinit & _ & _ & _ & _ & -> & _).
  destruct (ensure_initialized_frame Sv _ _ _ Hinit) as (Hi & Hc & _ & _ & Ht).
  exists (stored_document Sv d analysis n w0). simpl.
  rewrite Hi, Hc, Ht. repeat split.
Qed.

(** C1, as the code has it: a returning store_incident adds one document
    under the id uuid4 has just produced, which no stored document has,
    and leaves the stored documents as they are; the number of documents
    that carry an incident id grows by one when the new document carries
    it. *)
Theorem store_incident_appends Sv incident analysis w r w' :
  store_incident Sv incident analysis w = (Return r, w') ->
  exists d doc,
    incident = JObj d
    /\ items w' = (items w ++ [doc])%list
    /\ doc_id doc = Some (uuid4 Sv (uuids w))
    /\ existsb (has_id (uuid4 Sv (uuids w))) (items w) = false
    /\ field "incident_id" doc
       = py_or (get_or "incidentId" JNull d) (get_or "id" JNull d)
    /\ field "raw_data" doc = incident
    /\ forall k, count_incident k (items w')
                 = (count_incident k (items w)
                    + if has_incident_id k doc then 1 else 0)%nat.
Proof.
  intros H.
  destruct (store_incident_returns Sv _ _ _ _ _ H)
    as (d & n & w0 & -> & Hinit & _ & _ & _ & Hfresh & -> & _).
  destruct (ensure_initialized_frame Sv _ _ _ Hinit) as (Hi & _ & Hu & _ & _).
  exists d, (stored_document Sv d analysis n w0).
  split; [reflexivity|]. split; [simpl; now rewrite Hi|].
  split; [simpl; now rewrite Hu|]. split; [assumption|].
  split; [reflexivity|]. split; [reflexivity|].
  intros k. simpl items. rewrite Hi, count_incident_app. f_equal.
  unfold count_incident. simpl filter.
  now destruct (has_incident_id k (stored_document Sv d analysis n w0)).
Qed.

(** A High incident stored by the scripted deployment gets the level 4. *)
Lemma stored_severity_level_witness :
  exists d doc n,
    Scripted.first_delivery = JObj d
    /\ items (Scripted.world_after
                (store_incident Scripted.offline Scripted.first_delivery JNull)
                Scripted.started)
       = (items Scripted.started ++ [doc])%list
    /\ field "severity_level" doc = JInt n
    /\ (lookup "severity" d = None -> n = 0)
    /\ (lookup "severity" d = Some (JStr "Informational") -> n = 1)
    /\ (lookup "severity" d = Some (JStr "Low") -> n = 2)
    /\ (lookup "severity" d = Some (JStr "Medium") -> n = 3)
    /\ (lookup "severity" d = Some (JStr "High") -> n = 4)
    /\ (lookup "severity" d = Some (JStr "Critical") -> n = 5)
    /\ (forall v, lookup "severity" d = Some v ->
          v <> JStr "Informational" -> v <> JStr "Low" -> v <> JStr "Medium" ->
          v <> JStr "High" -> v <> JStr "Critical" -> n = 0).
Proof.
  apply (stored_severity_level Scripted.offline Scripted.first_delivery JNull
           Scripted.started
           (Scripted.result_of
              (store_incident Scripted.offline Scripted.first_delivery JNull)
              Scripted.started)).
  vm_compute. reflexivity.
Defined.

Lemma severity_levels_get_unhashable v :
  hashable v = false -> severity_levels_get v = Raise (unhashable v).
Proof. destruct v; try discriminate; reflexivity. Qed.

(** C6: a severity that is a list or an object has no level: the lookup in
    SEVERITY_LEVELS raises the TypeError of an unhashable key while the
    document is built, after the id has been drawn, so store_incident
    raises and nothing is stored, where the claim promises the level 0. *)
Theorem unhashable_severity_is_not_stored Sv d analysis w v :
  ready w ->
  lookup "severity" d = Some v ->
  hashable v = false ->
  store_incident Sv (JObj d) analysis w = (Raise (unhashable v), next_uuid w)
  /\ items (next_uuid w) = items w.
Proof.
  intros (Hi & Hc & _) Hs Hv. split; [|reflexivity].
  unfold store_incident. unfold bind at 1.
  rewrite (ensure_initialized_ready Sv w Hi). rewrite Hc. simpl negb. cbv iota.
  unfold try_except, bind at 1. rewrite build_document_dict.
  unfold get_or. rewrite Hs. now rewrite (severity_levels_get_unhashable v Hv).
Qed.

Lemma unhashable_severity_is_not_stored_witness :
  ready Scripted.started
  /\ store_incident Scripted.terse
       (JObj [("title", JStr "T"); ("severity", JArr [])]) (JObj []) Scripted.started
     = (Raise (Exn "TypeError" "unhashable type: 'list'"), next_uuid Scripted.started)
  /\ status_code (Scripted.response_of
                    (sentinel_receiver Scripted.terse
                       (post_request (JObj [("title", JStr "T"); ("severity", JArr [])])))
                    Scripted.started) = 400
  /\ field "error" (body (Scripted.response_of
                            (sentinel_receiver Scripted.terse
                               (post_request
                                  (JObj [("title", JStr "T"); ("severity", JArr [])])))
                            Scripted.started))
     = JStr "unhashable type: 'list'"
  /\ items (Scripted.world_after
              (sentinel_receiver Scripted.terse
                 (post_request (JObj [("title", JStr "T"); ("severity", JArr [])])))
              Scripted.started) = [].
Proof.
  assert (H1 : ready Scripted.started) by (repeat split).
  split; [exact H1|].
  split; [exact (proj1 (unhashable_severity_is_not_stored Scripted.terse
                          [("title", JStr "T"); ("severity", JArr [])] (JObj [])
                          Scripted.started (JArr []) H1 eq_refl eq_refl))|].
  vm_compute. repeat split.
Defined.

Lemma stored_document_fields_witness :
  exists doc,
    items (Scripted.world_after
             (store_incident Scripted.offline Scripted.second_delivery JNull)
             Scripted.started)
    = (items Scripted.started ++ [doc])%list
    /\ trace (Scripted.world_after
                (store_incident Scripted.offline Scripted.second_delivery JNull)
                Scripted.started)
       = CreateItem doc :: trace Scripted.started
    /\ field "document_type" doc = JStr "security_incident"
    /\ field "action_plan_status" doc = JStr "Pending"
    /\ field "processed_time" doc
       = JStr (utcnow_isoformat Scripted.offline (S (S (clock Scripted.started))))
    /\ field "raw_data" doc = Scripted.second_delivery.
Proof.
  apply (stored_document_fields Scripted.offline Scripted.second_delivery JNull
           Scripted.started
           (Scripted.result_of
              (store_incident Scripted.offline Scripted.second_delivery JNull)
              Scripted.started)).
  vm_compute. reflexivity.
Defined.

(** C1 fails: the same incident delivered twice, with different payloads,
    leaves two documents with that incident id, the first of which still
    holds the first payload. *)
Lemma redelivery_duplicates :
  count_incident "INC-1" (items Scripted.after_second) = 2%nat
  /\ count_incident "INC-1" (items Scripted.after_second) <> 1%nat
  /\ map (field "raw_data") (items Scripted.after_second)
     = [Scripted.first_delivery; Scripted.second_delivery].
Proof. vm_compute. repeat split. discriminate. Qed.

Lemma store_incident_appends_witness :
  exists d doc,
    Scripted.second_delivery = JObj d
    /\ items Scripted.after_second = (items Scripted.after_first ++ [doc])%list
    /\ doc_id doc = Some (uuid4 Scripted.offline (uuids Scripted.after_first))
    /\ existsb (has_id (uuid4 Scripted.offline (uuids Scripted.after_first)))
               (items Scripted.after_first) = false
    /\ field "incident_id" doc
       = py_or (get_or "incidentId" JNull d) (get_or "id" JNull d)
    /\ field "raw_data" doc = Scripted.second_delivery
    /\ forall k, count_incident k (items Scripted.after_second)
                 = (count_incident k (items Scripted.after_first)
                    + if has_incident_id k doc then 1 else 0)%nat.
Proof.
  apply (store_incident_appends Scripted.offline Scripted.second_delivery JNull
           Scripted.after_first
           (Scripted.result_of
              (store_incident Scripted.offline Scripted.second_delivery JNull)
              Scripted.after_first)).
  vm_compute. reflexivity.
Defined.

(** ** analyze_incident *)

Section Analysis.

Context (Sv : Services).

(** analyze_incident on a ready processor, once the prompt is built. *)
Lemma analyze_incident_ready d w um :
  ready w -> user_message_of Sv d = Return um ->
  analyze_incident Sv (JObj d) w
  = (Return
       match chat_completion Sv (requests w) (model_name Sv) (analysis_messages um) with
       | Return content =>
           match loads Sv content with
           | Return analysis => analysis
           | Raise e => default_analysis (get_or "severity" (JStr "Unknown") d) e
           end
       | Raise e => default_analysis (get_or "severity" (JStr "Unknown") d) e
       end,
     sent (ChatCall (analysis_messages um)) w).
Proof.
  intros (Hi & Hc & Ho) Hum. unfold analyze_incident. unfold bind at 1.
  rewrite (ensure_initialized_ready Sv w Hi). rewrite Ho. simpl.
  unfold user_message_of, get_or in Hum. run. rewrite Hum. simpl.
  unfold chat_create, analysis_messages. rewrite Ho.
  destruct (chat_completion Sv _ _ _) as [content|e]; simpl; [|reflexivity].
  destruct (loads Sv content); reflexivity.
Qed.

End Analysis.

(** C2, as the code has it: on a ready processor whose prompt can be
    built, analyze_incident returns the parsed reply of the model as it
    is, and the default analysis when the call fails or the reply cannot
    be parsed; the default analysis has the seven fields other than
    risk_level with their types, and its risk_level is the severity of the
    incident, Unknown when absent. *)
Theorem analyze_incident_plan Sv d w um :
  ready w -> user_message_of Sv d = Return um ->
  let severity := get_or "severity" (JStr "Unknown") d in
  let reply := chat_completion Sv (requests w) (model_name Sv) (analysis_messages um) in
  let w' := sent (ChatCall (analysis_messages um)) w in
  (forall content analysis,
     reply = Return content -> loads Sv content = Return analysis ->
     analyze_incident Sv (JObj d) w = (Return analysis, w'))
  /\ (forall content e,
        reply = Return content -> loads Sv content = Raise e ->
        analyze_incident Sv (JObj d) w = (Return (default_analysis severity e), w'))
  /\ (forall e,
        reply = Raise e ->
        analyze_incident Sv (JObj d) w = (Return (default_analysis severity e), w'))
  /\ (forall e,
        seven_fields (default_analysis severity e) = true
        /\ field "risk_level" (default_analysis severity e) = severity
        /\ well_formed_plan (default_analysis severity e) = is_risk_level severity).
Proof.
  intros Hready Hum severity reply w'.
  pose proof (analyze_incident_ready Sv d w um Hready Hum) as H.
  fold reply in H. fold severity in H. fold w' in H.
  repeat split.
  - intros content analysis Hr Hl. now rewrite H, Hr, Hl.
  - intros content e Hr Hl. now rewrite H, Hr, Hl.
  - intros e Hr. now rewrite H, Hr.
  - unfold well_formed_plan. simpl. now rewrite andb_true_r.
Qed.

Lemma analyze_incident_plan_witness :
  ready Scripted.started
  /\ user_message_of Scripted.terse []
     = Return (Scripted.result_text (user_message_of Scripted.terse []))
  /\ analyze_incident Scripted.terse (JObj []) Scripted.started
     = (Return (JObj []),
        sent (ChatCall (analysis_messages
                          (Scripted.result_text (user_message_of Scripted.terse []))))
             Scripted.started).
Proof.
  assert (Hready : ready Scripted.started) by (vm_compute; repeat split).
  assert (Hum : user_message_of Scripted.terse []
                = Return (Scripted.result_text (user_message_of Scripted.terse [])))
    by (vm_compute; reflexivity).
  split; [exact Hready|]. split; [exact Hum|].
  apply (proj1 (analyze_incident_plan Scripted.terse [] Scripted.started
                  _ Hready Hum) (Some Scripted.empty_object) (JObj []));
    vm_compute; reflexivity.
Defined.

(** C2 fails: the reply {} of the model is returned as the plan, without
    any of the eight fields; and when the model is unreachable the plan
    for an incident without severity has the risk level Unknown. *)
Lemma reply_returned_unvalidated :
  fst (analyze_incident Scripted.terse Scripted.first_delivery Scripted.started)
  = Return (JObj [])
  /\ well_formed_plan (JObj []) = false
  /\ has_type "risk_level" (fun _ => true) (JObj []) = false
  /\ field "risk_level"
       (Scripted.result_of (analyze_incident Scripted.offline Scripted.bare_incident)
                           Scripted.started)
     = JStr "Unknown"
  /\ well_formed_plan
       (Scripted.result_of (analyze_incident Scripted.offline Scripted.bare_incident)
                           Scripted.started)
     = false.
Proof. vm_compute. repeat split. Qed.

(** ** The query translator *)

Lemma prefix_app p h t : String.prefix p h = true -> String.prefix p (h ++ t) = true.
Proof.
  revert h. induction p as [|c p IH]; intros h H;
    [now destruct (h ++ t)|].
  destruct h as [|c' h]; simpl in *; [discriminate|].
  destruct (ascii_dec c c'); [now apply IH | discriminate].
Qed.

Lemma contains_cons needle c h :
  contains needle (String c h)
  = String.prefix needle (String c h) || contains needle h.
Proof. reflexivity. Qed.

Lemma contains_app_r needle h t :
  contains needle h = true -> contains needle (h ++ t) = true.
Proof.
  induction h as [|c h IH].
  - destruct needle; [|discriminate]. intros _. now destruct t.
  - change (String c h ++ t) with (String c (h ++ t)).
    rewrite !contains_cons. intros H. apply orb_true_iff in H.
    apply orb_true_iff. destruct H as [H|H].
    + left. exact (prefix_app _ _ t H).
    + right. exact (IH H).
Qed.

Lemma contains_app_l needle h t :
  contains needle t = true -> contains needle (h ++ t) = true.
Proof.
  intros H. induction h as [|c h IH]; [exact H|].
  change (String c h ++ t) with (String c (h ++ t)).
  rewrite contains_cons, IH. apply orb_true_r.
Qed.

(** Every prompt of the translator carries the rule that asks for the filter. *)
Lemma prompt_demands_filter q : contains filter_rule (sql_system_message q) = true.
Proof.
  unfold sql_system_message.
  do 2 apply contains_app_l. apply contains_app_r. vm_compute. reflexivity.
Qed.

Section Translator.

Context (Sv : Services).

Lemma generate_incident_sql_ready q w :
  ready w ->
  generate_incident_sql Sv q w
  = (match chat_completion Sv (requests w) (model_name Sv) (sql_messages q) with
     | Return (Some text) => Return (cleaned text)
     | Return None => Raise (attribute_error JNull "strip")
     | Raise e => Raise e
     end,
     sent (ChatCall (sql_messages q)) w).
Proof.
  intros (Hi & Hc & Ho). unfold generate_incident_sql. unfold bind at 1.
  rewrite (ensure_initialized_ready Sv w Hi).
  unfold try_except, bind, chat_create. rewrite Ho. fold (sql_messages q).
  destruct (chat_completion Sv _ _ _) as [[text|]|e]; reflexivity.
Qed.

Lemma query_incidents_ready q w text :
  ready w ->
  chat_completion Sv (requests w) (model_name Sv) (sql_messages q) = Return (Some text) ->
  cosmos_fault Sv (S (requests w)) = None ->
  query_incidents Sv q w
  = (cosmos_sql Sv (cleaned text) (items w),
     sent (QueryItems (cleaned text)) (sent (ChatCall (sql_messages q)) w)).
Proof.
  intros Hready Hreply Hfault. pose proof Hready as (Hi & Hc & Ho).
  unfold query_incidents. unfold bind at 1.
  rewrite (ensure_initialized_ready Sv w Hi). unfold bind at 1.
  rewrite (generate_incident_sql_ready q w Hready), Hreply.
  unfold try_except, query_items, request. simpl. rewrite Hc, Hfault.
  destruct (cosmos_sql Sv _ _); reflexivity.
Qed.

End Translator.

(** C3, as the code has it: the prompt of the translator always demands
    the record-type filter, but the reply of the model is not checked:
    generate_incident_sql returns it with the surrounding white space and
    the code fences removed, and query_incidents runs that text against
    the container, whatever it is. *)
Theorem translator_output_is_run Sv q w text :
  ready w ->
  chat_completion Sv (requests w) (model_name Sv) (sql_messages q) = Return (Some text) ->
  cosmos_fault Sv (S (requests w)) = None ->
  contains filter_rule (sql_system_message q) = true
  /\ generate_incident_sql Sv q w
     = (Return (cleaned text), sent (ChatCall (sql_messages q)) w)
  /\ query_incidents Sv q w
     = (cosmos_sql Sv (cleaned text) (items w),
        sent (QueryItems (cleaned text)) (sent (ChatCall (sql_messages q)) w)).
Proof.
  intros Hready Hreply Hfault. split; [apply prompt_demands_filter|]. split.
  - now rewrite generate_incident_sql_ready, Hreply.
  - now apply query_incidents_ready.
Qed.

Lemma translator_output_is_run_witness :
  ready Scripted.after_first
  /\ chat_completion Scripted.unfiltered (requests Scripted.after_first)
       (model_name Scripted.unfiltered) (sql_messages "show critical incidents")
     = Return (Some "SELECT * FROM c")
  /\ cosmos_fault Scripted.unfiltered (S (requests Scripted.after_first)) = None
  /\ contains filter_rule (sql_system_message "show critical incidents") = true
  /\ generate_incident_sql Scripted.unfiltered "show critical incidents"
       Scripted.after_first
     = (Return (cleaned "SELECT * FROM c"),
        sent (ChatCall (sql_messages "show critical incidents")) Scripted.after_first)
  /\ query_incidents Scripted.unfiltered "show critical incidents" Scripted.after_first
     = (cosmos_sql Scripted.unfiltered (cleaned "SELECT * FROM c")
          (items Scripted.after_first),
        sent (QueryItems (cleaned "SELECT * FROM c"))
             (sent (ChatCall (sql_messages "show critical incidents"))
                   Scripted.after_first)).
Proof.
  assert (H1 : ready Scripted.after_first) by (vm_compute; repeat split).
  assert (H2 : chat_completion Scripted.unfiltered (requests Scripted.after_first)
                 (model_name Scripted.unfiltered) (sql_messages "show critical incidents")
               = Return (Some "SELECT * FROM c")) by reflexivity.
  assert (H3 : cosmos_fault Scripted.unfiltered (S (requests Scripted.after_first)) = None)
    by reflexivity.
  split; [exact H1|]. split; [exact H2|]. split; [exact H3|].
  exact (translator_output_is_run Scripted.unfiltered "show critical incidents"
           Scripted.after_first "SELECT * FROM c" H1 H2 H3).
Defined.

(** C3 fails: a reply without the record-type filter is run against the
    container and answered with the stored document. *)
Lemma unfiltered_query_is_run :
  contains type_filter "SELECT * FROM c" = false
  /\ fst (query_incidents Scripted.unfiltered "show critical incidents"
            Scripted.after_first)
     = Return (items Scripted.after_first)
  /\ List.length (items Scripted.after_first) = 1%nat
  /\ hd_error (trace (Scripted.world_after
                        (query_incidents Scripted.unfiltered "show critical incidents")
                        Scripted.after_first))
     = Some (QueryItems "SELECT * FROM c").
Proof. vm_compute. repeat split. Qed.

(** ** The natural-language query surfaces *)

Section QuerySurfaces.

Context (Sv : Services).

(** The requests query_incidents sends from a ready processor: the chat
    completion for the question, then at most one query. *)
Lemma query_incidents_trace q w :
  ready w ->
  exists o w',
    query_incidents Sv q w = (o, w')
    /\ clock w' = clock w
    /\ (trace w' = ChatCall (sql_messages q) :: trace w
        \/ exists sql, trace w' = QueryItems sql :: ChatCall (sql_messages q) :: trace w).
Proof.
  intros Hready. pose proof Hready as (Hi & Hc & Ho).
  unfold query_incidents. unfold bind at 1.
  rewrite (ensure_initialized_ready Sv w Hi). unfold bind at 1.
  rewrite (generate_incident_sql_ready Sv q w Hready).
  destruct (chat_completion Sv _ _ _) as [[text|]|e];
    try (do 2 eexists; split; [reflexivity|]; split; [reflexivity|]; left; reflexivity).
  unfold try_except, query_items, request. simpl. rewrite Hc.
  destruct (cosmos_fault Sv (S (requests w))).
  - do 2 eexists. split; [reflexivity|]. split; [reflexivity|]. right. now eexists.
  - destruct (cosmos_sql Sv _ _); do 2 eexists; (split; [reflexivity|]);
      (split; [reflexivity|]); right; now eexists.
Qed.

(** The MCP tool answers a request whose query is empty without touching
    the world. *)
Lemma mcp_rejects_empty_query req w req_data :
  json_loads Sv req = Return req_data ->
  mcp_query_argument req_data = Return "" ->
  mcp_query_incidents Sv req w = (Return query_required, w).
Proof.
  intros Hparse Harg. unfold mcp_query_incidents, mcp_query_incidents_try.
  unfold mcp_query_argument in Harg. run. rewrite Hparse. simpl.
  destruct (py_get req_data "arguments" (JObj [])) as [args|e]; [|discriminate]. simpl.
  destruct (py_get args "query" (JStr "")) as [raw|e]; [|discriminate]. simpl.
  rewrite Harg. reflexivity.
Qed.

(** The HTTP endpoint answers a request without a query parameter as the
    request for the default query. *)
Lemma http_missing_query_default req w :
  param "query" (params req) = None ->
  http_query_incidents Sv req w
  = http_query_incidents Sv
      (mkRequest (("query", default_http_query) :: params req) (get_json req)) w.
Proof. intros H. unfold http_query_incidents. simpl. now rewrite H. Qed.

Lemma http_query_incidents_trace req w :
  ready w -> param "query" (params req) = None ->
  exists response w',
    http_query_incidents Sv req w = (Return response, w')
    /\ (trace w' = ChatCall (sql_messages default_http_query) :: trace w
        \/ exists sql,
             trace w' = QueryItems sql :: ChatCall (sql_messages default_http_query)
                                      :: trace w).
Proof.
  intros Hready Hq. unfold http_query_incidents. rewrite Hq.
  destruct (query_incidents_trace default_http_query w Hready)
    as (o & w1 & Hrun & _ & Htrace).
  unfold try_except, bind. rewrite Hrun.
  destruct o as [incidents|e]; simpl; do 2 eexists; (split; [reflexivity|]);
    simpl; exact Htrace.
Qed.

End QuerySurfaces.

(** C4, as the code has it: the MCP tool rejects a request whose query is
    missing, empty or white space with the error "Query parameter is
    required" and success false, without calling the translator or the
    store; the HTTP endpoint answers a request without a query parameter
    as the request for its default query, which it sends to the
    translator. *)
Theorem empty_query_handling Sv :
  (forall req w req_data,
     json_loads Sv req = Return req_data ->
     mcp_query_argument req_data = Return "" ->
     mcp_query_incidents Sv req w = (Return query_required, w))
  /\ mcp_query_argument (JObj []) = Return ""
  /\ (forall top, lookup "arguments" top = Some (JObj []) ->
                  mcp_query_argument (JObj top) = Return "")
  /\ (forall top args s,
        lookup "arguments" top = Some (JObj args) ->
        lookup "query" args = Some (JStr s) -> strip s = "" ->
        mcp_query_argument (JObj top) = Return "")
  /\ (forall req w,
        ready w -> param "query" (params req) = None ->
        http_query_incidents Sv req w
        = http_query_incidents Sv
            (mkRequest (("query", default_http_query) :: params req) (get_json req)) w
        /\ exists response w',
             http_query_incidents Sv req w = (Return response, w')
             /\ (trace w' = ChatCall (sql_messages default_http_query) :: trace w
                 \/ exists sql,
                      trace w' = QueryItems sql
                                 :: ChatCall (sql_messages default_http_query)
                                 :: trace w)).
Proof.
  split; [intros req w req_data H1 H2;
          exact (mcp_rejects_empty_query Sv req w req_data H1 H2)|].
  split; [reflexivity|].
  split; [intros top H; unfold mcp_query_argument; simpl; now rewrite H|].
  split.
  - intros top args s Ha Hq Hs. unfold mcp_query_argument. simpl.
    rewrite Ha. simpl. rewrite Hq. simpl. now rewrite Hs.
  - intros req w Hready Hq. split.
    + now apply http_missing_query_default.
    + now apply http_query_incidents_trace.
Qed.

Lemma empty_query_handling_witness :
  json_loads Scripted.unfiltered Scripted.request_without_query
  = Return (JObj [("arguments", JObj [])])
  /\ mcp_query_argument (JObj [("arguments", JObj [])]) = Return ""
  /\ mcp_query_incidents Scripted.unfiltered Scripted.request_without_query
       Scripted.after_first
     = (Return query_required, Scripted.after_first).
Proof.
  assert (H1 : json_loads Scripted.unfiltered Scripted.request_without_query
               = Return (JObj [("arguments", JObj [])])) by reflexivity.
  assert (H2 : mcp_query_argument (JObj [("arguments", JObj [])]) = Return "")
    by reflexivity.
  split; [exact H1|]. split; [exact H2|].
  exact (proj1 (empty_query_handling Scripted.unfiltered)
               Scripted.request_without_query Scripted.after_first _ H1 H2).
Defined.

(** C4 fails: the HTTP endpoint answers a request without a query with
    success true, after the translator was called with the default query
    and its reply was run. *)
Lemma http_missing_query_is_answered :
  param "query" (params (get_request [])) = None
  /\ option_map (fun r => (status_code r, field "success" (body r),
                           field "query" (body r), field "count" (body r),
                           field "error" (body r)))
       (match fst (http_query_incidents Scripted.unfiltered (get_request [])
                     Scripted.after_first) with
        | Return r => Some r
        | Raise _ => None
        end)
     = Some (200, JBool true, JStr default_http_query, JInt 1, JNull)
  /\ trace (Scripted.world_after
              (http_query_incidents Scripted.unfiltered (get_request []))
              Scripted.after_first)
     = QueryItems "SELECT * FROM c" :: ChatCall (sql_messages default_http_query)
       :: trace Scripted.after_first.
Proof. vm_compute. repeat split. Qed.

(** ** The MCP tool never raises *)

(** What the try block of the MCP tool returns. *)
Lemma mcp_try_returns Sv req w j w' :
  mcp_query_incidents_try Sv req w = (Return j, w') ->
  j = query_required
  \/ exists query summary incidents now,
       j = JObj [("success", JBool true);
                 ("query", JStr query);
                 ("summary", JStr summary);
                 ("incidents", JArr incidents);
                 ("count", JInt (Z.of_nat (List.length incidents)));
                 ("timestamp", JStr now)].
Proof.
  unfold mcp_query_incidents_try. unfold bind, lift, ret.
  destruct (json_loads Sv req) as [req_data|e]; [|discriminate].
  destruct (py_get req_data "arguments" (JObj [])) as [args|e]; [|discriminate].
  destruct (py_get args "query" (JStr "")) as [raw|e]; [|discriminate].
  destruct (py_strip raw) as [query|e]; [|discriminate].
  destruct (String.eqb query "").
  - intros [= <- _]. now left.
  - destruct (query_incidents Sv query w) as [[incidents|e] w1]; [|discriminate].
    destruct (mcp_summary Sv query incidents) as [summary|e]; [|discriminate].
    unfold utcnow. intros [= <- _]. right. now do 4 eexists.
Qed.

(** C10: for every request text the MCP tool returns an object with a
    boolean success field; when its try block raises, the object has
    success false and the error message "Error querying incidents: "
    followed by the text of the exception. *)
Theorem mcp_always_answers Sv req w :
  (exists d b w',
     mcp_query_incidents Sv req w = (Return (JObj d), w')
     /\ lookup "success" d = Some (JBool b))
  /\ (forall e w1,
        mcp_query_incidents_try Sv req w = (Raise e, w1) ->
        mcp_query_incidents Sv req w = (Return (mcp_failure Sv e (clock w1)), tick w1)
        /\ field "success" (mcp_failure Sv e (clock w1)) = JBool false
        /\ field "error" (mcp_failure Sv e (clock w1))
           = JStr ("Error querying incidents: " ++ exn_str e)).
Proof.
  split.
  - unfold mcp_query_incidents, try_except.
    destruct (mcp_query_incidents_try Sv req w) as [[j|e] w1] eqn:E.
    + destruct (mcp_try_returns _ _ _ _ _ E)
        as [-> | (query & summary & incidents & now & ->)];
        do 3 eexists; split; reflexivity.
    + unfold bind, utcnow, ret. do 3 eexists. split; reflexivity.
  - intros e w1 E. unfold mcp_query_incidents, try_except. rewrite E.
    repeat split.
Qed.

Lemma mcp_always_answers_witness :
  mcp_query_incidents_try Scripted.offline "not json" Scripted.started
  = (Raise (Exn "JSONDecodeError" "Expecting value: line 1 column 1 (char 0)"),
     Scripted.started)
  /\ mcp_query_incidents Scripted.offline "not json" Scripted.started
     = (Return (mcp_failure Scripted.offline
                  (Exn "JSONDecodeError" "Expecting value: line 1 column 1 (char 0)")
                  (clock Scripted.started)),
        tick Scripted.started).
Proof.
  assert (H : mcp_query_incidents_try Scripted.offline "not json" Scripted.started
              = (Raise (Exn "JSONDecodeError" "Expecting value: line 1 column 1 (char 0)"),
                 Scripted.started)) by reflexivity.
  split; [exact H|].
  exact (proj1 (proj2 (mcp_always_answers Scripted.offline "not json" Scripted.started)
                      _ _ H)).
Defined.

(** ** The update endpoint *)

Section Update.

Context (Sv : Services).

Lemma update_rejects_missing_fields req w d :
  get_json req = Return (JObj d) ->
  truthy (get_or "document_id" JNull d) = false
  \/ truthy (get_or "action_status" JNull d) = false ->
  http_update_incident_actions Sv req w = (Return missing_fields_response, w).
Proof.
  intros Hbody Hmissing.
  unfold http_update_incident_actions, http_update_incident_actions_try. run.
  rewrite Hbody. simpl. unfold get_or in Hmissing.
  destruct Hmissing as [H|H]; rewrite H; simpl; [reflexivity|].
  now rewrite orb_true_r.
Qed.

(** After the validation every exception of the read is answered by the
    same except branch. *)
Lemma update_read_raises req w d e w1 :
  get_json req = Return (JObj d) ->
  truthy (get_or "document_id" JNull d) = true ->
  truthy (get_or "action_status" JNull d) = true ->
  ready w ->
  read_item Sv (get_or "document_id" JNull d) w = (Raise e, w1) ->
  http_update_incident_actions Sv req w
  = (Return (failure_response Sv e (clock w1) 500), tick w1).
Proof.
  intros Hbody Hid Hstatus (Hi & _) Hread.
  unfold http_update_incident_actions, http_update_incident_actions_try.
  unfold try_except, bind at 1, lift. rewrite Hbody.
  unfold bind, lift, get_or in *. simpl. rewrite Hid, Hstatus. simpl.
  rewrite (ensure_initialized_ready Sv w Hi). rewrite Hread. reflexivity.
Qed.

Lemma read_item_absent item w :
  container w = true -> cosmos_fault Sv (requests w) = None -> absent item (items w) ->
  read_item Sv item w = (Raise (cosmos_not_found Sv item), sent (ReadItem item) w).
Proof.
  intros Hc Hf Ha. unfold read_item, request. rewrite Hc, Hf.
  destruct item; try reflexivity. simpl in *. now rewrite Ha.
Qed.

Lemma read_item_fault item w e :
  container w = true -> cosmos_fault Sv (requests w) = Some e ->
  read_item Sv item w = (Raise e, sent (ReadItem item) w).
Proof. intros Hc Hf. unfold read_item, request. now rewrite Hc, Hf. Qed.

End Update.

(** C5, as the code has it: an object request without a truthy document_id
    or action_status is answered with status 400 and the message "Missing
    required fields", the world untouched; a request for a document that
    does not exist is answered by the general except branch, with status
    500, success false and the text of the exception, exactly as a request
    that fails on its way to the store; in both the documents are left as
    they are. *)
Theorem update_validation_and_failures Sv req w d :
  get_json req = Return (JObj d) ->
  (truthy (get_or "document_id" JNull d) = false
   \/ truthy (get_or "action_status" JNull d) = false ->
   http_update_incident_actions Sv req w = (Return missing_fields_response, w))
  /\ (truthy (get_or "document_id" JNull d) = true ->
      truthy (get_or "action_status" JNull d) = true ->
      ready w ->
      let item := get_or "document_id" JNull d in
      let w' := tick (sent (ReadItem item) w) in
      (cosmos_fault Sv (requests w) = None -> absent item (items w) ->
       http_update_incident_actions Sv req w
       = (Return (failure_response Sv (cosmos_not_found Sv item) (clock w) 500), w'))
      /\ (forall e, cosmos_fault Sv (requests w) = Some e ->
            http_update_incident_actions Sv req w
            = (Return (failure_response Sv e (clock w) 500), w'))
      /\ items w' = items w).
Proof.
  intros Hbody. split.
  - now apply update_rejects_missing_fields.
  - intros Hid Hstatus Hready item w'. pose proof Hready as (_ & Hc & _).
    repeat split.
    + intros Hf Ha.
      now rewrite (update_read_raises Sv req w d _ _ Hbody Hid Hstatus Hready
                     (read_item_absent Sv item w Hc Hf Ha)).
    + intros e Hf.
      now rewrite (update_read_raises Sv req w d _ _ Hbody Hid Hstatus Hready
                     (read_item_fault Sv item w e Hc Hf)).
Qed.

Lemma update_validation_and_failures_witness :
  get_json Scripted.update_unknown
  = Return (JObj [("document_id", JStr "no-such-document");
                  ("action_status", JStr "Completed")])
  /\ http_update_incident_actions Scripted.offline Scripted.update_unknown
       Scripted.after_first
     = (Return (failure_response Scripted.offline
                  (cosmos_not_found Scripted.offline (JStr "no-such-document"))
                  (clock Scripted.after_first) 500),
        tick (sent (ReadItem (JStr "no-such-document")) Scripted.after_first))
  /\ http_update_incident_actions Scripted.offline
       (post_request (JObj [("document_id", JStr "no-such-document")]))
       Scripted.after_first
     = (Return missing_fields_response, Scripted.after_first).
Proof.
  assert (Hready : ready Scripted.after_first) by (vm_compute; repeat split).
  split; [reflexivity|]. split.
  - exact (proj1 (proj2 (update_validation_and_failures Scripted.offline
                           Scripted.update_unknown Scripted.after_first _ eq_refl)
                        eq_refl eq_refl Hready)
                 eq_refl eq_refl).
  - exact (proj1 (update_validation_and_failures Scripted.offline
                    (post_request (JObj [("document_id", JStr "no-such-document")]))
                    Scripted.after_first _ eq_refl)
                 (or_intror eq_refl)).
Defined.

(** C5 fails in its second half: the request for a document that does not
    exist and the request that fails because the endpoint of the store is
    not configured get the same status, 500, and the same fields. *)
Lemma not_found_as_any_failure :
  status_code (Scripted.response_of
                 (http_update_incident_actions Scripted.offline Scripted.update_unknown)
                 Scripted.after_first) = 500
  /\ status_code (Scripted.response_of
                    (http_update_incident_actions Scripted.misconfigured
                       Scripted.update_unknown)
                    Scripted.fresh) = 500
  /\ body_keys (Scripted.response_of
                  (http_update_incident_actions Scripted.offline Scripted.update_unknown)
                  Scripted.after_first)
     = ["success"; "error"; "timestamp"]
  /\ body_keys (Scripted.response_of
                  (http_update_incident_actions Scripted.misconfigured
                     Scripted.update_unknown)
                  Scripted.fresh)
     = ["success"; "error"; "timestamp"]
  /\ field "error" (body (Scripted.response_of
                            (http_update_incident_actions Scripted.misconfigured
                               Scripted.update_unknown)
                            Scripted.fresh))
     = JStr "Missing required environment variable: COSMOS_ENDPOINT".
Proof. vm_compute. repeat split. Qed.

(** ** The fields of a received incident *)

Lemma incident_fields_dict d inc :
  unwrapped d = JObj inc ->
  incident_fields (JObj d)
  = Return (JObj inc,
            py_or (get_or "title" JNull inc) (get_or "incidentName" JNull inc),
            get_or "severity" (JStr "Unknown") inc,
            py_or (get_or "incidentId" JNull inc) (get_or "id" JNull inc)).
Proof.
  unfold unwrapped, get_or, incident_fields. simpl. intros ->. reflexivity.
Qed.

Lemma unwrapped_dict d :
  truthy (get_or "properties" JNull d) = false
  \/ (exists p, get_or "properties" JNull d = JObj p) ->
  exists inc, unwrapped d = JObj inc.
Proof.
  unfold unwrapped, py_or. intros [H | [p H]].
  - rewrite H. now exists d.
  - rewrite H. destruct (truthy (JObj p)); eauto.
Qed.

Lemma severity_levels_get_hashable v :
  hashable v = true -> exists n, severity_levels_get v = Return n.
Proof. destruct v; try discriminate; simpl; eauto. Qed.

(** C8, as the code has it: for a request body that is an object whose
    properties member is absent, falsy or an object, and whose severity,
    when the incident has one, is not a list or an object, the
    normalization does not fail: the receiver takes its fields, from the
    properties object when that is not empty and from the body otherwise,
    and store_incident builds its document.  The title is title when
    truthy and incidentName otherwise, the incident id is incidentId when
    truthy and id otherwise, in the answer and in the document; the
    severity of the receiver is Unknown when absent, where the document
    has null, with the level 0; the entities and alerts of the document
    are relatedEntities and relatedAlerts, and empty lists when these are
    absent. *)
Theorem incident_fields_defaults Sv d :
  truthy (get_or "properties" JNull d) = false
  \/ (exists p, get_or "properties" JNull d = JObj p) ->
  hashable (field "severity" (unwrapped d)) = true ->
  exists inc title severity incident_id,
    incident_fields (JObj d) = Return (JObj inc, title, severity, incident_id)
    /\ (truthy (get_or "properties" JNull d) = false -> inc = d)
    /\ (truthy (get_or "properties" JNull d) = true ->
        get_or "properties" JNull d = JObj inc)
    /\ (forall t, lookup "title" inc = Some t -> truthy t = true -> title = t)
    /\ (forall t, lookup "title" inc = Some t -> truthy t = false ->
                  title = get_or "incidentName" JNull inc)
    /\ (lookup "title" inc = None -> title = get_or "incidentName" JNull inc)
    /\ (forall i, lookup "incidentId" inc = Some i -> truthy i = true ->
                  incident_id = i)
    /\ (forall i, lookup "incidentId" inc = Some i -> truthy i = false ->
                  incident_id = get_or "id" JNull inc)
    /\ (lookup "incidentId" inc = None -> incident_id = get_or "id" JNull inc)
    /\ (lookup "severity" inc = None -> severity = JStr "Unknown")
    /\ (forall v, lookup "severity" inc = Some v -> severity = v)
    /\ (forall analysis w,
          exists doc n,
            build_document Sv (JObj inc) analysis w
            = (Return doc, tick (tick (tick (next_uuid w))))
            /\ field "title" doc = title
            /\ field "incident_id" doc = incident_id
            /\ field "severity" doc = get_or "severity" JNull inc
            /\ field "severity_level" doc = JInt n
            /\ (lookup "severity" inc = None -> n = 0)
            /\ field "entities" doc = get_or "relatedEntities" (JArr []) inc
            /\ field "alerts" doc = get_or "relatedAlerts" (JArr []) inc
            /\ (lookup "relatedEntities" inc = None -> field "entities" doc = JArr [])
            /\ (lookup "relatedAlerts" inc = None -> field "alerts" doc = JArr [])).
Proof.
  intros Hprops Hhash. destruct (unwrapped_dict d Hprops) as [inc Hinc].
  rewrite Hinc in Hhash.
  assert (Hlevel : exists n,
             severity_levels_get (get_or "severity" (JStr "Unknown") inc) = Return n
             /\ (lookup "severity" inc = None -> n = 0)).
  { unfold get_or. simpl in Hhash.
    destruct (lookup "severity" inc) as [v|].
    - destruct (severity_levels_get_hashable v Hhash) as (n & Hn).
      exists n. split; [exact Hn | discriminate].
    - exists 0. split; reflexivity. }
  destruct Hlevel as (n & Hlevel & Hzero).
  exists inc. do 3 eexists. split; [exact (incident_fields_dict d inc Hinc)|].
  unfold unwrapped, py_or in Hinc.
  split; [intros H; rewrite H in Hinc; congruence|].
  split; [intros H; now rewrite H in Hinc|].
  unfold py_or.
  split; [intros t Ht Htrue; unfold get_or; now rewrite Ht, Htrue|].
  split; [intros t Ht Hfalse; unfold get_or at 1 2; now rewrite Ht, Hfalse|].
  split; [intros H; unfold get_or at 1 2; now rewrite H|].
  split; [intros i Hi Htrue; unfold get_or; now rewrite Hi, Htrue|].
  split; [intros i Hi Hfalse; unfold get_or at 1 2; now rewrite Hi, Hfalse|].
  split; [intros H; unfold get_or at 1 2; now rewrite H|].
  split; [intros H; unfold get_or; now rewrite H|].
  split; [intros v H; unfold get_or; now rewrite H|].
  intros analysis w. exists (stored_document Sv inc analysis n w), n.
  split; [now rewrite build_document_dict, Hlevel|].
  do 4 (split; [reflexivity|]). split; [exact Hzero|].
  do 2 (split; [reflexivity|]).
  split; intros Hn; simpl; unfold get_or; now rewrite Hn.
Qed.

Lemma incident_fields_defaults_witness :
  (exists p, get_or "properties" JNull
               [("id", JStr "outer");
                ("properties", JObj [("incidentName", JStr "Named")])]
             = JObj p)
  /\ hashable (field "severity"
                 (unwrapped [("id", JStr "outer");
                             ("properties", JObj [("incidentName", JStr "Named")])]))
     = true
  /\ incident_fields Scripted.enveloped
     = Return (JObj [("incidentName", JStr "Named")], JStr "Named",
               JStr "Unknown", JNull).
Proof.
  assert (H : exists p, get_or "properties" JNull
                          [("id", JStr "outer");
                           ("properties", JObj [("incidentName", JStr "Named")])]
                        = JObj p) by (eexists; reflexivity).
  assert (H2 : hashable (field "severity"
                           (unwrapped [("id", JStr "outer");
                                       ("properties",
                                        JObj [("incidentName", JStr "Named")])]))
               = true) by reflexivity.
  split; [exact H|]. split; [exact H2|].
  destruct (incident_fields_defaults Scripted.offline _ (or_intror H) H2)
    as (inc & title & severity & incident_id & Hfields & _).
  unfold Scripted.enveloped. rewrite Hfields.
  vm_compute in Hfields. now injection Hfields as <- <- <- <-.
Defined.

(** C8 fails: a body whose properties member is the number 1 makes the
    receiver fail with an AttributeError, which it answers with status
    400, and no document is stored. *)
Lemma odd_envelope_fails :
  incident_fields Scripted.odd_envelope = Raise (attribute_error (JInt 1) "get")
  /\ status_code (Scripted.response_of
                    (sentinel_receiver Scripted.terse
                       (post_request Scripted.odd_envelope))
                    Scripted.started) = 400
  /\ field "error" (body (Scripted.response_of
                            (sentinel_receiver Scripted.terse
                               (post_request Scripted.odd_envelope))
                            Scripted.started))
     = JStr "'int' object has no attribute 'get'"
  /\ items (Scripted.world_after
              (sentinel_receiver Scripted.terse (post_request Scripted.odd_envelope))
              Scripted.started) = [].
Proof. vm_compute. repeat split. Qed.

(** ** The sample endpoint *)








Lemma clamp_limit_range limit : 1 <= clamp_limit limit <= 100.
Proof. unfold clamp_limit. lia. Qed.

Section Sample.

Context (Sv : Services).

Lemma get_sample_incidents_ready limit w :
  ready w -> cosmos_fault Sv (requests w) = None ->
  get_sample_incidents Sv limit w
  = (cosmos_sql Sv (sample_query limit) (items w),
     sent (QueryItems (sample_query limit)) w).
Proof.
  intros (Hi & Hc & _) Hf. unfold get_sample_incidents. unfold bind at 1.
  rewrite (ensure_initialized_ready Sv w Hi). rewrite Hc. simpl.
  unfold try_except, query_items, request. rewrite Hc, Hf.
  destruct (cosmos_sql Sv _ _); reflexivity.
Qed.

End Sample.


(** *** The scripted engine answers the sample query *)

Lemma until_space_digits d rest :
  Scripted.until_space (NilEmpty.string_of_uint d ++ String " " rest)
  = NilEmpty.string_of_uint d.
Proof.
  induction d; simpl; try reflexivity; now rewrite IHd.
Qed.

Lemma string_of_uint_nonnil d :
  d <> Decimal.Nil -> NilZero.string_of_uint d = NilEmpty.string_of_uint d.
Proof. destruct d; (reflexivity || contradiction). Qed.

Lemma until_space_str_int n rest :
  0 <= n -> Scripted.until_space (str_int n ++ String " " rest) = str_int n.
Proof.
  intros Hn. unfold str_int. destruct n as [|p|p]; [reflexivity| |lia].
  simpl. rewrite (string_of_uint_nonnil _ (Unsigned.to_uint_nonnil p)).
  apply until_space_digits.
Qed.

Lemma to_int_nonnil n : Z.to_int n <> Decimal.Pos Decimal.Nil /\ Z.to_int n <> Decimal.Neg Decimal.Nil.
Proof.
  destruct n as [|p|p]; simpl; split; try discriminate;
    intros [= H]; now apply (Unsigned.to_uint_nonnil p).
Qed.

Lemma int_of_str_int n :
  option_map Z.of_int (NilZero.int_of_string (str_int n)) = Some n.
Proof.
  unfold str_int. destruct (to_int_nonnil n) as [Hp Hn].
  rewrite (NilZero.isi _ Hp Hn). cbn [option_map]. now rewrite DecimalZ.of_to.
Qed.

Lemma top_of_sample_query n : 0 <= n -> Scripted.top_of (sample_query n) = Some n.
Proof.
  intros Hn. unfold Scripted.top_of, sample_query. simpl Scripted.str_drop.
  rewrite until_space_str_int by assumption. apply int_of_str_int.
Qed.

Lemma scripted_engine_answers getenv reply :
  answers_sample_query (Scripted.services getenv reply).
Proof.
  intros n docs Hn _. simpl. unfold Scripted.engine.
  rewrite top_of_sample_query by assumption. now rewrite String.eqb_refl.
Qed.


(** The two stored deliveries come back with the Critical one first. *)
Example sample_of_two_deliveries :
  map (field "severity")
      (select_top (clamp_limit 1000) (items Scripted.after_second))
  = [JStr "Critical"; JStr "High"]
  /\ map (field "severity") (select_top (clamp_limit 0) (items Scripted.after_second))
     = [JStr "Critical"].
Proof. vm_compute. split; reflexivity. Qed.

(** ** The integer levels are an invariant of the container *)

Lemma lookup_assign_other k k' v d :
  k <> k' -> lookup k (assign k' v d) = lookup k d.
Proof.
  intros Hne. induction d as [|[k0 v0] d IH]; simpl.
  - destruct (String.eqb_spec k k'); [contradiction | reflexivity].
  - destruct (String.eqb_spec k' k0) as [->|Hk]; simpl.
    + destruct (String.eqb_spec k k0); [contradiction | reflexivity].
    + now rewrite IH.
Qed.

Lemma int_levels_app docs doc :
  int_levels docs -> (is_incident doc = true -> has_int_level doc = true) ->
  int_levels (docs ++ [doc]).
Proof.
  intros Hdocs Hdoc d Hin. apply in_app_or in Hin.
  destruct Hin as [Hin|[<-|[]]]; [now apply Hdocs | exact Hdoc].
Qed.

Lemma replace_doc_in s new_doc l d :
  In d (replace_doc s new_doc l) -> d = new_doc \/ In d l.
Proof.
  induction l as [|x l IH]; simpl; [contradiction|].
  destruct (has_id s x); simpl; intros [<-|H]; auto.
  destruct (IH H); auto.
Qed.

(** Every document store_incident writes keeps the invariant. *)
Lemma store_incident_keeps_levels Sv incident analysis w r w' :
  int_levels (items w) ->
  store_incident Sv incident analysis w = (Return r, w') ->
  int_levels (items w').
Proof.
  intros Hlevels H.
  destruct (store_incident_returns Sv _ _ _ _ _ H)
    as (d & n & w0 & -> & Hinit & _ & _ & _ & _ & -> & _).
  destruct (ensure_initialized_frame Sv _ _ _ Hinit) as (Hi & _).
  simpl. rewrite Hi. apply int_levels_app; [assumption | reflexivity].
Qed.

(** The three assignments of the update endpoint leave the type and the
    level of a document as they are. *)
Lemma setitem_keeps_level document k v document' :
  k <> "severity_level" -> k <> "document_type" ->
  setitem document k v = Return document' ->
  is_incident document' = is_incident document
  /\ has_int_level document' = has_int_level document.
Proof.
  intros H1 H2. destruct document; try discriminate. simpl. intros [= <-]. simpl.
  rewrite !lookup_assign_other by congruence. split; reflexivity.
Qed.

Lemma find_in (f : json -> bool) l d : find f l = Some d -> In d l.
Proof. intros H. now apply find_some in H. Qed.

(** The try block of the update endpoint keeps the invariant. *)
Lemma update_try_keeps_levels Sv req w o w' :
  int_levels (items w) ->
  http_update_incident_actions_try Sv req w = (o, w') ->
  int_levels (items w').
Proof.
  intros Hlevels. unfold http_update_incident_actions_try.
  unfold bind, lift, ret.
  destruct (get_json req) as [req_body|e]; [|now intros [= _ <-]].
  destruct (py_get req_body "document_id" JNull) as [document_id|e];
    [|now intros [= _ <-]].
  destruct (py_get req_body "action_status" JNull) as [action_status|e];
    [|now intros [= _ <-]].
  destruct (py_get req_body "notes" (JStr "")) as [notes|e]; [|now intros [= _ <-]].
  destruct (negb (truthy document_id) || negb (truthy action_status));
    [now intros [= _ <-]|].
  destruct (_ensure_initialized Sv w) as [[[]|e] w0] eqn:Hinit;
    destruct (ensure_initialized_frame Sv _ _ _ Hinit) as (Hi & _);
    [|intros [= _ <-]; now rewrite Hi].
  rewrite <- Hi in Hlevels. clear Hi Hinit.
  unfold read_item, request.
  destruct (container w0) eqn:Hc; [|now intros [= _ <-]].
  destruct (cosmos_fault Sv (requests w0)); [now intros [= _ <-]|].
  destruct document_id as [| | | |s| |]; try (now intros [= _ <-]).
  simpl items. destruct (find (has_id s) (items w0)) as [doc|] eqn:Hfind;
    [|now intros [= _ <-]].
  destruct (setitem doc "action_plan_status" action_status) as [doc1|e] eqn:E1;
    [|now intros [= _ <-]].
  destruct (setitem doc1 "action_plan_notes" notes) as [doc2|e] eqn:E2;
    [|now intros [= _ <-]].
  unfold utcnow.
  destruct (setitem doc2 "action_plan_updated" _) as [doc3|e] eqn:E3;
    [|now intros [= _ <-]].
  unfold replace_item, request. simpl container. rewrite Hc.
  destruct (cosmos_fault Sv _); [now intros [= _ <-]|].
  simpl items. destruct (existsb (has_id s) (items w0)); [|now intros [= _ <-]].
  intros [= _ <-]. simpl. intros d Hd Hinc.
  destruct (replace_doc_in _ _ _ _ Hd) as [->|Hin].
  - apply setitem_keeps_level in E1, E2, E3; try discriminate.
    destruct E1 as [A1 B1], E2 as [A2 B2], E3 as [A3 B3].
    rewrite B3, B2, B1. rewrite A3, A2, A1 in Hinc.
    apply Hlevels; [|exact Hinc]. now apply (find_in (has_id s)).
  - now apply Hlevels.
Qed.

(** The update endpoint keeps the invariant, whatever it answers. *)
Lemma update_keeps_levels Sv req w o w' :
  int_levels (items w) ->
  http_update_incident_actions Sv req w = (o, w') ->
  int_levels (items w').
Proof.
  intros Hlevels. unfold http_update_incident_actions, try_except, failure.
  destruct (http_update_incident_actions_try Sv req w) as [[response|e] w1] eqn:E;
    pose proof (update_try_keeps_levels Sv req w _ _ Hlevels E) as H1.
  - now intros [= _ <-].
  - unfold bind, utcnow, ret. now intros [= _ <-].
Qed.

(** * Further properties of the code *)

(** ** Initialisation *)

Lemma env_missing_dec Sv name :
  env_missing Sv name \/ exists v, env_value Sv name v.
Proof.
  unfold env_missing, env_value. destruct (getenv Sv name) as [v|]; [|now left].
  destruct (string_dec v ""); [now left | right; eauto].
Qed.

(** The first call of _ensure_initialized, case by case. *)
Lemma ensure_initialized_both Sv w c o :
  configured_with Sv c o -> initialized w = false ->
  _ensure_initialized Sv w
  = (Return tt, set_initialized (set_openai_client (set_container w))).
Proof.
  intros (Hc & Hcn & Ho & Hon) Hi.
  unfold _ensure_initialized. rewrite Hi. unfold bind at 1.
  rewrite (setup_cosmos_ok Sv c w Hc Hcn). unfold bind at 1.
  now rewrite (setup_openai_ok Sv o _ Ho Hon).
Qed.

Lemma ensure_initialized_no_cosmos Sv w :
  env_missing Sv COSMOS_ENDPOINT_ENV -> initialized w = false ->
  _ensure_initialized Sv w = (Raise (missing_variable COSMOS_ENDPOINT_ENV), w).
Proof.
  intros Hm Hi. unfold _ensure_initialized. rewrite Hi. unfold bind at 1.
  now rewrite (setup_cosmos_missing Sv w Hm).
Qed.

Lemma ensure_initialized_cosmos_fails Sv w c e :
  env_value Sv COSMOS_ENDPOINT_ENV c -> cosmos_connection Sv c = Some e ->
  initialized w = false ->
  _ensure_initialized Sv w = (Raise e, w).
Proof.
  intros Hc Hcn Hi. unfold _ensure_initialized. rewrite Hi. unfold bind at 1.
  now rewrite (setup_cosmos_fails Sv c e w Hc Hcn).
Qed.

Lemma ensure_initialized_no_openai Sv w c :
  env_value Sv COSMOS_ENDPOINT_ENV c -> cosmos_connection Sv c = None ->
  env_missing Sv AZURE_OPENAI_ENDPOINT_ENV ->
  initialized w = false ->
  _ensure_initialized Sv w
  = (Raise (missing_variable AZURE_OPENAI_ENDPOINT_ENV), set_container w).
Proof.
  intros Hc Hcn Hm Hi. unfold _ensure_initialized. rewrite Hi. unfold bind at 1.
  rewrite (setup_cosmos_ok Sv c w Hc Hcn). unfold bind at 1.
  now rewrite (setup_openai_missing Sv _ Hm).
Qed.

Lemma ensure_initialized_openai_fails Sv w c o e :
  env_value Sv COSMOS_ENDPOINT_ENV c -> cosmos_connection Sv c = None ->
  env_value Sv AZURE_OPENAI_ENDPOINT_ENV o -> openai_connection Sv o = Some e ->
  initialized w = false ->
  _ensure_initialized Sv w = (Raise e, set_container w).
Proof.
  intros Hc Hcn Ho Hon Hi. unfold _ensure_initialized. rewrite Hi. unfold bind at 1.
  rewrite (setup_cosmos_ok Sv c w Hc Hcn). unfold bind at 1.
  now rewrite (setup_openai_fails Sv o e _ Ho Hon).
Qed.

(** X1: a processor that is not yet initialised becomes ready exactly when
    both endpoints are set in the environment and both clients can be
    constructed for them.  Without the Cosmos DB endpoint the call raises
    the ValueError that names COSMOS_ENDPOINT, and when the construction of
    the Cosmos DB clients fails it raises that exception; both change
    nothing.  With the container client, but without the OpenAI endpoint
    or with a failing construction of the OpenAI client, it raises the
    ValueError that names AZURE_OPENAI_ENDPOINT, or that exception, keeps
    the container client and stays uninitialised, so that the next call
    starts over. *)
Theorem initialisation_outcomes Sv w :
  initialized w = false ->
  (forall c o, configured_with Sv c o ->
     _ensure_initialized Sv w
     = (Return tt, set_initialized (set_openai_client (set_container w)))
     /\ ready (set_initialized (set_openai_client (set_container w))))
  /\ (env_missing Sv COSMOS_ENDPOINT_ENV ->
      _ensure_initialized Sv w = (Raise (missing_variable COSMOS_ENDPOINT_ENV), w))
  /\ (forall c e,
        env_value Sv COSMOS_ENDPOINT_ENV c -> cosmos_connection Sv c = Some e ->
        _ensure_initialized Sv w = (Raise e, w))
  /\ (forall c,
        env_value Sv COSMOS_ENDPOINT_ENV c -> cosmos_connection Sv c = None ->
        env_missing Sv AZURE_OPENAI_ENDPOINT_ENV ->
        _ensure_initialized Sv w
        = (Raise (missing_variable AZURE_OPENAI_ENDPOINT_ENV), set_container w)
        /\ initialized (set_container w) = false)
  /\ (forall c o e,
        env_value Sv COSMOS_ENDPOINT_ENV c -> cosmos_connection Sv c = None ->
        env_value Sv AZURE_OPENAI_ENDPOINT_ENV o -> openai_connection Sv o = Some e ->
        _ensure_initialized Sv w = (Raise e, set_container w)
        /\ initialized (set_container w) = false)
  /\ (forall w', _ensure_initialized Sv w = (Return tt, w') -> configured Sv).
Proof.
  intros Hi. split; [|split; [|split; [|split; [|split]]]].
  - intros c o Hconf. split; [now apply (ensure_initialized_both Sv w c o) | repeat split].
  - intros Hm. now apply ensure_initialized_no_cosmos.
  - intros c e Hc Hcn. now apply (ensure_initialized_cosmos_fails Sv w c e).
  - intros c Hc Hcn Hm. split; [now apply (ensure_initialized_no_openai Sv w c) | exact Hi].
  - intros c o e Hc Hcn Ho Hon.
    split; [now apply (ensure_initialized_openai_fails Sv w c o e) | exact Hi].
  - intros w' H.
    destruct (ensure_initialized_outcomes Sv _ _ _ Hi H)
      as [(_ & _ & Hconf) | (e & [=] & _)]. exact Hconf.
Qed.

Lemma initialisation_outcomes_witness :
  initialized Scripted.fresh = false
  /\ configured_with Scripted.offline "https://incidents.documents.azure.com"
                     "https://incidents.openai.azure.com"
  /\ _ensure_initialized Scripted.offline Scripted.fresh
     = (Return tt, set_initialized (set_openai_client (set_container Scripted.fresh)))
  /\ env_value Scripted.unreachable COSMOS_ENDPOINT_ENV "localhost"
  /\ cosmos_connection Scripted.unreachable "localhost" = Some Scripted.invalid_url
  /\ _ensure_initialized Scripted.unreachable Scripted.fresh
     = (Raise Scripted.invalid_url, Scripted.fresh).
Proof.
  assert (H1 : initialized Scripted.fresh = false) by reflexivity.
  assert (H2 : configured_with Scripted.offline "https://incidents.documents.azure.com"
                               "https://incidents.openai.azure.com").
  { repeat split; discriminate. }
  assert (H3 : env_value Scripted.unreachable COSMOS_ENDPOINT_ENV "localhost")
    by (split; [reflexivity | discriminate]).
  assert (H4 : cosmos_connection Scripted.unreachable "localhost"
               = Some Scripted.invalid_url) by reflexivity.
  split; [exact H1|]. split; [exact H2|].
  split; [exact (proj1 (proj1 (initialisation_outcomes Scripted.offline Scripted.fresh H1)
                          _ _ H2))|].
  split; [exact H3|]. split; [exact H4|].
  exact (proj1 (proj2 (proj2 (initialisation_outcomes Scripted.unreachable
                                Scripted.fresh H1)))
               _ _ H3 H4).
Defined.

(** ** store_incident writes one document or none *)

Lemma has_id_iff id d : has_id id d = true <-> doc_id d = Some id.
Proof.
  unfold has_id. destruct (doc_id d) as [s|]; [|split; discriminate].
  split.
  - intros H. apply String.eqb_eq in H. now subst.
  - intros [= ->]. apply String.eqb_refl.
Qed.

Lemma existsb_find_none (f : json -> bool) l : existsb f l = false -> find f l = None.
Proof.
  induction l as [|x l IH]; simpl; [reflexivity|].
  destruct (f x); simpl; [discriminate | exact IH].
Qed.

Lemma existsb_filter_nil (f : json -> bool) l : existsb f l = false -> filter f l = [].
Proof.
  induction l as [|x l IH]; simpl; [reflexivity|].
  destruct (f x); simpl; [discriminate | exact IH].
Qed.

Lemma find_app_new (f : json -> bool) l d :
  find f l = None -> f d = true -> find f (l ++ [d]) = Some d.
Proof.
  induction l as [|x l IH]; simpl; intros Hn Hd; [now rewrite Hd|].
  destruct (f x); [discriminate | now apply IH].
Qed.

(** A raising store_incident leaves the documents as they are. *)
Lemma store_incident_raises Sv incident analysis w e w' :
  store_incident Sv incident analysis w = (Raise e, w') -> items w' = items w.
Proof.
  unfold store_incident. unfold bind at 1.
  destruct (_ensure_initialized Sv w) as [[[]|e0] w0] eqn:Hinit;
    destruct (ensure_initialized_frame Sv _ _ _ Hinit) as (Hi & _);
    [|now intros [= _ <-]].
  destruct (container w0) eqn:Hcont; simpl; [|now intros [= _ <-]].
  unfold try_except, bind at 1.
  destruct incident as [| | | | | |d];
    try (rewrite build_document_not_dict by (intros ? [=]); now intros [= _ <-]).
  rewrite build_document_dict.
  destruct (severity_levels_get _) as [n|e1]; [|now intros [= _ <-]].
  unfold bind, create_item, request. simpl. rewrite Hcont.
  destruct (cosmos_fault Sv _); [now intros [= _ <-]|].
  simpl. destruct (existsb _ _); [now intros [= _ <-] | discriminate].
Qed.

(** X2: store_incident writes all or nothing: when it returns, the
    container holds exactly one more document, at the end; when it raises,
    for whatever reason, the documents are those of before. *)
Theorem store_incident_all_or_nothing Sv incident analysis w o w' :
  store_incident Sv incident analysis w = (o, w') ->
  (exists r doc, o = Return r /\ items w' = (items w ++ [doc])%list)
  \/ (exists e, o = Raise e /\ items w' = items w).
Proof.
  intros H. destruct o as [r|e].
  - left. destruct (store_incident_returns Sv _ _ _ _ _ H)
      as (d & n & w0 & -> & Hinit & _ & _ & _ & _ & -> & _).
    destruct (ensure_initialized_frame Sv _ _ _ Hinit) as (Hi & _).
    do 2 eexists. split; [reflexivity|]. simpl. now rewrite Hi.
  - right. exists e. split; [reflexivity|]. now apply store_incident_raises in H.
Qed.

Lemma store_incident_all_or_nothing_witness :
  (exists r doc,
     fst (store_incident Scripted.offline Scripted.first_delivery JNull Scripted.started)
     = Return r
     /\ items Scripted.after_first = (items Scripted.started ++ [doc])%list)
  \/ (exists e,
        fst (store_incident Scripted.offline Scripted.first_delivery JNull
               Scripted.started) = Raise e
        /\ items Scripted.after_first = items Scripted.started).
Proof.
  apply (store_incident_all_or_nothing Scripted.offline Scripted.first_delivery JNull
           Scripted.started).
  unfold Scripted.after_first, Scripted.world_after.
  now destruct (store_incident _ _ _ _).
Defined.

(** X3: reading back what was stored: after a returning store_incident, a
    read of the returned document_id that reaches the store gives the
    document just written, which holds the incident as raw_data. *)
Theorem store_then_read Sv incident analysis w r w' :
  store_incident Sv incident analysis w = (Return r, w') ->
  cosmos_fault Sv (requests w') = None ->
  exists doc,
    read_item Sv (field "document_id" r) w'
    = (Return doc, sent (ReadItem (field "document_id" r)) w')
    /\ In doc (items w')
    /\ field "raw_data" doc = incident
    /\ field "id" doc = field "document_id" r.
Proof.
  intros H Hfault.
  destruct (store_incident_returns Sv _ _ _ _ _ H)
    as (d & n & w0 & -> & Hinit & Hcont & _ & _ & Hfresh & -> & ->).
  destruct (ensure_initialized_frame Sv _ _ _ Hinit) as (Hi & _ & Hu & _ & _).
  exists (stored_document Sv d analysis n w0).
  split; [|split; [|split]].
  - unfold read_item, request. simpl container. rewrite Hcont, Hfault.
    simpl field. simpl items. cbv beta iota.
    rewrite (find_app_new (has_id (uuid4 Sv (uuids w)))); [reflexivity| |].
    + rewrite Hi. now apply existsb_find_none.
    + apply has_id_iff. simpl. now rewrite Hu.
  - simpl. apply in_or_app. right. now left.
  - reflexivity.
  - simpl. now rewrite Hu.
Qed.

Lemma store_then_read_witness :
  store_incident Scripted.offline Scripted.first_delivery JNull Scripted.started
  = (Return (Scripted.result_of
               (store_incident Scripted.offline Scripted.first_delivery JNull)
               Scripted.started),
     Scripted.after_first)
  /\ cosmos_fault Scripted.offline (requests Scripted.after_first) = None
  /\ exists doc,
       read_item Scripted.offline (JStr (uuid4 Scripted.offline 0)) Scripted.after_first
       = (Return doc,
          sent (ReadItem (JStr (uuid4 Scripted.offline 0))) Scripted.after_first)
       /\ In doc (items Scripted.after_first)
       /\ field "raw_data" doc = Scripted.first_delivery
       /\ field "id" doc = JStr (uuid4 Scripted.offline 0).
Proof.
  assert (H1 : store_incident Scripted.offline Scripted.first_delivery JNull
                 Scripted.started
               = (Return (Scripted.result_of
                            (store_incident Scripted.offline Scripted.first_delivery JNull)
                            Scripted.started),
                  Scripted.after_first)) by (vm_compute; reflexivity).
  assert (H2 : cosmos_fault Scripted.offline (requests Scripted.after_first) = None)
    by reflexivity.
  split; [exact H1|]. split; [exact H2|].
  exact (store_then_read Scripted.offline Scripted.first_delivery JNull
           Scripted.started _ _ H1 H2).
Defined.

(** ** The update endpoint, when the document exists *)

Lemma lookup_assign_same k v d : lookup k (assign k v d) = Some v.
Proof.
  induction d as [|[k0 v0] d IH]; simpl.
  - now rewrite String.eqb_refl.
  - destruct (String.eqb_spec k k0) as [->|Hk]; simpl.
    + now rewrite String.eqb_refl.
    + destruct (String.eqb_spec k k0); [contradiction | exact IH].
Qed.

Lemma replace_doc_length id new_doc l :
  List.length (replace_doc id new_doc l) = List.length l.
Proof.
  induction l as [|x l IH]; simpl; [reflexivity|].
  destruct (has_id id x); simpl; [reflexivity | now rewrite IH].
Qed.

Lemma find_replace_doc id new_doc l old :
  find (has_id id) l = Some old -> has_id id new_doc = true ->
  find (has_id id) (replace_doc id new_doc l) = Some new_doc.
Proof.
  induction l as [|x l IH]; simpl; [discriminate|].
  destruct (has_id id x) eqn:Hx; simpl; intros Hf Hn.
  - now rewrite Hn.
  - rewrite Hx. now apply IH.
Qed.

Lemma find_existsb (f : json -> bool) l d : find f l = Some d -> existsb f l = true.
Proof.
  induction l as [|x l IH]; simpl; [discriminate|].
  destruct (f x); [reflexivity | exact IH].
Qed.

Lemma has_id_object id d : has_id id d = true -> exists f, d = JObj f.
Proof. unfold has_id, doc_id. destruct d; try discriminate. eauto. Qed.

(** The three assignments on a stored document. *)
Lemma updated_document_object f action_status notes updated :
  updated_document (JObj f) action_status notes updated
  = Return (JObj (assign "action_plan_updated" (JStr updated)
                    (assign "action_plan_notes" notes
                       (assign "action_plan_status" action_status f)))).
Proof. reflexivity. Qed.

Section UpdateSuccess.

Context (Sv : Services).

(** The update endpoint on a ready processor, for a request with its two
    fields and a document that exists, when both requests get through. *)
Lemma update_existing req w d id f :
  get_json req = Return (JObj d) ->
  get_or "document_id" JNull d = JStr id ->
  truthy (JStr id) = true ->
  truthy (get_or "action_status" JNull d) = true ->
  ready w ->
  cosmos_fault Sv (requests w) = None ->
  cosmos_fault Sv (S (requests w)) = None ->
  find (has_id id) (items w) = Some (JObj f) ->
  let doc' := JObj (assign "action_plan_updated" (JStr (utcnow_isoformat Sv (clock w)))
                      (assign "action_plan_notes" (get_or "notes" (JStr "") d)
                         (assign "action_plan_status"
                                 (get_or "action_status" JNull d) f))) in
  http_update_incident_actions Sv req w
  = (Return (mkResponse
               (JObj [("success", JBool true);
                      ("document_id", JStr id);
                      ("action_status", get_or "action_status" JNull d);
                      ("timestamp", JStr (utcnow_isoformat Sv (S (clock w))))])
               200 json_headers),
     tick (set_items (replace_doc id doc' (items w))
             (sent (ReplaceItem (JStr id) doc')
                (tick (sent (ReadItem (JStr id)) w))))).
Proof.
  intros Hbody Hid Htid Hstatus (Hi & Hc & _) Hf1 Hf2 Hfind doc'.
  unfold http_update_incident_actions, http_update_incident_actions_try.
  unfold try_except, bind at 1, lift. rewrite Hbody.
  unfold bind, lift, get_or in *. simpl py_get. cbv beta iota.
  rewrite Hid. rewrite Htid, Hstatus. cbn [negb orb]. cbv beta iota.
  rewrite (ensure_initialized_ready Sv w Hi).
  unfold read_item, request. rewrite Hc, Hf1. simpl items. rewrite Hfind.
  simpl setitem. unfold utcnow. cbv beta iota.
  unfold replace_item, request. simpl container. rewrite Hc.
  simpl requests. rewrite Hf2. simpl items.
  rewrite (find_existsb _ _ _ Hfind). reflexivity.
Qed.

End UpdateSuccess.

(** X4: the update is a read-modify-write of one document: when the
    document exists and both requests reach the store, the endpoint
    answers 200 and replaces the document by a copy in which
    action_plan_status, action_plan_notes (empty when the request has no
    notes) and action_plan_updated are set and every other field is as it
    was; the number of documents is unchanged and a later lookup of the id
    finds the new copy. *)
Theorem update_sets_three_fields Sv req w d id doc :
  get_json req = Return (JObj d) ->
  get_or "document_id" JNull d = JStr id ->
  id <> "" ->
  truthy (get_or "action_status" JNull d) = true ->
  ready w ->
  cosmos_fault Sv (requests w) = None ->
  cosmos_fault Sv (S (requests w)) = None ->
  find (has_id id) (items w) = Some doc ->
  exists response doc' w',
    http_update_incident_actions Sv req w = (Return response, w')
    /\ status_code response = 200
    /\ field "success" (body response) = JBool true
    /\ items w' = replace_doc id doc' (items w)
    /\ List.length (items w') = List.length (items w)
    /\ find (has_id id) (items w') = Some doc'
    /\ field "action_plan_status" doc' = get_or "action_status" JNull d
    /\ field "action_plan_notes" doc' = get_or "notes" (JStr "") d
    /\ field "action_plan_updated" doc' = JStr (utcnow_isoformat Sv (clock w))
    /\ (forall k, k <> "action_plan_status" -> k <> "action_plan_notes" ->
                  k <> "action_plan_updated" -> field k doc' = field k doc)
    /\ trace w' = ReplaceItem (JStr id) doc' :: ReadItem (JStr id) :: trace w.
Proof.
  intros Hbody Hid Hne Hstatus Hready Hf1 Hf2 Hfind.
  assert (Hdoc : exists f, doc = JObj f).
  { apply (has_id_object id). now apply find_some in Hfind. }
  destruct Hdoc as [f ->].
  assert (Htid : truthy (JStr id) = true).
  { simpl. destruct (String.eqb_spec id ""); [contradiction | reflexivity]. }
  pose proof (update_existing Sv req w d id f Hbody Hid Htid Hstatus Hready Hf1 Hf2 Hfind)
    as Hrun. cbv zeta in Hrun.
  do 3 eexists. split; [exact Hrun|].
  split; [reflexivity|]. split; [reflexivity|]. split; [reflexivity|].
  split; [simpl; apply replace_doc_length|].
  split.
  { simpl items. apply (find_replace_doc id _ _ _ Hfind).
    apply find_some in Hfind. destruct Hfind as [_ Hhas].
    unfold has_id, doc_id in *. now rewrite !lookup_assign_other by discriminate. }
  split.
  { simpl. rewrite lookup_assign_other by discriminate.
    rewrite lookup_assign_other by discriminate. now rewrite lookup_assign_same. }
  split.
  { simpl. rewrite lookup_assign_other by discriminate. now rewrite lookup_assign_same. }
  split; [simpl; now rewrite lookup_assign_same|].
  split; [|reflexivity].
  intros k K1 K2 K3. simpl. now rewrite !lookup_assign_other by assumption.
Qed.

Lemma update_sets_three_fields_witness :
  get_json Scripted.update_first = Return (JObj Scripted.update_first_fields)
  /\ get_or "document_id" JNull Scripted.update_first_fields = JStr Scripted.first_id
  /\ Scripted.first_id <> ""
  /\ truthy (get_or "action_status" JNull Scripted.update_first_fields) = true
  /\ ready Scripted.after_first
  /\ cosmos_fault Scripted.offline (requests Scripted.after_first) = None
  /\ cosmos_fault Scripted.offline (S (requests Scripted.after_first)) = None
  /\ find (has_id Scripted.first_id) (items Scripted.after_first)
     = Some Scripted.first_document
  /\ exists response doc' w',
       http_update_incident_actions Scripted.offline Scripted.update_first
         Scripted.after_first = (Return response, w')
       /\ status_code response = 200
       /\ field "success" (body response) = JBool true
       /\ items w' = replace_doc Scripted.first_id doc' (items Scripted.after_first)
       /\ List.length (items w') = List.length (items Scripted.after_first)
       /\ find (has_id Scripted.first_id) (items w') = Some doc'
       /\ field "action_plan_status" doc'
          = get_or "action_status" JNull Scripted.update_first_fields
       /\ field "action_plan_notes" doc'
          = get_or "notes" (JStr "") Scripted.update_first_fields
       /\ field "action_plan_updated" doc'
          = JStr (utcnow_isoformat Scripted.offline (clock Scripted.after_first))
       /\ (forall k, k <> "action_plan_status" -> k <> "action_plan_notes" ->
                     k <> "action_plan_updated" ->
                     field k doc' = field k Scripted.first_document)
       /\ trace w' = ReplaceItem (JStr Scripted.first_id) doc'
                     :: ReadItem (JStr Scripted.first_id)
                     :: trace Scripted.after_first.
Proof.
  assert (H1 : get_json Scripted.update_first
               = Return (JObj Scripted.update_first_fields)) by reflexivity.
  assert (H2 : get_or "document_id" JNull Scripted.update_first_fields
               = JStr Scripted.first_id) by reflexivity.
  assert (H3 : Scripted.first_id <> "") by discriminate.
  assert (H4 : truthy (get_or "action_status" JNull Scripted.update_first_fields)
               = true) by reflexivity.
  assert (H5 : ready Scripted.after_first) by (vm_compute; repeat split).
  assert (H6 : cosmos_fault Scripted.offline (requests Scripted.after_first) = None)
    by reflexivity.
  assert (H7 : cosmos_fault Scripted.offline (S (requests Scripted.after_first)) = None)
    by reflexivity.
  assert (H8 : find (has_id Scripted.first_id) (items Scripted.after_first)
               = Some Scripted.first_document) by (vm_compute; reflexivity).
  repeat (split; [assumption|]).
  exact (update_sets_three_fields Scripted.offline Scripted.update_first
           Scripted.after_first _ _ _ H1 H2 H3 H4 H5 H6 H7 H8).
Defined.

(** ** The update endpoint keeps the ids *)

(** What the try block of the update endpoint does to the documents: it
    leaves them, or replaces one by an object with the same fields but the
    three it assigns. *)
Lemma update_try_items Sv req w o w' :
  http_update_incident_actions_try Sv req w = (o, w') ->
  items w' = items w
  \/ exists id f f',
       find (has_id id) (items w) = Some (JObj f)
       /\ (forall k, k <> "action_plan_status" -> k <> "action_plan_notes" ->
                     k <> "action_plan_updated" -> lookup k f' = lookup k f)
       /\ items w' = replace_doc id (JObj f') (items w).
Proof.
  unfold http_update_incident_actions_try. unfold bind, lift, ret.
  destruct (get_json req) as [req_body|e]; [|intros [= _ <-]; now left].
  destruct (py_get req_body "document_id" JNull) as [document_id|e];
    [|intros [= _ <-]; now left].
  destruct (py_get req_body "action_status" JNull) as [action_status|e];
    [|intros [= _ <-]; now left].
  destruct (py_get req_body "notes" (JStr "")) as [notes|e];
    [|intros [= _ <-]; now left].
  destruct (negb (truthy document_id) || negb (truthy action_status));
    [intros [= _ <-]; now left|].
  destruct (_ensure_initialized Sv w) as [[[]|e] w0] eqn:Hinit;
    destruct (ensure_initialized_frame Sv _ _ _ Hinit) as (Hi & _);
    [|intros [= _ <-]; now left].
  rewrite <- Hi. clear Hi Hinit.
  unfold read_item, request.
  destruct (container w0) eqn:Hc; [|intros [= _ <-]; now left].
  destruct (cosmos_fault Sv (requests w0)); [intros [= _ <-]; now left|].
  destruct document_id as [| | | |id| |]; try (intros [= _ <-]; now left).
  simpl items. destruct (find (has_id id) (items w0)) as [doc|] eqn:Hfind;
    [|intros [= _ <-]; now left].
  destruct (has_id_object id doc) as [f ->];
    [apply find_some in Hfind; tauto|].
  simpl setitem. unfold utcnow. cbv beta iota.
  unfold replace_item, request. simpl container. rewrite Hc.
  destruct (cosmos_fault Sv _); [intros [= _ <-]; now left|].
  simpl items. destruct (existsb (has_id id) (items w0));
    [|intros [= _ <-]; now left].
  intros [= _ <-]. right. exists id, f. eexists.
  split; [exact Hfind|]. split; [|reflexivity].
  intros k K1 K2 K3. now rewrite !lookup_assign_other by assumption.
Qed.

Lemma map_doc_id_replace id new_doc old l :
  find (has_id id) l = Some old -> doc_id new_doc = doc_id old ->
  map doc_id (replace_doc id new_doc l) = map doc_id l.
Proof.
  induction l as [|x l IH]; simpl; [discriminate|].
  destruct (has_id id x) eqn:Hx; intros Hf Hsame.
  - injection Hf as ->. simpl. now rewrite Hsame.
  - simpl. now rewrite IH.
Qed.

Lemma count_by_ids id l :
  List.length (filter (has_id id) l)
  = List.length (filter (fun o => match o with
                                  | Some s => String.eqb id s
                                  | None => false
                                  end) (map doc_id l)).
Proof.
  induction l as [|x l IH]; simpl; [reflexivity|].
  unfold has_id at 1. destruct (doc_id x) as [s|]; [|exact IH].
  destruct (String.eqb id s); simpl; now rewrite IH.
Qed.

Lemma unique_ids_by_ids l l' :
  map doc_id l' = map doc_id l -> unique_ids l -> unique_ids l'.
Proof. intros H Hu id. rewrite count_by_ids, H, <- count_by_ids. apply Hu. Qed.

(** X5: the update endpoint never changes the id of a stored document:
    after every request, whatever it answers, the stored documents carry
    the same ids in the same order, because the document it writes back
    is the one it read with three other fields assigned; so ids that were
    unique stay unique. *)
Theorem update_keeps_ids Sv req w o w' :
  http_update_incident_actions Sv req w = (o, w') ->
  map doc_id (items w') = map doc_id (items w)
  /\ (unique_ids (items w) -> unique_ids (items w')).
Proof.
  intros H.
  assert (Hids : map doc_id (items w') = map doc_id (items w)).
  { revert H. unfold http_update_incident_actions, try_except, failure.
    destruct (http_update_incident_actions_try Sv req w) as [[response|e] w1] eqn:E.
    - intros [= _ <-].
      destruct (update_try_items Sv req w _ _ E)
        as [-> | (id & f & f' & Hfind & Hsame & ->)]; [reflexivity|].
      apply (map_doc_id_replace id _ _ _ Hfind).
      unfold doc_id. now rewrite Hsame by discriminate.
    - unfold bind, utcnow, ret. intros [= _ <-]. simpl items.
      destruct (update_try_items Sv req w _ _ E)
        as [-> | (id & f & f' & Hfind & Hsame & ->)]; [reflexivity|].
      apply (map_doc_id_replace id _ _ _ Hfind).
      unfold doc_id. now rewrite Hsame by discriminate. }
  split; [exact Hids | now apply unique_ids_by_ids].
Qed.

Lemma update_keeps_ids_witness :
  map doc_id (items Scripted.after_second)
  = [Some Scripted.first_id; Some "00000000-0000-4000-8000-1"]
  /\ map doc_id
       (items (Scripted.world_after
                 (http_update_incident_actions Scripted.offline Scripted.update_first)
                 Scripted.after_second))
     = [Some Scripted.first_id; Some "00000000-0000-4000-8000-1"]
  /\ map (field "action_plan_status")
         (items (Scripted.world_after
                   (http_update_incident_actions Scripted.offline Scripted.update_first)
                   Scripted.after_second))
     = [JStr "In Progress"; JStr "Pending"].
Proof.
  assert (H : map doc_id (items Scripted.after_second)
              = [Some Scripted.first_id; Some "00000000-0000-4000-8000-1"])
    by reflexivity.
  split; [exact H|]. split; [|reflexivity].
  rewrite <- H.
  apply (update_keeps_ids Scripted.offline Scripted.update_first Scripted.after_second
           (fst (http_update_incident_actions Scripted.offline Scripted.update_first
                   Scripted.after_second))).
  unfold Scripted.world_after.
  now destruct (http_update_incident_actions _ _ _).
Defined.

(** ** The text of the translator *)

Lemma prefix_empty s : String.prefix "" s = true.
Proof. now destruct s. Qed.

Lemma prefix_cons a p b s :
  String.prefix (String a p) (String b s) = Ascii.eqb a b && String.prefix p s.
Proof.
  simpl. destruct (ascii_dec a b) as [->|Hne].
  - now rewrite Ascii.eqb_refl.
  - destruct (Ascii.eqb_spec a b); [contradiction | reflexivity].
Qed.

Lemma re_sub_fence_scan pat c rest :
  re_sub_fence pat 0 false (String c rest)
  = if String.prefix pat (String c rest)
    then re_sub_fence pat (Nat.pred (String.length pat))
                      (Nat.eqb (Nat.pred (String.length pat)) 0) rest
    else String c (re_sub_fence pat 0 false rest).
Proof. reflexivity. Qed.

Lemma re_sub_fence_step pat after c rest :
  re_sub_fence pat 0 after (String c rest)
  = if after && Ascii.eqb c LF then re_sub_fence pat 0 false rest
    else re_sub_fence pat 0 false (String c rest).
Proof. simpl. now destruct (after && Ascii.eqb c LF). Qed.

(** What is left of a text starts with a backquote only where the text did. *)
Lemma scan_head1 s :
  String.prefix "`" (re_sub_fence "```" 0 false s) = true -> String.prefix "`" s = true.
Proof.
  destruct s as [|c rest]; [discriminate|].
  rewrite re_sub_fence_scan.
  destruct (String.prefix "```" (String c rest)) eqn:Hp.
  - intros _. rewrite prefix_cons in Hp. apply andb_true_iff in Hp.
    rewrite prefix_cons, prefix_empty. now rewrite (proj1 Hp).
  - rewrite !prefix_cons, !prefix_empty. auto.
Qed.

Lemma scan_head2 s :
  String.prefix "``" (re_sub_fence "```" 0 false s) = true -> String.prefix "``" s = true.
Proof.
  destruct s as [|c rest]; [discriminate|].
  rewrite re_sub_fence_scan.
  destruct (String.prefix "```" (String c rest)) eqn:Hp.
  - intros _. rewrite prefix_cons in Hp. apply andb_true_iff in Hp. destruct Hp as [Hc Hp].
    rewrite prefix_cons, Hc. simpl andb.
    destruct rest as [|c2 rest2]; [discriminate|].
    rewrite prefix_cons in Hp. apply andb_true_iff in Hp.
    rewrite prefix_cons, prefix_empty. now rewrite (proj1 Hp).
  - rewrite !prefix_cons. intros H. apply andb_true_iff in H. destruct H as [Hc H].
    rewrite Hc. simpl. now apply scan_head1.
Qed.

Lemma fence_removed s : forall skip after,
  contains "```" (re_sub_fence "```" skip after s) = false.
Proof.
  induction s as [|c rest IH]; intros skip after; [now destruct skip|].
  destruct skip as [|k]; [|apply IH].
  rewrite re_sub_fence_step. destruct (after && Ascii.eqb c LF); [apply IH|].
  rewrite re_sub_fence_scan.
  destruct (String.prefix "```" (String c rest)) eqn:Hp; [apply IH|].
  rewrite contains_cons, IH, orb_false_r.
  destruct (String.prefix "```" (String c (re_sub_fence "```" 0 false rest))) eqn:Ho;
    [|reflexivity].
  rewrite prefix_cons in Ho, Hp.
  apply andb_true_iff in Ho. destruct Ho as [Hc Ho].
  rewrite Hc, (scan_head2 rest Ho) in Hp. discriminate.
Qed.

Lemma no_match_unchanged pat s :
  contains pat s = false -> re_sub_fence pat 0 false s = s.
Proof.
  induction s as [|c rest IH]; [reflexivity|].
  rewrite contains_cons. intros H. apply orb_false_iff in H. destruct H as [Hp Hc].
  rewrite re_sub_fence_scan, Hp. now rewrite IH.
Qed.

Lemma prefix_shorter p q s :
  String.prefix (p ++ q) s = true -> String.prefix p s = true.
Proof.
  revert s. induction p as [|a p IH]; intros s; [intros _; apply prefix_empty|].
  destruct s as [|b s]; [discriminate|].
  change (String a p ++ q) with (String a (p ++ q)). rewrite !prefix_cons.
  intros H. apply andb_true_iff in H. destruct H as [-> H]. now apply IH.
Qed.

Lemma contains_shorter p q s :
  contains (p ++ q) s = true -> contains p s = true.
Proof.
  induction s as [|c rest IH].
  - destruct p; [reflexivity | discriminate].
  - rewrite !contains_cons. intros H. apply orb_true_iff in H. apply orb_true_iff.
    destruct H as [H|H]; [left; now apply (prefix_shorter p q) | right; now apply IH].
Qed.

Lemma contains_lstrip needle s :
  contains needle (lstrip s) = true -> contains needle s = true.
Proof.
  induction s as [|c rest IH]; [auto|].
  simpl lstrip. destruct (isspace c); [|auto].
  intros H. rewrite contains_cons, (IH H). apply orb_true_r.
Qed.

Lemma rstrip_prefix s : exists t, s = rstrip s ++ t.
Proof.
  induction s as [|c rest [t IH]]; [now exists ""|].
  simpl. destruct (rstrip rest) as [|r rs].
  - destruct (isspace c); [now exists (String c rest)|].
    exists rest. reflexivity.
  - exists t. simpl. now rewrite IH at 1.
Qed.

Lemma contains_strip needle s :
  contains needle s = false -> contains needle (strip s) = false.
Proof.
  intros H. destruct (contains needle (strip s)) eqn:E; [|reflexivity].
  unfold strip in E. destruct (rstrip_prefix (lstrip s)) as [t Ht].
  apply (contains_app_r _ _ t) in E. rewrite <- Ht in E.
  apply contains_lstrip in E. congruence.
Qed.

Lemma cleaned_no_fence text : contains "```" (cleaned text) = false.
Proof. apply fence_removed. Qed.

Lemma cleaned_clean text :
  contains "```" text = false -> cleaned text = strip text.
Proof.
  intros H. apply contains_strip in H. unfold cleaned, strip_code_fences.
  assert (Hsql : contains "```sql" (strip text) = false).
  { destruct (contains "```sql" (strip text)) eqn:E; [|reflexivity].
    apply (contains_shorter "```" "sql") in E. congruence. }
  now rewrite (no_match_unchanged _ _ Hsql), (no_match_unchanged _ _ H).
Qed.

(** X6: whatever the model answers and whatever the state of the
    processor, a query that generate_incident_sql returns contains no
    code fence (three backquotes in a row): removing the fences of the
    reply leaves none behind and joins no new one. *)
Theorem translator_output_has_no_fence Sv q w sql w' :
  generate_incident_sql Sv q w = (Return sql, w') ->
  contains "```" sql = false.
Proof.
  unfold generate_incident_sql. unfold bind at 1.
  destruct (_ensure_initialized Sv w) as [[u|e] w1]; [|discriminate].
  unfold try_except, bind, chat_create.
  destruct (openai_client w1); [|discriminate].
  destruct (chat_completion Sv _ _ _) as [[text|]|e]; try discriminate.
  unfold ret. intros [= <- _]. apply cleaned_no_fence.
Qed.

Lemma translator_output_has_no_fence_witness :
  generate_incident_sql Scripted.fenced "all incidents" Scripted.started
  = (Return ("SELECT * FROM c WHERE c.type = 'security_incident'" ++ String LF ""),
     sent (ChatCall (sql_messages "all incidents")) Scripted.started)
  /\ contains "```" ("SELECT * FROM c WHERE c.type = 'security_incident'" ++ String LF "")
     = false.
Proof.
  assert (H : generate_incident_sql Scripted.fenced "all incidents" Scripted.started
              = (Return ("SELECT * FROM c WHERE c.type = 'security_incident'"
                         ++ String LF ""),
                 sent (ChatCall (sql_messages "all incidents")) Scripted.started))
    by (vm_compute; reflexivity).
  split; [exact H|].
  exact (translator_output_has_no_fence _ _ _ _ _ H).
Defined.

(** X7: a reply of the model that contains no code fence is returned by
    generate_incident_sql with nothing but its surrounding white space
    removed. *)
Theorem clean_reply_is_only_stripped Sv q w text :
  ready w ->
  chat_completion Sv (requests w) (model_name Sv) (sql_messages q) = Return (Some text) ->
  contains "```" text = false ->
  generate_incident_sql Sv q w
  = (Return (strip text), sent (ChatCall (sql_messages q)) w).
Proof.
  intros Hready Hreply Hclean.
  rewrite (generate_incident_sql_ready Sv q w Hready), Hreply.
  now rewrite (cleaned_clean text Hclean).
Qed.

Lemma clean_reply_is_only_stripped_witness :
  ready Scripted.started
  /\ chat_completion Scripted.unfiltered (requests Scripted.started)
       (model_name Scripted.unfiltered) (sql_messages "all incidents")
     = Return (Some "SELECT * FROM c")
  /\ contains "```" "SELECT * FROM c" = false
  /\ generate_incident_sql Scripted.unfiltered "all incidents" Scripted.started
     = (Return (strip "SELECT * FROM c"),
        sent (ChatCall (sql_messages "all incidents")) Scripted.started).
Proof.
  assert (H1 : ready Scripted.started) by (repeat split).
  assert (H2 : chat_completion Scripted.unfiltered (requests Scripted.started)
                 (model_name Scripted.unfiltered) (sql_messages "all incidents")
               = Return (Some "SELECT * FROM c")) by reflexivity.
  assert (H3 : contains "```" "SELECT * FROM c" = false) by reflexivity.
  split; [exact H1|]. split; [exact H2|]. split; [exact H3|].
  exact (clean_reply_is_only_stripped Scripted.unfiltered "all incidents"
           Scripted.started "SELECT * FROM c" H1 H2 H3).
Defined.

(** ** The health check *)

Lemma ensure_initialized_raises Sv w e w' :
  _ensure_initialized Sv w = (Raise e, w') ->
  initialized w' = false /\ openai_client w' = openai_client w.
Proof.
  destruct (initialized w) eqn:Hi.
  - rewrite (ensure_initialized_ready Sv w Hi). discriminate.
  - intros H.
    destruct (ensure_initialized_outcomes Sv _ _ _ Hi H)
      as [([=] & _) | (e' & _ & [-> | ->])]; now split.
Qed.

(** The health check, by the outcome of the initialisation. *)
Lemma health_check_unfold Sv req w :
  http_health_check Sv req w
  = match _ensure_initialized Sv w with
    | (Return _, w1) =>
        (Return (health_response Sv
                   (if container w1 && openai_client w1 then "healthy" else "degraded")
                   (if container w1 then "healthy" else "not initialized")
                   (if openai_client w1 then "healthy" else "not initialized")
                   (clock w1)),
         tick w1)
    | (Raise e, w1) =>
        (Return (health_response Sv "degraded" ("unhealthy: " ++ exn_str e)
                   (if openai_client w1 then "healthy" else "not initialized")
                   (clock w1)),
         tick w1)
    end.
Proof.
  unfold http_health_check, cosmos_status, openai_status, try_except, bind, utcnow, ret.
  destruct (_ensure_initialized Sv w) as [[[]|e] w1]; [|reflexivity].
  now destruct (container w1), (openai_client w1).
Qed.

(** X8: the health check always answers 200, whatever the request and the
    state: it sends no request to the store or to the model and changes no
    document, and its status is healthy exactly when the processor is
    initialised with both clients after the call, and degraded otherwise;
    the answer 500 with the status unhealthy never occurs. *)
Theorem health_check_reports Sv req w :
  exists response w',
    http_health_check Sv req w = (Return response, w')
    /\ status_code response = 200
    /\ items w' = items w /\ trace w' = trace w /\ requests w' = requests w
    /\ (field "status" (body response) = JStr "healthy" <-> ready w')
    /\ (field "status" (body response) = JStr "healthy"
        \/ field "status" (body response) = JStr "degraded").
Proof.
  unfold http_health_check, cosmos_status, openai_status, try_except, bind, utcnow, ret.
  destruct (_ensure_initialized Sv w) as [[[]|e] w1] eqn:E;
    destruct (ensure_initialized_frame Sv _ _ _ E) as (Hi & _ & _ & Hr & Ht).
  - pose proof (ensure_initialized_sets Sv _ _ E) as Hinit.
    destruct (container w1) eqn:Hc; destruct (openai_client w1) eqn:Ho;
      do 2 eexists; (split; [reflexivity|]); simpl;
      (split; [reflexivity|]); (split; [exact Hi|]); (split; [exact Ht|]);
      (split; [exact Hr|]); unfold ready; simpl; rewrite ?Hc, ?Ho, ?Hinit;
      (split; [split; [intros H; try discriminate H; auto
                      | intros (_ & H1 & H2); try discriminate; reflexivity]
              | auto]).
  - destruct (ensure_initialized_raises Sv _ _ _ E) as (Hinit & _).
    do 2 eexists. split; [reflexivity|]. simpl.
    split; [reflexivity|]. split; [exact Hi|]. split; [exact Ht|].
    split; [exact Hr|]. unfold ready. simpl. rewrite Hinit.
    split; [split; [discriminate | intros (H & _); discriminate] | now right].
Qed.

(** X9: what the health check of a processor without clients reports, by
    configuration.  With both endpoints set and both clients constructed
    everything is healthy.  Without the Cosmos DB endpoint, or when the
    construction of the Cosmos DB clients fails, cosmos_db carries the
    error: the ValueError that names COSMOS_ENDPOINT, or the exception of
    the construction.  With the container client created, but without the
    OpenAI endpoint or with a failing construction of the OpenAI client,
    it is still cosmos_db that is reported unhealthy, with the error of
    the OpenAI side, while azure_openai reads not initialized.  In every
    failing case the status is degraded. *)
Theorem health_check_by_configuration Sv req w :
  uninitialised w ->
  (configured Sv ->
   http_health_check Sv req w
   = (Return (health_response Sv "healthy" "healthy" "healthy" (clock w)),
      tick (set_initialized (set_openai_client (set_container w)))))
  /\ (env_missing Sv COSMOS_ENDPOINT_ENV ->
      http_health_check Sv req w
      = (Return (health_response Sv "degraded"
                   "unhealthy: Missing required environment variable: COSMOS_ENDPOINT"
                   "not initialized" (clock w)),
         tick w))
  /\ (forall c e,
        env_value Sv COSMOS_ENDPOINT_ENV c -> cosmos_connection Sv c = Some e ->
        http_health_check Sv req w
        = (Return (health_response Sv "degraded" ("unhealthy: " ++ exn_str e)
                     "not initialized" (clock w)),
           tick w))
  /\ (forall c,
        env_value Sv COSMOS_ENDPOINT_ENV c -> cosmos_connection Sv c = None ->
        env_missing Sv AZURE_OPENAI_ENDPOINT_ENV ->
        http_health_check Sv req w
        = (Return (health_response Sv "degraded"
                     "unhealthy: Missing required environment variable: AZURE_OPENAI_ENDPOINT"
                     "not initialized" (clock w)),
           tick (set_container w))
        /\ container (tick (set_container w)) = true)
  /\ (forall c o e,
        env_value Sv COSMOS_ENDPOINT_ENV c -> cosmos_connection Sv c = None ->
        env_value Sv AZURE_OPENAI_ENDPOINT_ENV o -> openai_connection Sv o = Some e ->
        http_health_check Sv req w
        = (Return (health_response Sv "degraded" ("unhealthy: " ++ exn_str e)
                     "not initialized" (clock w)),
           tick (set_container w))
        /\ container (tick (set_container w)) = true).
Proof.
  intros (Hi & Hc & Ho). rewrite health_check_unfold.
  split; [|split; [|split; [|split]]].
  - intros (c & o & Hconf). now rewrite (ensure_initialized_both Sv w c o Hconf Hi).
  - intros Hm. rewrite (ensure_initialized_no_cosmos Sv w Hm Hi). now rewrite Ho.
  - intros c e Hv Hcn. rewrite (ensure_initialized_cosmos_fails Sv w c e Hv Hcn Hi).
    now rewrite Ho.
  - intros c Hv Hcn Hm. rewrite (ensure_initialized_no_openai Sv w c Hv Hcn Hm Hi).
    simpl openai_client. now rewrite Ho.
  - intros c o e Hv Hcn Hov Hon.
    rewrite (ensure_initialized_openai_fails Sv w c o e Hv Hcn Hov Hon Hi).
    simpl openai_client. now rewrite Ho.
Qed.

Lemma health_check_by_configuration_witness :
  uninitialised Scripted.fresh
  /\ configured Scripted.offline
  /\ http_health_check Scripted.offline (get_request []) Scripted.fresh
     = (Return (health_response Scripted.offline "healthy" "healthy" "healthy"
                  (clock Scripted.fresh)),
        tick (set_initialized (set_openai_client (set_container Scripted.fresh))))
  /\ env_value Scripted.unreachable COSMOS_ENDPOINT_ENV "localhost"
  /\ cosmos_connection Scripted.unreachable "localhost" = Some Scripted.invalid_url
  /\ http_health_check Scripted.unreachable (get_request []) Scripted.fresh
     = (Return (health_response Scripted.unreachable "degraded"
                  "unhealthy: Invalid URL scheme or hostname" "not initialized"
                  (clock Scripted.fresh)),
        tick Scripted.fresh).
Proof.
  assert (H1 : uninitialised Scripted.fresh) by (repeat split).
  assert (H2 : configured Scripted.offline).
  { exists "https://incidents.documents.azure.com", "https://incidents.openai.azure.com".
    repeat split; discriminate. }
  assert (H3 : env_value Scripted.unreachable COSMOS_ENDPOINT_ENV "localhost")
    by (split; [reflexivity | discriminate]).
  assert (H4 : cosmos_connection Scripted.unreachable "localhost"
               = Some Scripted.invalid_url) by reflexivity.
  split; [exact H1|]. split; [exact H2|].
  split; [exact (proj1 (health_check_by_configuration Scripted.offline (get_request [])
                          Scripted.fresh H1) H2)|].
  split; [exact H3|]. split; [exact H4|].
  exact (proj1 (proj2 (proj2 (health_check_by_configuration Scripted.unreachable
                                (get_request []) Scripted.fresh H1)))
               _ _ H3 H4).
Defined.

(** ** The analysis and the translator beside the store *)

Lemma analyze_incident_frame Sv incident w o w' :
  analyze_incident Sv incident w = (o, w') ->
  items w' = items w /\ clock w' = clock w /\ uuids w' = uuids w
  /\ (trace w' = trace w \/ exists messages, trace w' = ChatCall messages :: trace w).
Proof.
  unfold analyze_incident. unfold bind at 1.
  destruct (_ensure_initialized Sv w) as [[[]|e] w1] eqn:E;
    destruct (ensure_initialized_frame Sv _ _ _ E) as (Hi & Hc & Hu & Hr & Ht);
    [|intros [= _ <-]; auto].
  destruct (openai_client w1) eqn:Ho; simpl; [|intros [= _ <-]; auto].
  unfold bind, lift, try_except, chat_create, ret. rewrite ?Ho.
  repeat match goal with
         | |- context [match ?x with Return _ => _ | Raise _ => _ end] =>
             destruct x
         end;
    intros [= _ <-]; simpl; rewrite ?Hi, ?Hc, ?Hu, ?Ht; eauto 6.
Qed.

(** X10: analyze_incident never reads or writes the store, whatever the
    incident and the state: the documents, the clock and the id counter
    are as before, and at most one request is sent, which is a chat
    request. *)
Theorem analyze_incident_leaves_store Sv incident w o w' :
  analyze_incident Sv incident w = (o, w') ->
  items w' = items w /\ clock w' = clock w /\ uuids w' = uuids w
  /\ (trace w' = trace w \/ exists messages, trace w' = ChatCall messages :: trace w).
Proof. apply analyze_incident_frame. Qed.

Lemma analyze_incident_leaves_store_witness :
  items (Scripted.world_after (analyze_incident Scripted.terse Scripted.first_delivery)
           Scripted.started)
  = items Scripted.started
  /\ trace (Scripted.world_after (analyze_incident Scripted.terse Scripted.first_delivery)
              Scripted.started)
     <> trace Scripted.started.
Proof.
  split; [|discriminate].
  apply (analyze_incident_leaves_store Scripted.terse Scripted.first_delivery
           Scripted.started
           (fst (analyze_incident Scripted.terse Scripted.first_delivery
                   Scripted.started))).
  unfold Scripted.world_after. now destruct (analyze_incident _ _ _).
Defined.

(** X11: when the translation fails (the chat request raises, or the model
    answers without content), run on an initialised processor, the store
    is never queried: query_incidents raises that exception after the one
    chat request, the HTTP endpoint answers 500 with its text, and the MCP
    tool answers success false with the text after "Error querying
    incidents: ". *)
Theorem translation_failure_runs_no_query Sv q w e :
  ready w ->
  translation_error (chat_completion Sv (requests w) (model_name Sv) (sql_messages q))
  = Some e ->
  let w' := sent (ChatCall (sql_messages q)) w in
  query_incidents Sv q w = (Raise e, w')
  /\ (forall req, param "query" (params req) = Some q ->
        http_query_incidents Sv req w
        = (Return (failure_response Sv e (clock w) 500), tick w'))
  /\ (forall req req_data,
        json_loads Sv req = Return req_data ->
        mcp_query_argument req_data = Return q -> q <> "" ->
        mcp_query_incidents Sv req w = (Return (mcp_failure Sv e (clock w)), tick w'))
  /\ trace (tick w') = ChatCall (sql_messages q) :: trace w
  /\ items (tick w') = items w.
Proof.
  intros Hready Herr w'. pose proof Hready as (Hi & Hc & Ho).
  assert (Hq : query_incidents Sv q w = (Raise e, w')).
  { unfold query_incidents. unfold bind at 1.
    rewrite (ensure_initialized_ready Sv w Hi). unfold bind at 1.
    rewrite (generate_incident_sql_ready Sv q w Hready).
    destruct (chat_completion Sv _ _ _) as [[text|]|e0]; simpl in Herr;
      try discriminate; now injection Herr as <-. }
  split; [exact Hq|]. split; [|split; [|split; reflexivity]].
  - intros req Hp. unfold http_query_incidents. rewrite Hp.
    unfold try_except, bind at 1. now rewrite Hq.
  - intros req req_data Hparse Harg Hne.
    unfold mcp_query_incidents, mcp_query_incidents_try.
    unfold mcp_query_argument in Harg.
    unfold try_except, bind at 1, lift. rewrite Hparse.
    unfold bind at 1, lift.
    destruct (py_get req_data "arguments" (JObj [])) as [args|e1]; [|discriminate].
    unfold bind at 1, lift.
    destruct (py_get args "query" (JStr "")) as [raw|e2]; [|discriminate].
    unfold bind at 1, lift. rewrite Harg.
    destruct (String.eqb_spec q ""); [contradiction|].
    unfold bind at 1. now rewrite Hq.
Qed.

Lemma translation_failure_runs_no_query_witness :
  ready Scripted.started
  /\ translation_error
       (chat_completion Scripted.offline (requests Scripted.started)
          (model_name Scripted.offline) (sql_messages "all incidents"))
     = Some (Exn "APIConnectionError" "Connection error.")
  /\ query_incidents Scripted.offline "all incidents" Scripted.started
     = (Raise (Exn "APIConnectionError" "Connection error."),
        sent (ChatCall (sql_messages "all incidents")) Scripted.started).
Proof.
  assert (H1 : ready Scripted.started) by (repeat split).
  assert (H2 : translation_error
                 (chat_completion Scripted.offline (requests Scripted.started)
                    (model_name Scripted.offline) (sql_messages "all incidents"))
               = Some (Exn "APIConnectionError" "Connection error.")) by reflexivity.
  split; [exact H1|]. split; [exact H2|].
  exact (proj1 (translation_failure_runs_no_query Scripted.offline "all incidents"
                  Scripted.started _ H1 H2)).
Defined.

(** ** The receiver *)

(** X12: the receiver always answers, with 200 or with 400.  After a 200
    the container holds exactly one more document, whose id is the
    document_id of the answer; after a 400 it holds the documents of
    before, or one more: the failure may come after the write. *)
Theorem receiver_outcomes Sv req w :
  exists response w',
    sentinel_receiver Sv req w = (Return response, w')
    /\ ((status_code response = 200
         /\ field "success" (body response) = JBool true
         /\ exists doc, items w' = (items w ++ [doc])%list
                        /\ field "document_id" (body response) = field "id" doc)
        \/ (status_code response = 400
            /\ field "success" (body response) = JBool false
            /\ (items w' = items w
                \/ exists doc, items w' = (items w ++ [doc])%list))).
Proof.
  unfold sentinel_receiver, try_except, failure.
  unfold bind at 1, lift.
  destruct (get_json req) as [payload|e];
    [|unfold bind, utcnow, ret; do 2 eexists; split; [reflexivity|]; right; simpl; auto].
  unfold bind at 1.
  destruct (incident_fields payload) as [[[[incident title] severity] incident_id]|e];
    [|unfold bind, utcnow, ret; do 2 eexists; split; [reflexivity|]; right; simpl; auto].
  unfold bind at 1.
  destruct (analyze_incident Sv incident w) as [[analysis|e] w1] eqn:Ea;
    destruct (analyze_incident_frame Sv _ _ _ _ Ea) as (Hi1 & _ & Hu1 & _);
    [|unfold bind, utcnow, ret; do 2 eexists; split; [reflexivity|]; right; simpl; auto].
  unfold bind at 1.
  destruct (store_incident Sv incident analysis w1) as [[r|e] w2] eqn:Es.
  - destruct (store_incident_returns Sv _ _ _ _ _ Es)
      as (d & n & w0 & -> & Hinit & _ & _ & _ & _ & -> & ->).
    destruct (ensure_initialized_frame Sv _ _ _ Hinit) as (Hi0 & _ & Hu0 & _ & _).
    assert (Hitems : items (after_store (stored_document Sv d analysis n w0) w0)
                     = (items w ++ [stored_document Sv d analysis n w0])%list)
      by (simpl; now rewrite Hi0, Hi1).
    destruct analysis as [| | | | | |a];
      try (unfold bind, lift, utcnow, ret; simpl py_get; cbv beta iota;
           do 2 eexists; split; [reflexivity|]; right;
           split; [reflexivity|]; split; [reflexivity|]; right;
           eexists; exact Hitems).
    unfold bind, lift, utcnow, ret. simpl py_get. cbv beta iota.
    do 2 eexists. split; [reflexivity|]. left.
    split; [reflexivity|]. split; [reflexivity|].
    eexists. split; [exact Hitems|]. simpl. now rewrite Hu0.
  - apply store_incident_raises in Es.
    unfold bind, utcnow, ret. do 2 eexists. split; [reflexivity|]. right. simpl.
    split; [reflexivity|]. split; [reflexivity|]. left. now rewrite Es.
Qed.

(** X13: a delivery to an initialised processor whose analysis is read
    from the reply of the model and whose write gets through: the document
    is stored with that analysis, whatever it is.  When the analysis is a
    JSON object the answer is 200 with its risk_level, immediate_actions
    and estimated_resolution_hours (null, the empty list and null when
    absent); when it is any other JSON value the answer is 400 with the
    AttributeError of analysis.get, although the document has been
    written. *)
Theorem receiver_by_analysis Sv req w d inc um content analysis n :
  ready w ->
  get_json req = Return (JObj d) ->
  unwrapped d = JObj inc ->
  user_message_of Sv inc = Return um ->
  chat_completion Sv (requests w) (model_name Sv) (analysis_messages um) = Return content ->
  loads Sv content = Return analysis ->
  severity_levels_get (get_or "severity" (JStr "Unknown") inc) = Return n ->
  cosmos_fault Sv (S (requests w)) = None ->
  existsb (has_id (uuid4 Sv (uuids w))) (items w) = false ->
  let w1 := sent (ChatCall (analysis_messages um)) w in
  let doc := stored_document Sv inc analysis n w1 in
  let w2 := after_store doc w1 in
  (forall a, analysis = JObj a ->
     sentinel_receiver Sv req w
     = (Return (receiver_response Sv
                  (py_or (get_or "title" JNull inc) (get_or "incidentName" JNull inc))
                  (get_or "severity" (JStr "Unknown") inc)
                  (py_or (get_or "incidentId" JNull inc) (get_or "id" JNull inc))
                  (uuid4 Sv (uuids w)) a (clock w2)),
        tick w2))
  /\ ((forall a, analysis <> JObj a) ->
      sentinel_receiver Sv req w
      = (Return (failure_response Sv (attribute_error analysis "get") (clock w2) 400),
         tick w2))
  /\ items (tick w2) = (items w ++ [doc])%list
  /\ field "analysis" doc = analysis.
Proof.
  intros Hready Hbody Hinc Hum Hreply Hloads Hlevel Hfault Hfresh w1 doc w2.
  assert (Hready1 : ready w1) by exact Hready.
  assert (Hrun :
             sentinel_receiver Sv req w
             = try_except (storage_result <- ret (JObj [("success", JBool true);
                                     ("document_id", JStr (uuid4 Sv (uuids w)));
                                     ("incident_id",
                                      py_or (get_or "incidentId" JNull inc)
                                            (get_or "id" JNull inc))]) ;;
                           risk_level <- lift (py_get analysis "risk_level" JNull) ;;
                           immediate_actions <-
                             lift (py_get analysis "immediate_actions" (JArr [])) ;;
                           hours <-
                             lift (py_get analysis "estimated_resolution_hours" JNull) ;;
                           now <- utcnow Sv ;;
                           ret (mkResponse
                                  (JObj [("success", JBool true);
                                         ("incident_id",
                                          py_or (get_or "incidentId" JNull inc)
                                                (get_or "id" JNull inc));
                                         ("document_id",
                                          field "document_id" storage_result);
                                         ("title",
                                          py_or (get_or "title" JNull inc)
                                                (get_or "incidentName" JNull inc));
                                         ("severity",
                                          get_or "severity" (JStr "Unknown") inc);
                                         ("risk_level", risk_level);
                                         ("immediate_actions", immediate_actions);
                                         ("estimated_resolution_hours", hours);
                                         ("message",
                                          JStr "Incident processed and action plan generated");
                                         ("timestamp", JStr now)])
                                  200 json_headers))
                          (fun ex => failure Sv (exn_str ex) 400) w2).
  { unfold sentinel_receiver, try_except.
    unfold bind at 1, lift. rewrite Hbody.
    unfold bind at 1. rewrite (incident_fields_dict d inc Hinc).
    unfold bind at 1.
    rewrite (analyze_incident_ready Sv inc w um Hready Hum), Hreply, Hloads.
    unfold bind at 1. fold w1.
    rewrite (store_incident_succeeds Sv inc analysis n w1 Hready1 Hlevel Hfault Hfresh).
    reflexivity. }
  split; [|split; [|split; reflexivity]].
  - intros a ->. rewrite Hrun. reflexivity.
  - intros Hn. rewrite Hrun.
    destruct analysis as [| | | | | |a]; try reflexivity. now destruct (Hn a).
Qed.

Lemma receiver_by_analysis_witness :
  ready Scripted.started
  /\ loads Scripted.listing (Some "[]") = Return (JArr [])
  /\ status_code (Scripted.response_of
                    (sentinel_receiver Scripted.listing
                       (post_request Scripted.first_delivery))
                    Scripted.started) = 400
  /\ field "error" (body (Scripted.response_of
                            (sentinel_receiver Scripted.listing
                               (post_request Scripted.first_delivery))
                            Scripted.started))
     = JStr "'list' object has no attribute 'get'"
  /\ List.length (items (Scripted.world_after
                           (sentinel_receiver Scripted.listing
                              (post_request Scripted.first_delivery))
                           Scripted.started)) = 1%nat.
Proof.
  assert (H1 : ready Scripted.started) by (repeat split).
  assert (H2 : loads Scripted.listing (Some "[]") = Return (JArr [])) by reflexivity.
  split; [exact H1|]. split; [exact H2|].
  pose proof (receiver_by_analysis Scripted.listing (post_request Scripted.first_delivery)
                Scripted.started
                [("incidentId", JStr "INC-1"); ("title", JStr "First");
                 ("severity", JStr "High")]
                [("incidentId", JStr "INC-1"); ("title", JStr "First");
                 ("severity", JStr "High")]
                (Scripted.result_text
                   (user_message_of Scripted.listing
                      [("incidentId", JStr "INC-1"); ("title", JStr "First");
                       ("severity", JStr "High")]))
                (Some "[]") (JArr []) 4
                H1 eq_refl eq_refl eq_refl eq_refl H2 eq_refl eq_refl eq_refl) as H.
  cbv zeta in H. destruct H as (_ & H & _).
  unfold Scripted.response_of, Scripted.world_after.
  rewrite (H ltac:(discriminate)). repeat split.
Defined.

(** ** The sample incident written at startup *)

Lemma sample_user_message Sv now :
  exists um, user_message_of Sv (sample_fields now) = Return um.
Proof. eexists. reflexivity. Qed.

Lemma insert_desc_cons x l : exists y rest, insert_desc x l = y :: rest.
Proof. destruct l as [|z l]; simpl; [eauto|]. destruct (level z <=? level x); eauto. Qed.

Lemma select_top_nil n docs :
  (forall d, In d docs -> is_incident d = false) -> select_top n docs = [].
Proof.
  intros H. unfold select_top.
  assert (Hf : filter is_incident docs = []).
  { induction docs as [|x l IH]; [reflexivity|]. simpl.
    rewrite (H x (or_introl eq_refl)). apply IH. intros d Hd. apply H. now right. }
  rewrite Hf. simpl. now destruct (Z.to_nat n).
Qed.

Lemma select_top_one docs d :
  In d docs -> is_incident d = true -> exists x, select_top 1 docs = [x].
Proof.
  intros Hin Hd. unfold select_top.
  assert (Hf : In d (filter is_incident docs)) by (apply filter_In; auto).
  destruct (filter is_incident docs) as [|x l]; [contradiction|].
  simpl order_by_level_desc.
  destruct (insert_desc_cons x (order_by_level_desc l)) as (y & rest & ->).
  now exists y.
Qed.

Lemma seeding_skips Sv w :
  answers_sample_query Sv -> ready w -> int_levels (items w) ->
  cosmos_fault Sv (requests w) = None ->
  (exists d, In d (items w) /\ is_incident d = true) ->
  initialize_sample_incidents Sv w = (Return tt, sent (QueryItems (sample_query 1)) w).
Proof.
  intros Hengine Hready Hlevels Hfault (d & Hin & Hd).
  unfold initialize_sample_incidents, initialize_sample_incidents_try, try_except.
  unfold bind at 1. rewrite (get_sample_incidents_ready Sv 1 w Hready Hfault).
  rewrite (Hengine 1 (items w)) by (assumption || lia).
  now destruct (select_top_one (items w) d Hin Hd) as (x & ->).
Qed.

Lemma seeding_writes Sv w :
  answers_sample_query Sv -> ready w -> int_levels (items w) ->
  cosmos_fault Sv (requests w) = None ->
  (forall d, In d (items w) -> is_incident d = false) ->
  cosmos_fault Sv (S (S (requests w))) = None ->
  existsb (has_id (uuid4 Sv (uuids w))) (items w) = false ->
  exists analysis w3,
    initialize_sample_incidents Sv w
    = (Return tt,
       after_store (stored_document Sv (sample_fields (utcnow_isoformat Sv (clock w)))
                      analysis 4 w3) w3)
    /\ items w3 = items w /\ ready w3 /\ requests w3 = S (S (requests w)).
Proof.
  intros Hengine Hready Hlevels Hfault Hnone Hfault2 Hfresh.
  unfold initialize_sample_incidents, initialize_sample_incidents_try, try_except.
  unfold bind at 1. rewrite (get_sample_incidents_ready Sv 1 w Hready Hfault).
  rewrite (Hengine 1 (items w)) by (assumption || lia).
  rewrite (select_top_nil 1 (items w) Hnone).
  unfold bind at 1, utcnow. simpl clock.
  set (now := utcnow_isoformat Sv (clock w)).
  set (w2 := tick (sent (QueryItems (sample_query 1)) w)).
  assert (Hready2 : ready w2) by exact Hready.
  destruct (sample_user_message Sv now) as (um & Hum).
  unfold bind at 1.
  change (sample_incident now) with (JObj (sample_fields now)).
  rewrite (analyze_incident_ready Sv _ w2 um Hready2 Hum).
  set (analysis := match chat_completion Sv (requests w2) _ _ with
                   | Return content => _ | Raise e => _ end).
  set (w3 := sent (ChatCall (analysis_messages um)) w2).
  assert (Hready3 : ready w3) by exact Hready.
  unfold bind at 1.
  rewrite (store_incident_succeeds Sv (sample_fields now) analysis 4 w3 Hready3
             eq_refl Hfault2 Hfresh).
  exists analysis, w3. repeat split; apply Hready.
Qed.

Lemma get_sample_incidents_frame Sv limit w o w' :
  get_sample_incidents Sv limit w = (o, w') ->
  items w' = items w /\ uuids w' = uuids w.
Proof.
  unfold get_sample_incidents. unfold bind at 1.
  destruct (_ensure_initialized Sv w) as [[[]|e] w1] eqn:E;
    destruct (ensure_initialized_frame Sv _ _ _ E) as (Hi & _ & Hu & _ & _);
    [|intros [= _ <-]; auto].
  destruct (container w1) eqn:Hc; simpl; [|intros [= _ <-]; auto].
  unfold try_except, query_items, request, raise. rewrite Hc.
  destruct (cosmos_fault Sv (requests w1)); [intros [= _ <-]; auto|].
  destruct (cosmos_sql Sv _ _); intros [= _ <-]; auto.
Qed.

(** X14: the startup function never raises, whatever the configuration,
    the store and the model do, and it writes at most one document: the
    container is left as it was, or holds one more document, which carries
    the incident id INC-001 and the severity level 4. *)
Theorem seeding_never_raises Sv w :
  exists w',
    initialize_sample_incidents Sv w = (Return tt, w')
    /\ (items w' = items w
        \/ exists doc, items w' = (items w ++ [doc])%list
                       /\ field "incident_id" doc = JStr "INC-001"
                       /\ field "severity_level" doc = JInt 4).
Proof.
  unfold initialize_sample_incidents, initialize_sample_incidents_try, try_except.
  unfold bind at 1.
  destruct (get_sample_incidents Sv 1 w) as [[existing|e] w1] eqn:Eg;
    destruct (get_sample_incidents_frame Sv _ _ _ _ Eg) as (Hi1 & Hu1);
    [|eexists; split; [reflexivity|]; left; exact Hi1].
  destruct existing as [|x l]; [|eexists; split; [reflexivity|]; left; exact Hi1].
  unfold bind at 1, utcnow. unfold bind at 1.
  set (now := utcnow_isoformat Sv (clock w1)).
  destruct (analyze_incident Sv (sample_incident now) (tick w1)) as [[analysis|e] w2] eqn:Ea;
    destruct (analyze_incident_frame Sv _ _ _ _ Ea) as (Hi2 & _);
    [|eexists; split; [reflexivity|]; left; rewrite Hi2; exact Hi1].
  unfold bind at 1.
  destruct (store_incident Sv (sample_incident now) analysis w2) as [[r|e] w3] eqn:Es.
  - destruct (store_incident_returns Sv _ _ _ _ _ Es)
      as (d & n & w0 & Hd & Hinit & _ & Hlevel & _ & _ & -> & _).
    destruct (ensure_initialized_frame Sv _ _ _ Hinit) as (Hi0 & _).
    injection Hd as <-. injection Hlevel as <-.
    eexists. split; [reflexivity|]. right. eexists.
    split; [simpl; rewrite Hi0, Hi2; simpl; rewrite Hi1; reflexivity|].
    split; reflexivity.
  - apply store_incident_raises in Es.
    eexists. split; [reflexivity|]. left. rewrite Es, Hi2. exact Hi1.
Qed.

(** X15: on an initialised processor whose engine answers the sample query
    as its text reads, the startup function seeds only a container without
    incidents.  When the container holds an incident document it sends the
    one query and writes nothing, and the model is not called.  When it
    holds none (and the write gets through) it appends one document for
    the incident INC-001, of severity High and level 4, with the sample
    incident as raw_data; and run again on the result it writes
    nothing. *)
Theorem seeding_runs_once Sv w :
  answers_sample_query Sv -> ready w -> int_levels (items w) ->
  cosmos_fault Sv (requests w) = None ->
  ((exists d, In d (items w) /\ is_incident d = true) ->
   initialize_sample_incidents Sv w = (Return tt, sent (QueryItems (sample_query 1)) w))
  /\ ((forall d, In d (items w) -> is_incident d = false) ->
      cosmos_fault Sv (S (S (requests w))) = None ->
      existsb (has_id (uuid4 Sv (uuids w))) (items w) = false ->
      exists doc w',
        initialize_sample_incidents Sv w = (Return tt, w')
        /\ items w' = (items w ++ [doc])%list
        /\ is_incident doc = true
        /\ field "incident_id" doc = JStr "INC-001"
        /\ field "severity" doc = JStr "High"
        /\ field "severity_level" doc = JInt 4
        /\ field "raw_data" doc = sample_incident (utcnow_isoformat Sv (clock w))
        /\ (cosmos_fault Sv (requests w') = None ->
            initialize_sample_incidents Sv w'
            = (Return tt, sent (QueryItems (sample_query 1)) w'))).
Proof.
  intros Hengine Hready Hlevels Hfault. split.
  - now apply seeding_skips.
  - intros Hnone Hfault2 Hfresh.
    destruct (seeding_writes Sv w Hengine Hready Hlevels Hfault Hnone Hfault2 Hfresh)
      as (analysis & w3 & Hrun & Hi3 & Hready3 & _).
    do 2 eexists. split; [exact Hrun|].
    split; [simpl; now rewrite Hi3|].
    do 5 (split; [reflexivity|]).
    intros Hfault3. apply seeding_skips; [assumption | exact Hready3 | | assumption |].
    + simpl items. rewrite Hi3. apply int_levels_app; [assumption | reflexivity].
    + eexists. split; [simpl; apply in_or_app; right; now left | reflexivity].
Qed.

Lemma seeding_runs_once_witness :
  ready Scripted.started
  /\ cosmos_fault Scripted.offline (requests Scripted.started) = None
  /\ exists doc w',
       initialize_sample_incidents Scripted.offline Scripted.started = (Return tt, w')
       /\ items w' = (items Scripted.started ++ [doc])%list
       /\ is_incident doc = true
       /\ field "incident_id" doc = JStr "INC-001"
       /\ field "severity" doc = JStr "High"
       /\ field "severity_level" doc = JInt 4
       /\ field "raw_data" doc
          = sample_incident (utcnow_isoformat Scripted.offline (clock Scripted.started))
       /\ (cosmos_fault Scripted.offline (requests w') = None ->
           initialize_sample_incidents Scripted.offline w'
           = (Return tt, sent (QueryItems (sample_query 1)) w')).
Proof.
  assert (H1 : ready Scripted.started) by (repeat split).
  assert (H2 : int_levels (items Scripted.started)) by (intros d []).
  assert (H3 : cosmos_fault Scripted.offline (requests Scripted.started) = None)
    by reflexivity.
  assert (H4 : forall d, In d (items Scripted.started) -> is_incident d = false)
    by (intros d []).
  split; [exact H1|]. split; [exact H3|].
  exact (proj2 (seeding_runs_once Scripted.offline Scripted.started
                  (scripted_engine_answers _ _) H1 H2 H3) H4 eq_refl eq_refl).
Defined.

(** ** The sample endpoint, for every request *)

Lemma get_sample_incidents_trace Sv limit w o w' :
  get_sample_incidents Sv limit w = (o, w') ->
  trace w' = trace w \/ trace w' = QueryItems (sample_query limit) :: trace w.
Proof.
  unfold get_sample_incidents. unfold bind at 1.
  destruct (_ensure_initialized Sv w) as [[[]|e] w1] eqn:E;
    destruct (ensure_initialized_frame Sv _ _ _ E) as (_ & _ & _ & _ & Ht);
    [|intros [= _ <-]; auto].
  destruct (container w1) eqn:Hc; simpl; [|intros [= _ <-]; auto].
  unfold try_except, query_items, request, raise. rewrite Hc.
  destruct (cosmos_fault Sv (requests w1)); [intros [= _ <-]; simpl; rewrite Ht; auto|].
  destruct (cosmos_sql Sv _ _); intros [= _ <-]; simpl; rewrite Ht; auto.
Qed.

(** X16: the sample endpoint always answers, with 200 or 500, and never
    changes a document.  Whatever limit the request carries, it sends at
    most one request to the store, the sample query for a number of
    documents between 1 and 100.  A limit that int() rejects is answered
    500 with "Internal server error: " and the text of the exception,
    before the processor is initialised or the store is reached. *)
Theorem sample_endpoint_bounds_every_query Sv req w :
  exists response w',
    http_get_sample_incidents Sv req w = (Return response, w')
    /\ (status_code response = 200 \/ status_code response = 500)
    /\ items w' = items w
    /\ (trace w' = trace w
        \/ exists n, 1 <= n <= 100 /\ trace w' = QueryItems (sample_query n) :: trace w)
    /\ (forall e, py_int Sv (limit_text req) = Raise e ->
          response = sample_failure Sv e (clock w) /\ w' = tick w).
Proof.
  unfold http_get_sample_incidents, try_except. unfold bind at 1, lift.
  fold (limit_text req).
  destruct (py_int Sv (limit_text req)) as [limit|e].
  - unfold bind at 1.
    destruct (get_sample_incidents Sv (clamp_limit limit) w) as [[sample|e] w1] eqn:Eg;
      destruct (get_sample_incidents_frame Sv _ _ _ _ Eg) as (Hi & _);
      pose proof (get_sample_incidents_trace Sv _ _ _ _ Eg) as Ht;
      pose proof (clamp_limit_range limit) as Hrange;
      unfold bind, utcnow, ret; do 2 eexists; (split; [reflexivity|]); simpl;
      (split; [auto|]); (split; [exact Hi|]);
      (split; [destruct Ht as [Ht|Ht]; [now left | right; eauto] | discriminate]).
  - unfold bind, utcnow, ret. do 2 eexists. split; [reflexivity|]. simpl.
    split; [auto|]. split; [reflexivity|]. split; [now left|].
    intros e' [= <-]. now split.
Qed.

Lemma sample_endpoint_bounds_every_query_witness :
  py_int Scripted.offline (limit_text (get_request [("limit", "ten")]))
  = Raise (Exn "ValueError" "invalid literal for int() with base 10: 'ten'")
  /\ http_get_sample_incidents Scripted.offline (get_request [("limit", "ten")])
       Scripted.started
     = (Return (sample_failure Scripted.offline
                  (Exn "ValueError" "invalid literal for int() with base 10: 'ten'")
                  (clock Scripted.started)),
        tick Scripted.started).
Proof.
  assert (H : py_int Scripted.offline (limit_text (get_request [("limit", "ten")]))
              = Raise (Exn "ValueError" "invalid literal for int() with base 10: 'ten'"))
    by reflexivity.
  split; [exact H|].
  destruct (sample_endpoint_bounds_every_query Scripted.offline
              (get_request [("limit", "ten")]) Scripted.started)
    as (response & w' & Hrun & _ & _ & _ & Hbad).
  destruct (Hbad _ H) as (<- & <-). exact Hrun.
Defined.

(** ** A stored incident and its action plan *)

(** X17: the document_id that store_incident returns is accepted by the
    update endpoint: an update request with that id and an action status,
    whose two requests get through, is answered 200; the stored document
    then carries the action status of the request in place of Pending,
    and still the incident as raw_data and the analysis; the container
    holds the one new document and no other. *)
Theorem stored_incident_can_be_updated Sv incident analysis w r w1 req b :
  ready w ->
  store_incident Sv incident analysis w = (Return r, w1) ->
  uuid4 Sv (uuids w) <> "" ->
  get_json req = Return (JObj b) ->
  get_or "document_id" JNull b = field "document_id" r ->
  truthy (get_or "action_status" JNull b) = true ->
  cosmos_fault Sv (requests w1) = None ->
  cosmos_fault Sv (S (requests w1)) = None ->
  exists response doc doc' w2,
    http_update_incident_actions Sv req w1 = (Return response, w2)
    /\ status_code response = 200
    /\ field "document_id" (body response) = field "document_id" r
    /\ items w1 = (items w ++ [doc])%list
    /\ items w2 = (items w ++ [doc'])%list
    /\ field "action_plan_status" doc = JStr "Pending"
    /\ field "action_plan_status" doc' = get_or "action_status" JNull b
    /\ field "id" doc' = field "document_id" r
    /\ field "raw_data" doc' = incident
    /\ field "analysis" doc' = analysis.
Proof.
  intros Hready Hstore Hne Hbody Hid Hstatus Hf1 Hf2.
  pose proof Hready as (Hi & Hc & Ho).
  destruct (store_incident_returns Sv _ _ _ _ _ Hstore)
    as (d & n & w0 & -> & Hinit & _ & _ & _ & Hfresh & -> & ->).
  rewrite (ensure_initialized_ready Sv w Hi) in Hinit. injection Hinit as <-.
  set (id := uuid4 Sv (uuids w)) in *.
  set (doc := stored_document Sv d analysis n w).
  assert (Hhas : has_id id doc = true) by (apply has_id_iff; reflexivity).
  assert (Hfind : find (has_id id) (items (after_store doc w)) = Some doc).
  { simpl items. apply find_app_new; [now apply existsb_find_none | exact Hhas]. }
  assert (Htid : truthy (JStr id) = true).
  { simpl. destruct (String.eqb_spec id ""); [contradiction | reflexivity]. }
  assert (Hready1 : ready (after_store doc w)) by exact Hready.
  pose proof (update_existing Sv req (after_store doc w) b id _ Hbody Hid Htid Hstatus
                Hready1 Hf1 Hf2 Hfind) as Hrun.
  cbv zeta in Hrun.
  do 4 eexists. split; [exact Hrun|].
  split; [reflexivity|]. split; [reflexivity|]. split; [reflexivity|].
  split.
  { simpl items. clear Hrun Hfind.
    assert (Hnone : find (has_id id) (items w) = None) by now apply existsb_find_none.
    induction (items w) as [|x l IH]; simpl in *.
    - now rewrite Hhas.
    - destruct (has_id id x); [discriminate|]. simpl in Hfresh.
      f_equal. now apply IH. }
  repeat split; reflexivity.
Qed.

Lemma stored_incident_can_be_updated_witness :
  ready Scripted.started
  /\ Scripted.first_id <> ""
  /\ exists response doc doc' w2,
       http_update_incident_actions Scripted.offline Scripted.update_first
         Scripted.after_first = (Return response, w2)
       /\ status_code response = 200
       /\ field "document_id" (body response) = JStr Scripted.first_id
       /\ items Scripted.after_first = (items Scripted.started ++ [doc])%list
       /\ items w2 = (items Scripted.started ++ [doc'])%list
       /\ field "action_plan_status" doc = JStr "Pending"
       /\ field "action_plan_status" doc' = JStr "In Progress"
       /\ field "id" doc' = JStr Scripted.first_id
       /\ field "raw_data" doc' = Scripted.first_delivery
       /\ field "analysis" doc' = JNull.
Proof.
  assert (H1 : ready Scripted.started) by (repeat split).
  assert (H2 : Scripted.first_id <> "") by discriminate.
  split; [exact H1|]. split; [exact H2|].
  exact (stored_incident_can_be_updated Scripted.offline Scripted.first_delivery JNull
           Scripted.started _ Scripted.after_first Scripted.update_first
           Scripted.update_first_fields H1 eq_refl H2 eq_refl eq_refl eq_refl
           eq_refl eq_refl).
Defined.

(** ** The query surfaces, for every request *)

Lemma generate_incident_sql_initialized Sv q w :
  initialized w = true ->
  generate_incident_sql Sv q w
  = if openai_client w
    then (match chat_completion Sv (requests w) (model_name Sv) (sql_messages q) with
          | Return (Some text) => Return (cleaned text)
          | Return None => Raise (attribute_error JNull "strip")
          | Raise e => Raise e
          end,
          sent (ChatCall (sql_messages q)) w)
    else (Raise (Exn "AttributeError" "'NoneType' object has no attribute 'chat'"), w).
Proof.
  intros Hi. unfold generate_incident_sql. unfold bind at 1.
  rewrite (ensure_initialized_ready Sv w Hi).
  unfold try_except, bind, chat_create, sql_messages.
  destruct (openai_client w); [|reflexivity].
  destruct (chat_completion Sv _ _ _) as [[text|]|e]; reflexivity.
Qed.

Lemma query_incidents_initialized Sv q w :
  initialized w = true ->
  query_incidents Sv q w
  = match generate_incident_sql Sv q w with
    | (Return sql, w1) =>
        if container w1
        then match cosmos_fault Sv (requests w1) with
             | Some e => (Raise e, sent (QueryItems sql) w1)
             | None => (cosmos_sql Sv sql (items w1), sent (QueryItems sql) w1)
             end
        else (Raise (attribute_error JNull "query_items"), w1)
    | (Raise e, w1) => (Raise e, w1)
    end.
Proof.
  intros Hi. unfold query_incidents. unfold bind at 1.
  rewrite (ensure_initialized_ready Sv w Hi). unfold bind at 1.
  destruct (generate_incident_sql Sv q w) as [[sql|e] w1]; [|reflexivity].
  unfold try_except, query_items, request, raise.
  destruct (container w1); [|reflexivity].
  destruct (cosmos_fault Sv (requests w1)); [reflexivity|].
  simpl items. now destruct (cosmos_sql Sv sql (items w1)).
Qed.

Lemma query_incidents_returns Sv q w incidents w' :
  query_incidents Sv q w = (Return incidents, w') ->
  exists sql w0,
    _ensure_initialized Sv w = (Return tt, w0)
    /\ contains "```" sql = false
    /\ cosmos_sql Sv sql (items w) = Return incidents
    /\ w' = sent (QueryItems sql) (sent (ChatCall (sql_messages q)) w0).
Proof.
  unfold query_incidents. unfold bind at 1.
  destruct (_ensure_initialized Sv w) as [[[]|e] w0] eqn:E; [|discriminate].
  destruct (ensure_initialized_frame Sv _ _ _ E) as (Hi & _).
  pose proof (ensure_initialized_sets Sv _ _ E) as Hinit.
  pose proof (query_incidents_initialized Sv q w0 Hinit) as Hq.
  unfold query_incidents in Hq. unfold bind at 1 in Hq.
  rewrite (ensure_initialized_ready Sv w0 Hinit) in Hq. rewrite Hq. clear Hq.
  rewrite (generate_incident_sql_initialized Sv q w0 Hinit).
  destruct (openai_client w0); [|discriminate].
  destruct (chat_completion Sv _ _ _) as [[text|]|e]; try discriminate.
  simpl container. destruct (container w0); [|discriminate]. simpl requests.
  destruct (cosmos_fault Sv _); [discriminate|]. simpl items. rewrite Hi.
  destruct (cosmos_sql Sv _ (items w)) as [l|e] eqn:Es; [|discriminate].
  intros [= <- <-]. exists (cleaned text), w0.
  repeat split; [apply cleaned_no_fence | exact Es].
Qed.

Lemma query_incidents_frame Sv q w o w' :
  query_incidents Sv q w = (o, w') -> items w' = items w.
Proof.
  unfold query_incidents. unfold bind at 1.
  destruct (_ensure_initialized Sv w) as [[[]|e] w0] eqn:E;
    destruct (ensure_initialized_frame Sv _ _ _ E) as (Hi & _);
    [|now intros [= _ <-]].
  pose proof (ensure_initialized_sets Sv _ _ E) as Hinit.
  pose proof (query_incidents_initialized Sv q w0 Hinit) as Hq.
  unfold query_incidents in Hq. unfold bind at 1 in Hq.
  rewrite (ensure_initialized_ready Sv w0 Hinit) in Hq. rewrite Hq. clear Hq.
  rewrite (generate_incident_sql_initialized Sv q w0 Hinit).
  destruct (openai_client w0); [|now intros [= _ <-]].
  destruct (chat_completion Sv _ _ _) as [[text|]|e]; try (now intros [= _ <-]).
  simpl container. destruct (container w0); [|now intros [= _ <-]]. simpl requests.
  destruct (cosmos_fault Sv _); [now intros [= _ <-]|]. simpl items.
  destruct (cosmos_sql Sv _ _); now intros [= _ <-].
Qed.

(** X18: the HTTP query endpoint always answers, with 200 or 500, and
    never changes a document.  It answers 200 only after the translator
    was asked once and the store was queried once, with a query text that
    contains no code fence; the incidents of the answer are what the store
    returned for that text and count is their number. *)
Theorem http_query_outcomes Sv req w :
  exists response w',
    http_query_incidents Sv req w = (Return response, w')
    /\ items w' = items w
    /\ ((status_code response = 200
         /\ field "success" (body response) = JBool true
         /\ exists q sql incidents,
              trace w' = QueryItems sql :: ChatCall (sql_messages q) :: trace w
              /\ contains "```" sql = false
              /\ cosmos_sql Sv sql (items w) = Return incidents
              /\ field "incidents" (body response) = JArr incidents
              /\ field "count" (body response) = JInt (Z.of_nat (List.length incidents)))
        \/ (status_code response = 500
            /\ field "success" (body response) = JBool false)).
Proof.
  unfold http_query_incidents, try_except, failure. unfold bind at 1.
  set (q := match param "query" (params req) with Some q => q | None => _ end).
  destruct (query_incidents Sv q w) as [[incidents|e] w1] eqn:E;
    pose proof (query_incidents_frame Sv _ _ _ _ E) as Hi;
    unfold bind, utcnow, ret; do 2 eexists; (split; [reflexivity|]);
    (split; [exact Hi|]); [left | right; now split].
  destruct (query_incidents_returns Sv _ _ _ _ E) as (sql & w0 & Hinit & Hf & Hs & ->).
  destruct (ensure_initialized_frame Sv _ _ _ Hinit) as (_ & _ & _ & _ & Ht).
  split; [reflexivity|]. split; [reflexivity|].
  exists q, sql, incidents. simpl. rewrite Ht. auto.
Qed.

Lemma mcp_summary_not_object Sv q first rest :
  (forall f, first <> JObj f) ->
  mcp_summary Sv q (first :: rest) = Raise (attribute_error first "get").
Proof.
  intros Hn. unfold mcp_summary. cbn [firstn summary_entries].
  destruct first as [| | | | | |f]; try reflexivity. now destruct (Hn f).
Qed.

(** X19: a query whose results do not start with a JSON object, as the
    number an aggregate query returns: the HTTP endpoint answers 200 with
    the results as they are, while the MCP tool, which summarises the
    first results with their get method, answers success false with the
    AttributeError of the first result, after the same two requests. *)
Theorem mcp_needs_object_results Sv q w text first rest :
  ready w ->
  chat_completion Sv (requests w) (model_name Sv) (sql_messages q) = Return (Some text) ->
  cosmos_fault Sv (S (requests w)) = None ->
  cosmos_sql Sv (cleaned text) (items w) = Return (first :: rest) ->
  (forall f, first <> JObj f) ->
  let w' := tick (sent (QueryItems (cleaned text)) (sent (ChatCall (sql_messages q)) w)) in
  (forall req, param "query" (params req) = Some q ->
     http_query_incidents Sv req w
     = (Return (query_response Sv q (first :: rest) (clock w)), w'))
  /\ (forall req req_data,
        json_loads Sv req = Return req_data ->
        mcp_query_argument req_data = Return q -> q <> "" ->
        mcp_query_incidents Sv req w
        = (Return (mcp_failure Sv (attribute_error first "get") (clock w)), w')).
Proof.
  intros Hready Hreply Hfault Hsql Hn w'.
  pose proof (query_incidents_ready Sv q w text Hready Hreply Hfault) as Hq.
  rewrite Hsql in Hq. split.
  - intros req Hp. unfold http_query_incidents. rewrite Hp.
    unfold try_except, bind at 1. now rewrite Hq.
  - intros req req_data Hparse Harg Hne.
    unfold mcp_query_incidents, mcp_query_incidents_try.
    unfold mcp_query_argument in Harg.
    unfold try_except, bind at 1, lift. rewrite Hparse.
    unfold bind at 1, lift.
    destruct (py_get req_data "arguments" (JObj [])) as [args|e1]; [|discriminate].
    unfold bind at 1, lift.
    destruct (py_get args "query" (JStr "")) as [raw|e2]; [|discriminate].
    unfold bind at 1, lift. rewrite Harg.
    destruct (String.eqb_spec q ""); [contradiction|].
    unfold bind at 1. rewrite Hq. unfold bind at 1, lift.
    now rewrite (mcp_summary_not_object Sv q first rest Hn).
Qed.

Lemma mcp_needs_object_results_witness :
  ready Scripted.started
  /\ cosmos_sql Scripted.counting (cleaned "SELECT VALUE COUNT(1) FROM c")
       (items Scripted.started)
     = Return [JInt 0]
  /\ http_query_incidents Scripted.counting
       (get_request [("query", "how many incidents")]) Scripted.started
     = (Return (query_response Scripted.counting "how many incidents" [JInt 0]
                  (clock Scripted.started)),
        tick (sent (QueryItems (cleaned "SELECT VALUE COUNT(1) FROM c"))
                (sent (ChatCall (sql_messages "how many incidents")) Scripted.started)))
  /\ mcp_query_incidents Scripted.counting Scripted.count_request Scripted.started
     = (Return (mcp_failure Scripted.counting (attribute_error (JInt 0) "get")
                  (clock Scripted.started)),
        tick (sent (QueryItems (cleaned "SELECT VALUE COUNT(1) FROM c"))
                (sent (ChatCall (sql_messages "how many incidents")) Scripted.started))).
Proof.
  assert (H1 : ready Scripted.started) by (repeat split).
  assert (H2 : cosmos_sql Scripted.counting (cleaned "SELECT VALUE COUNT(1) FROM c")
                          (items Scripted.started) = Return [JInt 0]) by reflexivity.
  split; [exact H1|]. split; [exact H2|].
  destruct (mcp_needs_object_results Scripted.counting "how many incidents"
              Scripted.started "SELECT VALUE COUNT(1) FROM c" (JInt 0) [] H1
              eq_refl eq_refl H2 ltac:(discriminate)) as (Hhttp & Hmcp).
  split.
  - apply Hhttp. reflexivity.
  - apply (Hmcp Scripted.count_request
             (JObj [("arguments", JObj [("query", JStr "how many incidents")])]));
      [reflexivity | reflexivity | discriminate].
Defined.

(** ** The update endpoint, for every request *)

Lemma update_try_status Sv req w o w' :
  http_update_incident_actions_try Sv req w = (o, w') ->
  (items w' = items w /\ forall r, o = Return r -> status_code r = 400)
  \/ (exists r, o = Return r /\ status_code r = 200).
Proof.
  unfold http_update_incident_actions_try. unfold bind, lift, ret.
  destruct (get_json req) as [req_body|e];
    [|intros [= <- <-]; left; split; [reflexivity | discriminate]].
  destruct (py_get req_body "document_id" JNull) as [document_id|e];
    [|intros [= <- <-]; left; split; [reflexivity | discriminate]].
  destruct (py_get req_body "action_status" JNull) as [action_status|e];
    [|intros [= <- <-]; left; split; [reflexivity | discriminate]].
  destruct (py_get req_body "notes" (JStr "")) as [notes|e];
    [|intros [= <- <-]; left; split; [reflexivity | discriminate]].
  destruct (negb (truthy document_id) || negb (truthy action_status));
    [intros [= <- <-]; left; split; [reflexivity | now intros r [= <-]]|].
  destruct (_ensure_initialized Sv w) as [[[]|e] w0] eqn:Hinit;
    destruct (ensure_initialized_frame Sv _ _ _ Hinit) as (Hi & _);
    [|intros [= <- <-]; left; split; [exact Hi | discriminate]].
  rewrite <- Hi. clear Hi Hinit.
  unfold read_item, request.
  destruct (container w0) eqn:Hc;
    [|intros [= <- <-]; left; split; [reflexivity | discriminate]].
  destruct (cosmos_fault Sv (requests w0));
    [intros [= <- <-]; left; split; [reflexivity | discriminate]|].
  destruct document_id as [| | | |id| |];
    try (intros [= <- <-]; left; split; [reflexivity | discriminate]).
  simpl items. destruct (find (has_id id) (items w0)) as [doc|] eqn:Hfind;
    [|intros [= <- <-]; left; split; [reflexivity | discriminate]].
  destruct (has_id_object id doc) as [f ->];
    [apply find_some in Hfind; tauto|].
  simpl setitem. unfold utcnow. cbv beta iota.
  unfold replace_item, request. simpl container. rewrite Hc.
  destruct (cosmos_fault Sv _);
    [intros [= <- <-]; left; split; [reflexivity | discriminate]|].
  simpl items. destruct (existsb (has_id id) (items w0));
    [|intros [= <- <-]; left; split; [reflexivity | discriminate]].
  intros [= <- <-]. right. eexists. split; reflexivity.
Qed.

(** X20: the update endpoint always answers, with 200, 400 or 500, and
    never adds or removes a document; unless it answers 200 every document
    is as it was. *)
Theorem update_outcomes Sv req w :
  exists response w',
    http_update_incident_actions Sv req w = (Return response, w')
    /\ (status_code response = 200 \/ status_code response = 400
        \/ status_code response = 500)
    /\ List.length (items w') = List.length (items w)
    /\ (status_code response <> 200 -> items w' = items w).
Proof.
  unfold http_update_incident_actions, try_except, failure.
  destruct (http_update_incident_actions_try Sv req w) as [[response|e] w1] eqn:E.
  - exists response, w1. split; [reflexivity|].
    assert (Hlen : List.length (items w1) = List.length (items w)).
    { destruct (update_try_items Sv _ _ _ _ E) as [-> | (id & f & f' & _ & _ & ->)];
        [reflexivity | apply replace_doc_length]. }
    destruct (update_try_status Sv _ _ _ _ E) as [(Hi & H400) | (r & [= <-] & H200)].
    + rewrite (H400 response eq_refl). auto.
    + rewrite H200. split; [auto|]. split; [exact Hlen | congruence].
  - destruct (update_try_status Sv _ _ _ _ E) as [(Hi & _) | (r & [=] & _)].
    unfold bind, utcnow, ret. do 2 eexists. split; [reflexivity|]. simpl.
    split; [auto|]. split; [now rewrite Hi | intros _; exact Hi].
Qed.

(** ** The incidents the analysis accepts *)

Lemma str_items_strings l : forall i,
  forallb is_str l = true -> exists parts, str_items i l = Return parts.
Proof.
  induction l as [|v l IH]; intros i; simpl; [eauto|].
  destruct v; try discriminate. simpl. intros H.
  destruct (IH (i + 1) H) as (parts & ->). eauto.
Qed.

Lemma user_message_of_lists Sv d tactics entities :
  get_or "tactics" (JArr []) d = JArr tactics ->
  forallb is_str tactics = true ->
  get_or "relatedEntities" (JArr []) d = JArr entities ->
  exists um, user_message_of Sv d = Return um.
Proof.
  intros Ht Hs He. unfold user_message_of, build_user_message.
  rewrite Ht, He. simpl py_len. cbv beta iota.
  assert (H1 : exists text, (if truthy (JArr tactics) then py_join ", " (JArr tactics)
                             else Return "None identified") = Return text).
  { destruct tactics as [|t l]; [simpl; eauto|].
    destruct (str_items_strings (t :: l) 0 Hs) as (parts & Hp).
    unfold py_join. simpl truthy. cbv iota. rewrite Hp. eauto. }
  destruct H1 as (text & ->).
  destruct entities as [|x l]; simpl; eauto.
Qed.

Lemma analyze_incident_message_fails Sv d w e :
  ready w -> user_message_of Sv d = Raise e ->
  analyze_incident Sv (JObj d) w = (Raise e, w).
Proof.
  intros (Hi & Hc & Ho) Hum. unfold analyze_incident. unfold bind at 1.
  rewrite (ensure_initialized_ready Sv w Hi). rewrite Ho. simpl.
  unfold user_message_of, get_or in Hum. unfold bind, lift, ret. simpl.
  now rewrite Hum.
Qed.

(** X21: what the analysis asks of an incident.  On an initialised
    processor an incident whose tactics are a list of strings (or absent)
    and whose relatedEntities are a list (or absent) is always analysed:
    analyze_incident returns after exactly one chat request.  When the
    user message cannot be built, analyze_incident raises before any
    request is sent, and the receiver answers 400 with the text of the
    exception, storing nothing; this is the case, with a TypeError, as
    soon as one item of the tactics is not a string. *)
Theorem analysis_needs_string_tactics Sv d w :
  ready w ->
  (forall tactics entities,
     get_or "tactics" (JArr []) d = JArr tactics ->
     forallb is_str tactics = true ->
     get_or "relatedEntities" (JArr []) d = JArr entities ->
     exists analysis um,
       analyze_incident Sv (JObj d) w
       = (Return analysis, sent (ChatCall (analysis_messages um)) w))
  /\ (forall e,
        user_message_of Sv d = Raise e ->
        analyze_incident Sv (JObj d) w = (Raise e, w)
        /\ forall req b,
             get_json req = Return (JObj b) -> unwrapped b = JObj d ->
             sentinel_receiver Sv req w
             = (Return (failure_response Sv e (clock w) 400), tick w))
  /\ (forall tactics i v,
        get_or "tactics" (JArr []) d = JArr tactics ->
        nth_error tactics i = Some v -> is_str v = false ->
        exists e, user_message_of Sv d = Raise e /\ exn_class e = "TypeError").
Proof.
  intros Hready. split; [|split].
  - intros tactics entities Ht Hs He.
    destruct (user_message_of_lists Sv d tactics entities Ht Hs He) as (um & Hum).
    rewrite (analyze_incident_ready Sv d w um Hready Hum). eauto.
  - intros e Hum.
    pose proof (analyze_incident_message_fails Sv d w e Hready Hum) as Ha.
    split; [exact Ha|]. intros req b Hbody Hinc.
    unfold sentinel_receiver, try_except. unfold bind at 1, lift. rewrite Hbody.
    unfold bind at 1. rewrite (incident_fields_dict b d Hinc).
    unfold bind at 1. now rewrite Ha.
  - intros tactics i v Ht Hnth Hv.
    assert (Hitems : forall l k j, nth_error l k = Some v ->
                       exists e, str_items j l = Raise e /\ exn_class e = "TypeError").
    { induction l as [|x l IH]; intros k j Hk; [now destruct k|].
      destruct k as [|k]; simpl in Hk.
      - injection Hk as ->. destruct v; try discriminate; simpl; eauto.
      - destruct (IH k (j + 1) Hk) as (e & He & Hc).
        destruct x; simpl; eauto. rewrite He. eauto. }
    destruct (Hitems tactics i 0 Hnth) as (e & He & Hc).
    exists e. split; [|exact Hc].
    unfold user_message_of, build_user_message. rewrite Ht.
    destruct tactics as [|t l]; [now destruct i|].
    simpl truthy. cbv iota. unfold py_join. now rewrite He.
Qed.

Lemma analysis_needs_string_tactics_witness :
  ready Scripted.started
  /\ user_message_of Scripted.terse [("tactics", JArr [JInt 7])]
     = Raise (Exn "TypeError" "sequence item 0: expected str instance, int found")
  /\ sentinel_receiver Scripted.terse
       (post_request (JObj [("tactics", JArr [JInt 7])])) Scripted.started
     = (Return (failure_response Scripted.terse
                  (Exn "TypeError" "sequence item 0: expected str instance, int found")
                  (clock Scripted.started) 400),
        tick Scripted.started).
Proof.
  assert (H1 : ready Scripted.started) by (repeat split).
  assert (H2 : user_message_of Scripted.terse [("tactics", JArr [JInt 7])]
               = Raise (Exn "TypeError"
                            "sequence item 0: expected str instance, int found"))
    by reflexivity.
  split; [exact H1|]. split; [exact H2|].
  apply (proj2 (proj1 (proj2 (analysis_needs_string_tactics Scripted.terse
                                [("tactics", JArr [JInt 7])] Scripted.started H1))
                      _ H2)
               _ [("tactics", JArr [JInt 7])]);
    reflexivity.
Defined.

(** ** Stored documents in the summary of the MCP tool *)

Lemma forallb_firstn {A} (f : A -> bool) n l :
  forallb f l = true -> forallb f (firstn n l) = true.
Proof.
  revert l. induction n as [|n IH]; intros l; [reflexivity|].
  destruct l as [|x l]; [reflexivity|]. simpl.
  intros H. apply andb_true_iff in H. destruct H as [-> H]. now apply IH.
Qed.

Lemma mcp_summary_first_raises Sv q first rest e :
  incident_summary Sv 0 first = Raise e ->
  mcp_summary Sv q (first :: rest) = Raise e.
Proof.
  intros H. unfold mcp_summary. cbn [firstn summary_entries]. now rewrite H.
Qed.

(** X22: the documents store_incident writes, as the MCP tool summarises
    them.  A document whose analysis is a JSON object with a list of
    strings as immediate_actions (or none) always gets its summary entry.
    A document whose analysis is any other JSON value, which the receiver
    stores all the same, makes the entry raise the AttributeError of
    analysis.get, and with it the summary of every result list that
    starts with the document. *)
Theorem stored_analysis_and_summary Sv d analysis n w i :
  let doc := stored_document Sv d analysis n w in
  (forall a actions,
     analysis = JObj a ->
     get_or "immediate_actions" (JArr []) a = JArr actions ->
     forallb is_str actions = true ->
     exists entry, incident_summary Sv i doc = Return entry)
  /\ ((forall a, analysis <> JObj a) ->
      incident_summary Sv i doc = Raise (attribute_error analysis "get")
      /\ forall q rest,
           mcp_summary Sv q (doc :: rest) = Raise (attribute_error analysis "get")).
Proof.
  intros doc. split.
  - intros a actions -> Ha Hs. unfold incident_summary, doc, stored_document.
    simpl py_get. cbv beta iota. unfold py_get. cbv beta iota. fold (get_or "immediate_actions" (JArr []) a). rewrite Ha.
    destruct actions as [|x l]; [simpl; eauto|].
    simpl truthy. cbv iota. unfold py_slice, py_join.
    destruct (str_items_strings (firstn 2 (x :: l)) 0 (forallb_firstn _ 2 _ Hs))
      as (parts & ->).
    eauto.
  - intros Hn.
    assert (H : forall j, incident_summary Sv j doc = Raise (attribute_error analysis "get")).
    { intros j. unfold incident_summary, doc, stored_document. simpl py_get at 1 2 3 4 5.
      cbv beta iota. unfold py_get.
      destruct analysis as [| | | | | |a]; try reflexivity. now destruct (Hn a). }
    split; [apply H|]. intros q rest. apply mcp_summary_first_raises, H.
Qed.

Lemma stored_analysis_and_summary_witness :
  mcp_summary Scripted.listing "all incidents"
    (items (Scripted.world_after
              (sentinel_receiver Scripted.listing (post_request Scripted.first_delivery))
              Scripted.started))
  = Raise (attribute_error (JArr []) "get").
Proof.
  exact (proj2 (proj2 (stored_analysis_and_summary Scripted.listing
                         [("incidentId", JStr "INC-1"); ("title", JStr "First");
                          ("severity", JStr "High")]
                         (JArr []) 4
                         (sent (ChatCall
                                  (analysis_messages
                                     (Scripted.result_text
                                        (user_message_of Scripted.listing
                                           [("incidentId", JStr "INC-1");
                                            ("title", JStr "First");
                                            ("severity", JStr "High")]))))
                               Scripted.started)
                         0)
                      ltac:(discriminate))
               "all incidents" []).
Defined.
